(** * aip-otel-exporter: the Python package, embedded and verified

    A shallow embedding of [packages/python/src/aip_otel_exporter]:
    [attributes.py], [span_builder.py], [manual.py], [metrics.py], the
    lazy import of [__init__.py] and the two methods of [instrumentor.py].

    The records the package receives are duck-typed Python dictionaries, so
    they are embedded as untyped Python values and every access goes through
    the Python operation the source uses ([.get], [len], [or], truthiness,
    subscripting, [str.join]), each of which may raise.  The telemetry SDK is
    a collaborator: spans, the tracer and the metric instruments are modelled
    as the state those calls build up. *)

From stdpp Require Import gmap strings list fin_maps.
From Stdlib Require Import ZArith QArith.

#[local] Set Warnings "-register-all,-clear-no-such-hyp".
#[local] Open Scope Z_scope.

(** ** Python values *)

(** The values a record can hold.  Dictionaries are keyed by strings, as the
    records of this package are.  A float is only ever tested for truth and
    passed through, so a rational stands for it.  A [gmap] keeps no insertion
    order: where the source iterates over a dictionary, only the set of
    entries is modelled, not their order. *)
Inductive value : Type :=
| VNone
| VBool (b : bool)
| VInt (n : Z)
| VFloat (q : Q)
| VStr (s : string)
| VList (l : list value)
| VDict (d : gmap string value).

(** ** Exceptions and the exception monad *)

Inductive exn : Type :=
| AttributeError
| TypeError
| KeyError (key : string)
| ImportError (msg : string).

Inductive outcome (A : Type) : Type :=
| Ok (a : A)
| Raise (e : exn).
Arguments Ok {A} a.
Arguments Raise {A} e.

#[global] Instance outcome_ret : MRet outcome := λ A a, Ok a.
#[global] Instance outcome_bind : MBind outcome := λ A B f m,
  match m with
  | Ok a => f a
  | Raise e => Raise e
  end.
#[global] Instance outcome_fmap : FMap outcome := λ A B f m,
  match m with
  | Ok a => Ok (f a)
  | Raise e => Raise e
  end.

(** A computation that may raise and that changes a state of type [St]; an
    exception keeps the state reached when it was raised. *)
Definition M (St A : Type) : Type := St → outcome A * St.

Definition ret {St A} (a : A) : M St A := λ st, (Ok a, st).
Definition bind {St A B} (m : M St A) (f : A → M St B) : M St B := λ st,
  match m st with
  | (Ok a, st') => f a st'
  | (Raise e, st') => (Raise e, st')
  end.
Definition lift {St A} (r : outcome A) : M St A := λ st, (r, st).
Definition modify {St} (f : St → St) : M St unit := λ st, (Ok tt, f st).
Definition gets {St A} (f : St → A) : M St A := λ st, (Ok (f st), st).

Declare Scope py_scope.
Delimit Scope py_scope with py.
Notation "x <~ m ;; k" := (bind m (λ x, k))
  (at level 100, m at next level, right associativity) : py_scope.
Notation "m ;;; k" := (bind m (λ _, k))
  (at level 100, right associativity) : py_scope.

(** A [for] loop whose body may raise and that threads an accumulator. *)
Fixpoint for_each {A B} (body : B → A → outcome B) (acc : B) (l : list A)
  : outcome B :=
  match l with
  | [] => Ok acc
  | x :: l' => acc' ← body acc x; for_each body acc' l'
  end.

(** ** Python operations *)

(** [bool(v)] *)
Definition py_truthy (v : value) : bool :=
  match v with
  | VNone => false
  | VBool b => b
  | VInt n => negb (n =? 0)
  | VFloat q => negb (Qnum q =? 0)
  | VStr s => negb (String.eqb s "")
  | VList l => match l with [] => false | _ => true end
  | VDict d => negb (bool_decide (d = ∅))
  end.

(** [a or b] *)
Definition py_or (a b : value) : value := if py_truthy a then a else b.

(** [v is None] *)
Definition py_is_none (v : value) : bool :=
  match v with VNone => true | _ => false end.

(** [v.get(key)]: only a dictionary has the method. *)
Definition py_get (v : value) (key : string) : outcome value :=
  match v with
  | VDict d => Ok (default VNone (d !! key))
  | _ => Raise AttributeError
  end.

(** [v.get(key, dflt)] *)
Definition py_get_default (v : value) (key : string) (dflt : value)
  : outcome value :=
  match v with
  | VDict d => Ok (default dflt (d !! key))
  | _ => Raise AttributeError
  end.

(** [v[key]] with a string key. *)
Definition py_getitem (v : value) (key : string) : outcome value :=
  match v with
  | VDict d =>
      match d !! key with
      | Some x => Ok x
      | None => Raise (KeyError key)
      end
  | _ => Raise TypeError
  end.

(** [len(v)]; the characters of a string are its bytes. *)
Definition py_len (v : value) : outcome value :=
  match v with
  | VStr s => Ok (VInt (Z.of_nat (String.length s)))
  | VList l => Ok (VInt (Z.of_nat (length l)))
  | VDict d => Ok (VInt (Z.of_nat (size d)))
  | _ => Raise TypeError
  end.

Fixpoint chars (s : string) : list value :=
  match s with
  | EmptyString => []
  | String c s' => VStr (String c EmptyString) :: chars s'
  end.

(** The items a [for] loop over [v] visits. *)
Definition py_iter (v : value) : outcome (list value) :=
  match v with
  | VList l => Ok l
  | VStr s => Ok (chars s)
  | VDict d => Ok (VStr <$> (map_to_list d).*1)
  | _ => Raise TypeError
  end.

(** [sep.join(v)]: every item must be a string. *)
Definition py_join (sep : string) (v : value) : outcome value :=
  items ← py_iter v;
  strs ← mapM (λ x, match x with VStr s => Ok s | _ => Raise TypeError end) items;
  Ok (VStr (String.concat sep strs)).

(** ** attributes.py: attribute, span, event and metric names *)

Module attr.
Definition AIP_INTEGRITY_CHECKPOINT_ID : string := "aip.integrity.checkpoint_id".
Definition AIP_INTEGRITY_VERDICT : string := "aip.integrity.verdict".
Definition AIP_INTEGRITY_PROCEED : string := "aip.integrity.proceed".
Definition AIP_INTEGRITY_RECOMMENDED_ACTION : string := "aip.integrity.recommended_action".
Definition AIP_INTEGRITY_CONCERNS_COUNT : string := "aip.integrity.concerns_count".
Definition AIP_INTEGRITY_AGENT_ID : string := "aip.integrity.agent_id".
Definition AIP_INTEGRITY_CARD_ID : string := "aip.integrity.card_id".
Definition AIP_INTEGRITY_SESSION_ID : string := "aip.integrity.session_id".
Definition AIP_INTEGRITY_THINKING_HASH : string := "aip.integrity.thinking_hash".
Definition AIP_INTEGRITY_ANALYSIS_MODEL : string := "aip.integrity.analysis_model".
Definition AIP_INTEGRITY_ANALYSIS_DURATION_MS : string := "aip.integrity.analysis_duration_ms".
Definition AIP_INTEGRITY_THINKING_TOKENS : string := "aip.integrity.thinking_tokens".
Definition AIP_INTEGRITY_TRUNCATED : string := "aip.integrity.truncated".
Definition AIP_INTEGRITY_EXTRACTION_CONFIDENCE : string := "aip.integrity.extraction_confidence".

Definition AIP_CONSCIENCE_CONSULTATION_DEPTH : string := "aip.conscience.consultation_depth".
Definition AIP_CONSCIENCE_VALUES_CHECKED_COUNT : string := "aip.conscience.values_checked_count".
Definition AIP_CONSCIENCE_CONFLICTS_COUNT : string := "aip.conscience.conflicts_count".

Definition AIP_WINDOW_SIZE : string := "aip.window.size".
Definition AIP_WINDOW_INTEGRITY_RATIO : string := "aip.window.integrity_ratio".
Definition AIP_WINDOW_DRIFT_ALERT_ACTIVE : string := "aip.window.drift_alert_active".

Definition GEN_AI_EVALUATION_VERDICT : string := "gen_ai.evaluation.verdict".
Definition GEN_AI_EVALUATION_SCORE : string := "gen_ai.evaluation.score".

Definition AAP_VERIFICATION_RESULT : string := "aap.verification.result".
Definition AAP_VERIFICATION_SIMILARITY_SCORE : string := "aap.verification.similarity_score".
Definition AAP_VERIFICATION_VIOLATIONS_COUNT : string := "aap.verification.violations_count".
Definition AAP_VERIFICATION_WARNINGS_COUNT : string := "aap.verification.warnings_count".
Definition AAP_VERIFICATION_TRACE_ID : string := "aap.verification.trace_id".
Definition AAP_VERIFICATION_CARD_ID : string := "aap.verification.card_id".
Definition AAP_VERIFICATION_DURATION_MS : string := "aap.verification.duration_ms".
Definition AAP_VERIFICATION_CHECKS_PERFORMED : string := "aap.verification.checks_performed".

Definition AAP_COHERENCE_COMPATIBLE : string := "aap.coherence.compatible".
Definition AAP_COHERENCE_SCORE : string := "aap.coherence.score".
Definition AAP_COHERENCE_PROCEED : string := "aap.coherence.proceed".
Definition AAP_COHERENCE_MATCHED_COUNT : string := "aap.coherence.matched_count".
Definition AAP_COHERENCE_CONFLICT_COUNT : string := "aap.coherence.conflict_count".

Definition AAP_DRIFT_ALERTS_COUNT : string := "aap.drift.alerts_count".
Definition AAP_DRIFT_TRACES_ANALYZED : string := "aap.drift.traces_analyzed".

Definition SPAN_AIP_INTEGRITY_CHECK : string := "aip.integrity_check".
Definition SPAN_AAP_VERIFY_TRACE : string := "aap.verify_trace".
Definition SPAN_AAP_CHECK_COHERENCE : string := "aap.check_coherence".
Definition SPAN_AAP_DETECT_DRIFT : string := "aap.detect_drift".

Definition EVENT_AIP_CONCERN : string := "aip.concern".
Definition EVENT_AIP_DRIFT_ALERT : string := "aip.drift_alert".
Definition EVENT_AAP_VIOLATION : string := "aap.violation".
Definition EVENT_AAP_DRIFT_ALERT : string := "aap.drift_alert".

Definition METRIC_AIP_INTEGRITY_CHECKS_TOTAL : string := "aip.integrity_checks.total".
Definition METRIC_AIP_CONCERNS_TOTAL : string := "aip.concerns.total".
Definition METRIC_AIP_ANALYSIS_DURATION : string := "aip.analysis.duration_ms".
Definition METRIC_AIP_WINDOW_INTEGRITY_RATIO : string := "aip.window.integrity_ratio".
Definition METRIC_AIP_DRIFT_ALERTS_TOTAL : string := "aip.drift_alerts.total".
Definition METRIC_AAP_VERIFICATIONS_TOTAL : string := "aap.verifications.total".
Definition METRIC_AAP_VIOLATIONS_TOTAL : string := "aap.violations.total".
Definition METRIC_AAP_VERIFICATION_DURATION : string := "aap.verification.duration_ms".
Definition METRIC_AAP_COHERENCE_SCORE : string := "aap.coherence.score".
End attr.

(** ** The tracing collaborator *)

Module SpanKind.
Inductive t : Type := INTERNAL | SERVER | CLIENT | PRODUCER | CONSUMER.
End SpanKind.

Module StatusCode.
Inductive t : Type := UNSET | OK | ERROR.
End StatusCode.

(** A span event as [add_event] receives it. *)
Record event : Type := {
  event_name : value;
  event_attributes : value
}.

(** A span object.  [span_parent] is the context it was started under. *)
Record span : Type := {
  span_name : string;
  span_kind : SpanKind.t;
  span_parent : option nat;
  span_attributes : gmap string value;
  span_events : list event;
  span_status : StatusCode.t;
  span_ended : bool
}.

(** What a tracer and the ambient context amount to: the active span (what
    [context.get_current()] returns), how many spans were started, and the
    spans that were ended, in the order they ended. *)
Record tracer : Type := {
  current_context : option nat;
  spans_started : nat;
  finished_spans : list span
}.

(** [context.get_current()] *)
Definition get_current : M tracer (option nat) := gets current_context.

(** [tracer.start_span(name, kind=..., context=...)] *)
Definition start_span (name : string) (kind : SpanKind.t) (ctx : option nat)
  : M tracer span := λ tr,
  (Ok {| span_name := name; span_kind := kind; span_parent := ctx;
         span_attributes := ∅; span_events := []; span_status := StatusCode.UNSET;
         span_ended := false |},
   {| current_context := current_context tr;
      spans_started := S (spans_started tr);
      finished_spans := finished_spans tr |}).

(** [span.set_attribute(key, value)]; an ended span records nothing more. *)
Definition set_attribute (sp : span) (key : string) (v : value) : span :=
  if span_ended sp then sp else
  {| span_name := span_name sp; span_kind := span_kind sp; span_parent := span_parent sp;
     span_attributes := <[key := v]> (span_attributes sp);
     span_events := span_events sp; span_status := span_status sp;
     span_ended := span_ended sp |}.

(** [span.add_event(name, attributes=...)] *)
Definition add_event (sp : span) (name attributes : value) : span :=
  if span_ended sp then sp else
  {| span_name := span_name sp; span_kind := span_kind sp; span_parent := span_parent sp;
     span_attributes := span_attributes sp;
     span_events := span_events sp ++ [{| event_name := name; event_attributes := attributes |}];
     span_status := span_status sp; span_ended := span_ended sp |}.

(** [span.set_status(code)] *)
Definition set_status (sp : span) (code : StatusCode.t) : span :=
  if span_ended sp then sp else
  {| span_name := span_name sp; span_kind := span_kind sp; span_parent := span_parent sp;
     span_attributes := span_attributes sp; span_events := span_events sp;
     span_status := code; span_ended := span_ended sp |}.

(** [span.end()]: the span stops recording and is handed to the exporter. *)
Definition span_end (sp : span) : M tracer span := λ tr,
  if span_ended sp then (Ok sp, tr) else
  let sp' :=
    {| span_name := span_name sp; span_kind := span_kind sp; span_parent := span_parent sp;
       span_attributes := span_attributes sp; span_events := span_events sp;
       span_status := span_status sp; span_ended := true |} in
  (Ok sp',
   {| current_context := current_context tr;
      spans_started := spans_started tr;
      finished_spans := finished_spans tr ++ [sp'] |}).

(** ** span_builder.py *)

(** [for key, value in attrs.items(): if value is not None:
    span.set_attribute(key, value)] *)
Definition set_optional_attributes (sp : span) (attrs : value) : outcome span :=
  match attrs with
  | VDict d =>
      Ok (map_fold (λ key v sp, if py_is_none v then sp else set_attribute sp key v) sp d)
  | _ => Raise AttributeError
  end.

(** The body of the loop over [events]. *)
Definition add_event_of (sp : span) (ev : value) : outcome span :=
  name ← py_getitem ev "name";
  attributes ← py_get_default ev "attributes" (VDict ∅);
  Ok (add_event sp name attributes).

Definition build_span (span_name : string) (attributes : value) (events : value)
  : M tracer span :=
  (ctx <~ get_current ;;
   sp <~ start_span span_name SpanKind.INTERNAL ctx ;;
   sp <~ lift (set_optional_attributes sp attributes) ;;
   sp <~ (if py_truthy events
          then lift (evs ← py_iter events; for_each add_event_of sp evs)
          else ret sp) ;;
   let sp := set_status sp StatusCode.OK in
   span_end sp)%py.

(** ** Dictionary displays *)

(** [d[k] = v] *)
Definition assign {A} (d : gmap string A) (kv : string * A) : gmap string A :=
  <[kv.1 := kv.2]> d.

(** The dictionary a sequence of assignments builds, starting from the empty
    one. *)
Definition dict_of {A} (items : list (string * A)) : gmap string A :=
  foldl assign ∅ items.

(** The values of a display [{k1: e1, k2: e2, ...}] are evaluated from left
    to right; the first one that raises aborts the display. *)
Fixpoint dict_items (entries : list (string * outcome value))
  : outcome (list (string * value)) :=
  match entries with
  | [] => Ok []
  | (k, r) :: entries' =>
      v ← r; items ← dict_items entries'; Ok ((k, v) :: items)
  end.

Definition dict_literal (entries : list (string * outcome value)) : outcome value :=
  items ← dict_items entries; Ok (VDict (dict_of items)).

(** [len(x) if x is not None else None] *)
Definition len_if_not_none (x : value) : outcome value :=
  if py_is_none x then Ok VNone else py_len x.

(** ** manual.py: record_integrity_check *)

(** Lines 47-84: the attribute dictionary. *)
Definition integrity_check_attributes
  (signal cp meta conscience win concerns values_checked conflicts : value)
  : outcome value :=
  dict_literal [
    (* Checkpoint *)
    (attr.AIP_INTEGRITY_CHECKPOINT_ID, py_get cp "checkpoint_id");
    (attr.AIP_INTEGRITY_VERDICT, py_get cp "verdict");
    (attr.AIP_INTEGRITY_AGENT_ID, py_get cp "agent_id");
    (attr.AIP_INTEGRITY_CARD_ID, py_get cp "card_id");
    (attr.AIP_INTEGRITY_SESSION_ID, py_get cp "session_id");
    (attr.AIP_INTEGRITY_THINKING_HASH, py_get cp "thinking_block_hash");
    (* Signal *)
    (attr.AIP_INTEGRITY_PROCEED, py_get (py_or signal (VDict ∅)) "proceed");
    (attr.AIP_INTEGRITY_RECOMMENDED_ACTION,
       py_get (py_or signal (VDict ∅)) "recommended_action");
    (attr.AIP_INTEGRITY_CONCERNS_COUNT, len_if_not_none concerns);
    (* Analysis metadata *)
    (attr.AIP_INTEGRITY_ANALYSIS_MODEL, py_get meta "analysis_model");
    (attr.AIP_INTEGRITY_ANALYSIS_DURATION_MS, py_get meta "analysis_duration_ms");
    (attr.AIP_INTEGRITY_THINKING_TOKENS, py_get meta "thinking_tokens_original");
    (attr.AIP_INTEGRITY_TRUNCATED, py_get meta "truncated");
    (attr.AIP_INTEGRITY_EXTRACTION_CONFIDENCE, py_get meta "extraction_confidence");
    (* Conscience context *)
    (attr.AIP_CONSCIENCE_CONSULTATION_DEPTH, py_get conscience "consultation_depth");
    (attr.AIP_CONSCIENCE_VALUES_CHECKED_COUNT, len_if_not_none values_checked);
    (attr.AIP_CONSCIENCE_CONFLICTS_COUNT, len_if_not_none conflicts);
    (* Window summary *)
    (attr.AIP_WINDOW_SIZE, py_get win "size");
    (attr.AIP_WINDOW_INTEGRITY_RATIO, py_get win "integrity_ratio");
    (attr.AIP_WINDOW_DRIFT_ALERT_ACTIVE, py_get win "drift_alert_active");
    (* GenAI SIG forward-compat aliases *)
    (attr.GEN_AI_EVALUATION_VERDICT, py_get cp "verdict");
    (attr.GEN_AI_EVALUATION_SCORE, py_get win "integrity_ratio")
  ].

(** Lines 93-102: the event of one concern. *)
Definition concern_event (concern : value) : outcome value :=
  dict_literal [
    ("name", Ok (VStr attr.EVENT_AIP_CONCERN));
    ("attributes", dict_literal [
       ("category", py_get_default concern "category" (VStr ""));
       ("severity", py_get_default concern "severity" (VStr ""));
       ("description", py_get_default concern "description" (VStr ""))
     ])
  ].

(** [events.append(ev)] for each item, with [ev] built by [make]. *)
Definition append_events (make : value → outcome value) (events : list value)
  (items : list value) : outcome (list value) :=
  for_each (λ events item, ev ← make item; Ok (events ++ [ev])) events items.

(** Lines 88-111: the event list. *)
Definition integrity_check_events (concerns win : value) : outcome value :=
  let events := [] in
  events ← (if py_truthy concerns
            then items ← py_iter concerns; append_events concern_event events items
            else Ok events);
  active ← py_get win "drift_alert_active";
  events ← (if py_truthy active
            then ev ← dict_literal [("name", Ok (VStr attr.EVENT_AIP_DRIFT_ALERT));
                                    ("attributes", dict_literal [])];
                 Ok (events ++ [ev])
            else Ok events);
  Ok (VList events).

(** Lines 37-111: what the mapper hands to [build_span]. *)
Definition integrity_check_payload (signal : value) : outcome (value * value) :=
  cp ← (x ← py_get (py_or signal (VDict ∅)) "checkpoint"; Ok (py_or x (VDict ∅)));
  meta ← (x ← py_get cp "analysis_metadata"; Ok (py_or x (VDict ∅)));
  conscience ← (x ← py_get cp "conscience_context"; Ok (py_or x (VDict ∅)));
  win ← (x ← py_get (py_or signal (VDict ∅)) "window_summary"; Ok (py_or x (VDict ∅)));
  concerns ← py_get cp "concerns";
  values_checked ← py_get conscience "values_checked";
  conflicts ← py_get conscience "conflicts";
  attributes ← integrity_check_attributes
                  signal cp meta conscience win concerns values_checked conflicts;
  events ← integrity_check_events concerns win;
  Ok (attributes, events).

Definition record_integrity_check (signal : value) : M tracer span :=
  (payload <~ lift (integrity_check_payload signal) ;;
   build_span attr.SPAN_AIP_INTEGRITY_CHECK payload.1 payload.2)%py.

(** ** manual.py: record_verification *)

(** Lines 133-148. *)
Definition verification_attributes
  (result meta violations warnings checks_performed : value) : outcome value :=
  dict_literal [
    (attr.AAP_VERIFICATION_RESULT, py_get result "verified");
    (attr.AAP_VERIFICATION_SIMILARITY_SCORE, py_get result "similarity_score");
    (attr.AAP_VERIFICATION_VIOLATIONS_COUNT, len_if_not_none violations);
    (attr.AAP_VERIFICATION_WARNINGS_COUNT, len_if_not_none warnings);
    (attr.AAP_VERIFICATION_TRACE_ID, py_get result "trace_id");
    (attr.AAP_VERIFICATION_CARD_ID, py_get result "card_id");
    (attr.AAP_VERIFICATION_DURATION_MS, py_get meta "duration_ms");
    (attr.AAP_VERIFICATION_CHECKS_PERFORMED,
       if py_truthy checks_performed then py_join ", " checks_performed else Ok VNone)
  ].

(** Lines 154-163. *)
Definition violation_event (violation : value) : outcome value :=
  dict_literal [
    ("name", Ok (VStr attr.EVENT_AAP_VIOLATION));
    ("attributes", dict_literal [
       ("type", py_get_default violation "type" (VStr ""));
       ("severity", py_get_default violation "severity" (VStr ""));
       ("description", py_get_default violation "description" (VStr ""))
     ])
  ].

(** Lines 150-163. *)
Definition verification_events (violations : value) : outcome value :=
  let events := [] in
  events ← (if py_truthy violations
            then items ← py_iter violations; append_events violation_event events items
            else Ok events);
  Ok (VList events).

(** Lines 127-163. *)
Definition verification_payload (result : value) : outcome (value * value) :=
  let result := py_or result (VDict ∅) in
  meta ← (x ← py_get result "verification_metadata"; Ok (py_or x (VDict ∅)));
  violations ← py_get result "violations";
  warnings ← py_get result "warnings";
  checks_performed ← py_get meta "checks_performed";
  attributes ← verification_attributes result meta violations warnings checks_performed;
  events ← verification_events violations;
  Ok (attributes, events).

Definition record_verification (result : value) : M tracer span :=
  (payload <~ lift (verification_payload result) ;;
   build_span attr.SPAN_AAP_VERIFY_TRACE payload.1 payload.2)%py.

(** ** manual.py: record_coherence *)

(** Lines 183-193. *)
Definition coherence_attributes (result matched conflicts : value) : outcome value :=
  dict_literal [
    (attr.AAP_COHERENCE_COMPATIBLE, py_get result "compatible");
    (attr.AAP_COHERENCE_SCORE, py_get result "score");
    (attr.AAP_COHERENCE_PROCEED, py_get result "proceed");
    (attr.AAP_COHERENCE_MATCHED_COUNT, len_if_not_none matched);
    (attr.AAP_COHERENCE_CONFLICT_COUNT, len_if_not_none conflicts)
  ].

(** Lines 178-193. *)
Definition coherence_payload (result : value) : outcome value :=
  let result := py_or result (VDict ∅) in
  value_alignment ← (x ← py_get result "value_alignment"; Ok (py_or x (VDict ∅)));
  matched ← py_get value_alignment "matched";
  conflicts ← py_get value_alignment "conflicts";
  coherence_attributes result matched conflicts.

(** [build_span] is called without [events], which then is [None]. *)
Definition record_coherence (result : value) : M tracer span :=
  (attributes <~ lift (coherence_payload result) ;;
   build_span attr.SPAN_AAP_CHECK_COHERENCE attributes VNone)%py.

(** ** manual.py: record_drift *)

(** [if src.get(key) is not None: event_attrs[key] = src[key]] *)
Definition copy_if_present (src : value) (key : string)
  (event_attrs : gmap string value) : outcome (gmap string value) :=
  v ← py_get src key;
  if py_is_none v then Ok event_attrs
  else x ← py_getitem src key; Ok (<[key := x]> event_attrs).

(** Lines 220-241: the event of one alert. *)
Definition drift_alert_event (alert : value) : outcome value :=
  let event_attrs := ∅ in
  analysis ← (x ← py_get alert "analysis"; Ok (py_or x (VDict ∅)));
  event_attrs ← copy_if_present alert "alert_type" event_attrs;
  event_attrs ← copy_if_present alert "agent_id" event_attrs;
  event_attrs ← copy_if_present alert "card_id" event_attrs;
  event_attrs ← copy_if_present analysis "similarity_score" event_attrs;
  event_attrs ← copy_if_present analysis "drift_direction" event_attrs;
  event_attrs ← copy_if_present alert "recommendation" event_attrs;
  dict_literal [("name", Ok (VStr attr.EVENT_AAP_DRIFT_ALERT));
                ("attributes", Ok (VDict event_attrs))].

(** Lines 210-241. *)
Definition drift_payload (alerts traces_analyzed : value) : outcome (value * value) :=
  let alerts := py_or alerts (VList []) in
  attributes ← dict_literal [
    (attr.AAP_DRIFT_ALERTS_COUNT, if py_truthy alerts then py_len alerts else Ok (VInt 0));
    (attr.AAP_DRIFT_TRACES_ANALYZED, Ok traces_analyzed)
  ];
  let events := [] in
  events ← (items ← py_iter alerts; append_events drift_alert_event events items);
  Ok (attributes, VList events).

Definition record_drift (alerts : value) (traces_analyzed : value) : M tracer span :=
  (payload <~ lift (drift_payload alerts traces_analyzed) ;;
   build_span attr.SPAN_AAP_DETECT_DRIFT payload.1 payload.2)%py.

(** The default of the [traces_analyzed] parameter. *)
Definition traces_analyzed_default : value := VInt 0.

(** ** The metrics collaborator *)

Module InstrumentKind.
Inductive t : Type := Counter | Histogram.
#[global] Instance eq_dec : EqDecision t.
Proof. solve_decision. Defined.
End InstrumentKind.

Record instrument : Type := {
  instrument_kind : InstrumentKind.t;
  instrument_name : string;
  instrument_description : string;
  instrument_unit : string
}.

(** One call of [add] or [record], with the amount and the attributes as the
    call passes them; [measured_attributes] is [None] when the call passes
    no label set.  What the metrics library does with a measurement
    afterwards (aggregation, an amount that is no number) is outside this
    model. *)
Record measurement : Type := {
  measured_by : instrument;
  measured_value : value;
  measured_attributes : value
}.

(** The meter [metrics.get_meter] returns: the instruments created on it and
    the measurements they received, both in order. *)
Record meter : Type := {
  instruments_created : list instrument;
  measurements : list measurement
}.

Definition register (ins : instrument) : M meter instrument := λ m,
  (Ok ins, {| instruments_created := instruments_created m ++ [ins];
              measurements := measurements m |}).

(** [meter.create_counter(name, description=...)] *)
Definition create_counter (name description : string) : M meter instrument :=
  register {| instrument_kind := InstrumentKind.Counter; instrument_name := name;
              instrument_description := description; instrument_unit := "" |}.

(** [meter.create_histogram(name, description=..., unit=...)] *)
Definition create_histogram (name description unit : string) : M meter instrument :=
  register {| instrument_kind := InstrumentKind.Histogram; instrument_name := name;
              instrument_description := description; instrument_unit := unit |}.

Definition measure (ins : instrument) (amount attributes : value) : M meter unit :=
  modify (λ m, {| instruments_created := instruments_created m;
                  measurements := measurements m ++
                    [{| measured_by := ins; measured_value := amount;
                        measured_attributes := attributes |}] |}).

(** The bound method [ins.add]: only a counter has it. *)
Definition get_add (ins : instrument) : outcome (value → value → M meter unit) :=
  match instrument_kind ins with
  | InstrumentKind.Counter => Ok (measure ins)
  | InstrumentKind.Histogram => Raise AttributeError
  end.

(** The bound method [ins.record]: only a histogram has it. *)
Definition get_record (ins : instrument) : outcome (value → value → M meter unit) :=
  match instrument_kind ins with
  | InstrumentKind.Histogram => Ok (measure ins)
  | InstrumentKind.Counter => Raise AttributeError
  end.

(** ** metrics.py *)

(** The display of lines 36-75: each value creates an instrument.  The
    [meter_provider] argument only selects the meter that [get_meter]
    returns; the state is that meter. *)
Fixpoint instrument_items (entries : list (string * M meter instrument))
  : M meter (list (string * instrument)) :=
  match entries with
  | [] => ret []
  | (k, create) :: entries' =>
      (ins <~ create ;; items <~ instrument_items entries' ;; ret ((k, ins) :: items))%py
  end.

Definition create_aip_metrics : M meter (gmap string instrument) :=
  (items <~ instrument_items [
     ("integrity_checks",
        create_counter attr.METRIC_AIP_INTEGRITY_CHECKS_TOTAL "Total AIP integrity checks");
     ("concerns",
        create_counter attr.METRIC_AIP_CONCERNS_TOTAL "Total AIP concerns raised");
     ("analysis_duration",
        create_histogram attr.METRIC_AIP_ANALYSIS_DURATION "AIP analysis duration in ms" "ms");
     ("integrity_ratio",
        create_histogram attr.METRIC_AIP_WINDOW_INTEGRITY_RATIO "Window integrity ratio" "");
     ("drift_alerts",
        create_counter attr.METRIC_AIP_DRIFT_ALERTS_TOTAL "Total drift alerts");
     ("verifications",
        create_counter attr.METRIC_AAP_VERIFICATIONS_TOTAL "Total AAP verifications");
     ("violations",
        create_counter attr.METRIC_AAP_VIOLATIONS_TOTAL "Total AAP violations");
     ("verification_duration",
        create_histogram attr.METRIC_AAP_VERIFICATION_DURATION
          "AAP verification duration in ms" "ms");
     ("coherence_score",
        create_histogram attr.METRIC_AAP_COHERENCE_SCORE "AAP coherence score" "")
   ] ;;
   ret (dict_of items))%py.

(** [metrics_dict[key]] *)
Definition metrics_getitem (metrics_dict : gmap string instrument) (key : string)
  : outcome instrument :=
  match metrics_dict !! key with
  | Some ins => Ok ins
  | None => Raise (KeyError key)
  end.

(** [{"verdict": verdict}] *)
Definition verdict_labels (verdict : value) : value :=
  VDict (dict_of [("verdict", verdict)]).

Definition record_integrity_metrics (metrics_dict : gmap string instrument)
  (signal : value) : M meter unit :=
  (let signal := py_or signal (VDict ∅) in
   cp <~ lift (x ← py_get signal "checkpoint"; Ok (py_or x (VDict ∅))) ;;
   meta <~ lift (x ← py_get cp "analysis_metadata"; Ok (py_or x (VDict ∅))) ;;
   win <~ lift (x ← py_get signal "window_summary"; Ok (py_or x (VDict ∅))) ;;
   verdict <~ lift (x ← py_get cp "verdict"; Ok (py_or x (VStr "unknown"))) ;;
   (* Increment integrity checks counter *)
   add <~ lift (ins ← metrics_getitem metrics_dict "integrity_checks"; get_add ins) ;;
   add (VInt 1) (verdict_labels verdict) ;;;
   (* Count concerns *)
   concerns <~ lift (py_get cp "concerns") ;;
   (if py_truthy concerns
    then add <~ lift (ins ← metrics_getitem metrics_dict "concerns"; get_add ins) ;;
         n <~ lift (py_len concerns) ;;
         add n (verdict_labels verdict)
    else ret tt) ;;;
   (* Record analysis duration *)
   duration <~ lift (py_get meta "analysis_duration_ms") ;;
   (if py_is_none duration then ret tt
    else record <~ lift (ins ← metrics_getitem metrics_dict "analysis_duration";
                         get_record ins) ;;
         record duration (verdict_labels verdict)) ;;;
   (* Record window integrity ratio *)
   ratio <~ lift (py_get win "integrity_ratio") ;;
   (if py_is_none ratio then ret tt
    else record <~ lift (ins ← metrics_getitem metrics_dict "integrity_ratio";
                         get_record ins) ;;
         record ratio VNone) ;;;
   (* Count drift alerts *)
   active <~ lift (py_get win "drift_alert_active") ;;
   (if py_truthy active
    then add <~ lift (ins ← metrics_getitem metrics_dict "drift_alerts"; get_add ins) ;;
         add (VInt 1) VNone
    else ret tt))%py.

(** [{"result": result_label}] *)
Definition result_labels (result_label : value) : value :=
  VDict (dict_of [("result", result_label)]).

(** ["pass" if verified else "fail" if verified is not None else "unknown"] *)
Definition result_label_of (verified : value) : value :=
  if py_truthy verified then VStr "pass"
  else if negb (py_is_none verified) then VStr "fail"
  else VStr "unknown".

Definition record_verification_metrics (metrics_dict : gmap string instrument)
  (result : value) : M meter unit :=
  (let result := py_or result (VDict ∅) in
   meta <~ lift (x ← py_get result "verification_metadata"; Ok (py_or x (VDict ∅))) ;;
   verified <~ lift (py_get result "verified") ;;
   let result_label := result_label_of verified in
   (* Increment verifications counter *)
   add <~ lift (ins ← metrics_getitem metrics_dict "verifications"; get_add ins) ;;
   add (VInt 1) (result_labels result_label) ;;;
   (* Count violations *)
   violations <~ lift (py_get result "violations") ;;
   (if py_truthy violations
    then add <~ lift (ins ← metrics_getitem metrics_dict "violations"; get_add ins) ;;
         n <~ lift (py_len violations) ;;
         add n (result_labels result_label)
    else ret tt) ;;;
   (* Record verification duration *)
   duration <~ lift (py_get meta "duration_ms") ;;
   (if py_is_none duration then ret tt
    else record <~ lift (ins ← metrics_getitem metrics_dict "verification_duration";
                         get_record ins) ;;
         record duration (result_labels result_label)) ;;;
   (* Record coherence score if present *)
   score <~ lift (py_get result "score") ;;
   (if py_is_none score then ret tt
    else record <~ lift (ins ← metrics_getitem metrics_dict "coherence_score";
                         get_record ins) ;;
         record score VNone))%py.

(** ** __init__.py: the lazy import of the instrumentor *)

(** What the package can return for a name it resolves lazily. *)
Inductive pyclass : Type := AIPInstrumentor.

(** [import name] in an interpreter where the modules of [installed] can be
    imported. *)
Definition import_module (installed : gset string) (name : string) : outcome unit :=
  if bool_decide (name ∈ installed) then Ok tt
  else Raise (ImportError ("No module named '" +:+ name +:+ "'")).

(** [from .instrumentor import AIPInstrumentor]: running instrumentor.py runs
    its imports (lines 13-19) and then defines the class. *)
Definition import_instrumentor (installed : gset string) : outcome pyclass :=
  import_module installed "importlib";;
  import_module installed "typing";;
  import_module installed "opentelemetry.trace";;
  import_module installed "opentelemetry.instrumentation.instrumentor";;
  Ok AIPInstrumentor.

(** The module-level [__getattr__] of lines 59-70. *)
Definition __getattr__ (installed : gset string) (name : string) : outcome pyclass :=
  if String.eqb name "AIPInstrumentor" then
    match import_instrumentor installed with
    | Ok cls => Ok cls
    | Raise (ImportError _) =>
        Raise (ImportError
          ("AIPInstrumentor requires the 'opentelemetry-instrumentation' " +:+
           "package. Install it with: pip install opentelemetry-instrumentation"))
    | Raise e => Raise e
    end
  else Raise AttributeError.

(** ** instrumentor.py *)

(** What a target can hold: a function of the instrumented library, given
    by what it returns on its arguments (its own effects are not modelled),
    or one of the two wrappers [_instrument] defines.  The wrappers close
    over the tracer; there is one tracer here, so the wrappers of two calls
    of [_instrument] are the same callable. *)
Inductive callable : Type :=
| Original (f : value → outcome value)
| wrapped_check
| wrapped_verify.

(** The interpreter state the instrumentor reads and writes: whether
    [aip.client] can be imported and has a class [AIPClient], the attribute
    [check] of that class (absent: [None]); whether [aap.verification] can
    be imported and its attribute [verify_trace] (absent or [None]:
    [None]); the four attributes of the instrumentor, the two module
    references as whether they are set; and the tracer. *)
Record process : Type := {
  aip_client_importable : bool;
  AIPClient : bool;
  AIPClient_check : option callable;
  aap_verification_importable : bool;
  verify_trace : option callable;
  _original_check : option callable;
  _original_verify : option callable;
  _aip_client_cls : bool;
  _aap_verify_module : bool;
  process_tracer : tracer
}.

Definition set_AIPClient_check (c : option callable) (p : process) : process :=
  {| aip_client_importable := aip_client_importable p; AIPClient := AIPClient p;
     AIPClient_check := c;
     aap_verification_importable := aap_verification_importable p;
     verify_trace := verify_trace p; _original_check := _original_check p;
     _original_verify := _original_verify p; _aip_client_cls := _aip_client_cls p;
     _aap_verify_module := _aap_verify_module p; process_tracer := process_tracer p |}.

Definition set_verify_trace (c : option callable) (p : process) : process :=
  {| aip_client_importable := aip_client_importable p; AIPClient := AIPClient p;
     AIPClient_check := AIPClient_check p;
     aap_verification_importable := aap_verification_importable p;
     verify_trace := c; _original_check := _original_check p;
     _original_verify := _original_verify p; _aip_client_cls := _aip_client_cls p;
     _aap_verify_module := _aap_verify_module p; process_tracer := process_tracer p |}.

Definition set_original_check (c : option callable) (p : process) : process :=
  {| aip_client_importable := aip_client_importable p; AIPClient := AIPClient p;
     AIPClient_check := AIPClient_check p;
     aap_verification_importable := aap_verification_importable p;
     verify_trace := verify_trace p; _original_check := c;
     _original_verify := _original_verify p; _aip_client_cls := _aip_client_cls p;
     _aap_verify_module := _aap_verify_module p; process_tracer := process_tracer p |}.

Definition set_original_verify (c : option callable) (p : process) : process :=
  {| aip_client_importable := aip_client_importable p; AIPClient := AIPClient p;
     AIPClient_check := AIPClient_check p;
     aap_verification_importable := aap_verification_importable p;
     verify_trace := verify_trace p; _original_check := _original_check p;
     _original_verify := c; _aip_client_cls := _aip_client_cls p;
     _aap_verify_module := _aap_verify_module p; process_tracer := process_tracer p |}.

Definition set_aip_client_cls (b : bool) (p : process) : process :=
  {| aip_client_importable := aip_client_importable p; AIPClient := AIPClient p;
     AIPClient_check := AIPClient_check p;
     aap_verification_importable := aap_verification_importable p;
     verify_trace := verify_trace p; _original_check := _original_check p;
     _original_verify := _original_verify p; _aip_client_cls := b;
     _aap_verify_module := _aap_verify_module p; process_tracer := process_tracer p |}.

Definition set_aap_verify_module (b : bool) (p : process) : process :=
  {| aip_client_importable := aip_client_importable p; AIPClient := AIPClient p;
     AIPClient_check := AIPClient_check p;
     aap_verification_importable := aap_verification_importable p;
     verify_trace := verify_trace p; _original_check := _original_check p;
     _original_verify := _original_verify p; _aip_client_cls := _aip_client_cls p;
     _aap_verify_module := b; process_tracer := process_tracer p |}.

Definition set_process_tracer (tr : tracer) (p : process) : process :=
  {| aip_client_importable := aip_client_importable p; AIPClient := AIPClient p;
     AIPClient_check := AIPClient_check p;
     aap_verification_importable := aap_verification_importable p;
     verify_trace := verify_trace p; _original_check := _original_check p;
     _original_verify := _original_verify p; _aip_client_cls := _aip_client_cls p;
     _aap_verify_module := _aap_verify_module p; process_tracer := tr |}.

(** Lines 39-55: the [try] that wraps [aip.client.AIPClient.check].  An
    ImportError is passed over; reading a [check] the class does not have
    raises an AttributeError, which is not. *)
Definition instrument_check : M process unit := λ p,
  if aip_client_importable p then
    if AIPClient p then
      let p := set_aip_client_cls true p in
      match AIPClient_check p with
      | Some original =>
          (Ok tt, set_AIPClient_check (Some wrapped_check)
                    (set_original_check (Some original) p))
      | None => (Raise AttributeError, p)
      end
    else (Ok tt, p)
  else (Ok tt, p).

(** Lines 57-73: the [try] that wraps [aap.verification.verify_trace]. *)
Definition instrument_verify : M process unit := λ p,
  if aap_verification_importable p then
    match verify_trace p with
    | Some original_verify =>
        (Ok tt, set_verify_trace (Some wrapped_verify)
                  (set_original_verify (Some original_verify)
                     (set_aap_verify_module true p)))
    | None => (Ok tt, p)
    end
  else (Ok tt, p).

Definition _instrument : M process unit :=
  (instrument_check ;;; instrument_verify)%py.

(** Lines 75-92. *)
Definition _uninstrument : M process unit := λ p,
  let p :=
    match _aip_client_cls p, _original_check p with
    | true, Some original =>
        set_aip_client_cls false
          (set_original_check None (set_AIPClient_check (Some original) p))
    | _, _ => p
    end in
  let p :=
    match _aap_verify_module p, _original_verify p with
    | true, Some original =>
        set_aap_verify_module false
          (set_original_verify None (set_verify_trace (Some original) p))
    | _, _ => p
    end in
  (Ok tt, p).

(** After the call through: [if result: record(tracer, result)], then
    [return result]. *)
Definition record_if_truthy (record : value → M tracer span) (result : value)
  (p : process) : outcome value * process :=
  if py_truthy result then
    match record result (process_tracer p) with
    | (Ok _, tr) => (Ok result, set_process_tracer tr p)
    | (Raise e, tr) => (Raise e, set_process_tracer tr p)
    end
  else (Ok result, p).

(** A call of [c] on [args], at most [depth] calls deep; [None] when the
    calls nest deeper.  A wrapper reads the saved original from the class
    when it is called; calling [None] raises a TypeError. *)
Fixpoint invoke (depth : nat) (c : callable) (args : value) (p : process)
  : option (outcome value * process) :=
  match depth with
  | O => None
  | S depth =>
      match c with
      | Original f => Some (f args, p)
      | wrapped_check =>
          match _original_check p with
          | None => Some (Raise TypeError, p)
          | Some original =>
              match invoke depth original args p with
              | None => None
              | Some (Raise e, p') => Some (Raise e, p')
              | Some (Ok result, p') =>
                  Some (record_if_truthy record_integrity_check result p')
              end
          end
      | wrapped_verify =>
          match _original_verify p with
          | None => Some (Raise TypeError, p)
          | Some original =>
              match invoke depth original args p with
              | None => None
              | Some (Raise e, p') => Some (Raise e, p')
              | Some (Ok result, p') =>
                  Some (record_if_truthy record_verification result p')
              end
          end
      end
  end.

(** [AIPClient.check(...)] as a caller finds it. *)
Definition call_check (depth : nat) (args : value) (p : process)
  : option (outcome value * process) :=
  match AIPClient_check p with
  | Some c => invoke depth c args p
  | None => Some (Raise AttributeError, p)
  end.

(** [aap.verification.verify_trace(...)] as a caller finds it. *)
Definition call_verify_trace (depth : nat) (args : value) (p : process)
  : option (outcome value * process) :=
  match verify_trace p with
  | Some c => invoke depth c args p
  | None => Some (Raise AttributeError, p)
  end.

(** ** Record shapes *)

(** The field [key] of a record: [None] when the record is no dictionary,
    has no such key, or holds [None] there. *)
Definition field (v : value) (key : string) : value :=
  match v with
  | VDict d => default VNone (d !! key)
  | _ => VNone
  end.

(** The entries of a record, none for what is no dictionary. *)
Definition as_dict (v : value) : gmap string value :=
  match v with
  | VDict d => d
  | _ => ∅
  end.

Definition is_dict (v : value) : bool :=
  match v with VDict _ => true | _ => false end.

Definition is_str (v : value) : bool :=
  match v with VStr _ => true | _ => false end.

(** An optional record: absent, [None] or anything else false, or a
    dictionary. *)
Definition record_like (v : value) : bool :=
  is_dict v || negb (py_truthy v).

(** An optional list: absent or [None], or a list whose entries satisfy
    [p]. *)
Definition list_of (p : value → bool) (v : value) : bool :=
  match v with
  | VNone => true
  | VList l => forallb p l
  | _ => false
  end.

Definition anything (v : value) : bool := true.

(** IntegritySignalInput of types.py, every field optional; scalar fields
    are left unconstrained. *)
Definition integrity_signal_shaped (signal : value) : bool :=
  let cp := field signal "checkpoint" in
  let conscience := field cp "conscience_context" in
  record_like signal
  && record_like cp
  && record_like (field cp "analysis_metadata")
  && record_like conscience
  && record_like (field signal "window_summary")
  && list_of is_dict (field cp "concerns")
  && list_of anything (field conscience "values_checked")
  && list_of anything (field conscience "conflicts").

(** VerificationResultInput of types.py. *)
Definition verification_result_shaped (result : value) : bool :=
  let meta := field result "verification_metadata" in
  record_like result
  && record_like meta
  && list_of is_dict (field result "violations")
  && list_of anything (field result "warnings")
  && list_of is_str (field meta "checks_performed").

(** CoherenceResultInput of types.py. *)
Definition coherence_result_shaped (result : value) : bool :=
  let value_alignment := field result "value_alignment" in
  record_like result
  && record_like value_alignment
  && list_of anything (field value_alignment "matched")
  && list_of anything (field value_alignment "conflicts").

(** DriftAlertInput of types.py. *)
Definition drift_alert_shaped (alert : value) : bool :=
  is_dict alert && record_like (field alert "analysis").

Definition drift_alerts_shaped (alerts : value) : bool :=
  list_of drift_alert_shaped alerts.

(** An entry of the [events] argument of [build_span]: a dictionary with a
    ["name"]. *)
Definition event_shaped (ev : value) : bool :=
  match ev with
  | VDict d => bool_decide (is_Some (d !! "name"))
  | _ => false
  end.

(** The [events] argument of [build_span]: [None] or a list of events. *)
Definition events_shaped (events : value) : bool := list_of event_shaped events.

(** The count rule of a list-valued source field [src] for the attribute
    read back as [a]. *)
Definition count_rule (src : value) (a : option value) : Prop :=
  (src = VNone → a = None) ∧
  (src = VList [] → a = Some (VInt 0)) ∧
  (∀ l, src = VList l → a = Some (VInt (Z.of_nat (length l)))).

(** The strings of a list of string values. *)
Definition strings_of (l : list value) : list string :=
  omap (λ v, match v with VStr s => Some s | _ => None end) l.

(** [needle] occurs in [s]. *)
Definition mentions (needle s : string) : bool :=
  bool_decide (is_Some (String.index 0 needle s)).

(** The entries of a list, none for what is no list. *)
Definition items_of (v : value) : list value :=
  match v with
  | VList l => l
  | _ => []
  end.

(** The span event [add_event] receives for an entry of [events]. *)
Definition event_of (ev : value) : event :=
  {| event_name := field ev "name";
     event_attributes := default (VDict ∅) (as_dict ev !! "attributes") |}.

(** What [.get(key, "")] returns on a record. *)
Definition field_or_empty (v : value) (key : string) : value :=
  default (VStr "") (as_dict v !! key).

(** Whether an attribute value is kept by [set_optional_attributes]. *)
Definition kept (kv : string * value) : Prop := py_is_none kv.2 = false.
#[global] Instance kept_dec kv : Decision (kept kv).
Proof. unfold kept. apply _. Defined.

(** The event dictionary [concern_event] builds from a concern record. *)
Definition concern_event_value (concern : value) : value :=
  VDict (dict_of [
    ("name", VStr attr.EVENT_AIP_CONCERN);
    ("attributes", VDict (dict_of [
       ("category", field_or_empty concern "category");
       ("severity", field_or_empty concern "severity");
       ("description", field_or_empty concern "description")]))]).

(** The event dictionary [violation_event] builds from a violation record. *)
Definition violation_event_value (violation : value) : value :=
  VDict (dict_of [
    ("name", VStr attr.EVENT_AAP_VIOLATION);
    ("attributes", VDict (dict_of [
       ("type", field_or_empty violation "type");
       ("severity", field_or_empty violation "severity");
       ("description", field_or_empty violation "description")]))]).

(** The attribute-less event of an active drift alert. *)
Definition drift_active_event_value : value :=
  VDict (dict_of [("name", VStr attr.EVENT_AIP_DRIFT_ALERT); ("attributes", VDict ∅)]).

(** [if v is not None: d[k] = v] *)
Definition assign_present (d : gmap string value) (kv : string * value)
  : gmap string value :=
  if py_is_none kv.2 then d else <[kv.1 := kv.2]> d.

(** The dictionary a sequence of [if v is not None: d[k] = v] builds. *)
Definition present_only (items : list (string * value)) : gmap string value :=
  foldl assign_present ∅ items.

(** The six event attributes of a drift alert and the field each is read
    from. *)
Definition drift_alert_sources (alert : value) : list (string * value) :=
  [ ("alert_type", field alert "alert_type");
    ("agent_id", field alert "agent_id");
    ("card_id", field alert "card_id");
    ("similarity_score", field (field alert "analysis") "similarity_score");
    ("drift_direction", field (field alert "analysis") "drift_direction");
    ("recommendation", field alert "recommendation") ].

(** The event dictionary [drift_alert_event] builds from an alert record. *)
Definition drift_alert_event_value (alert : value) : value :=
  VDict (dict_of [
    ("name", VStr attr.EVENT_AAP_DRIFT_ALERT);
    ("attributes", VDict (present_only (drift_alert_sources alert)))]).

(** ** What a run of a mapper is observed to do *)

(** A run from tracer [tr] returned a span: the one span it started, named
    [name], with status OK, ended, handed to the exporter last, and with no
    attribute holding [None]. *)
Definition one_ok_span (name : string) (tr : tracer)
  (run : outcome span * tracer) : Prop :=
  ∃ sp, run.1 = Ok sp
    ∧ span_name sp = name
    ∧ span_kind sp = SpanKind.INTERNAL
    ∧ span_status sp = StatusCode.OK
    ∧ span_ended sp = true
    ∧ spans_started run.2 = S (spans_started tr)
    ∧ finished_spans run.2 = finished_spans tr ++ [sp]
    ∧ ∀ k, span_attributes sp !! k ≠ Some VNone.

(** The attribute [key] of the span a run returned, if it returned one and
    the span has the attribute. *)
Definition attribute_of (run : outcome span * tracer) (key : string) : option value :=
  match run.1 with
  | Ok sp => span_attributes sp !! key
  | Raise _ => None
  end.

(** The events of the span a run returned. *)
Definition events_of (run : outcome span * tracer) : list event :=
  match run.1 with
  | Ok sp => span_events sp
  | Raise _ => []
  end.

Definition returns {St A} (run : outcome A * St) : Prop := ∃ a, run.1 = Ok a.

(** ** Sample records, after the fixtures of tests/test_manual.py *)

Definition dict (items : list (string * value)) : value := VDict (dict_of items).

Definition empty_tracer : tracer :=
  {| current_context := None; spans_started := 0; finished_spans := [] |}.

Definition SIGNAL_FIXTURE : value := dict [
  ("checkpoint", dict [
     ("checkpoint_id", VStr "ic-test-123");
     ("agent_id", VStr "agent-1");
     ("card_id", VStr "card-1");
     ("session_id", VStr "session-1");
     ("verdict", VStr "review_needed");
     ("thinking_block_hash", VStr "sha256-abc");
     ("concerns", VList [
        dict [("category", VStr "value_misalignment"); ("severity", VStr "medium");
              ("description", VStr "Minor concern")];
        dict [("category", VStr "autonomy_violation"); ("severity", VStr "high");
              ("description", VStr "Major concern")]]);
     ("conscience_context", dict [
        ("consultation_depth", VStr "standard");
        ("values_checked", VList [VStr "v1"; VStr "v2"; VStr "v3"]);
        ("conflicts", VList [VStr "c1"])]);
     ("analysis_metadata", dict [
        ("analysis_model", VStr "claude-3-haiku");
        ("analysis_duration_ms", VFloat (4505 # 10));
        ("thinking_tokens_original", VInt 1200);
        ("truncated", VBool false);
        ("extraction_confidence", VFloat (95 # 100))])]);
  ("proceed", VBool true);
  ("recommended_action", VStr "log_and_continue");
  ("window_summary", dict [
     ("size", VInt 5);
     ("integrity_ratio", VFloat (8 # 10));
     ("drift_alert_active", VBool false)])].

Definition VERIFICATION_FIXTURE : value := dict [
  ("verified", VBool false);
  ("trace_id", VStr "trace-123");
  ("card_id", VStr "card-1");
  ("violations", VList [
     dict [("type", VStr "forbidden_action"); ("severity", VStr "critical");
           ("description", VStr "Attempted forbidden action")]]);
  ("warnings", VList [dict [("type", VStr "style"); ("description", VStr "Style warning")]]);
  ("verification_metadata", dict [
     ("duration_ms", VInt 120);
     ("checks_performed", VList [VStr "action_bounds"; VStr "value_alignment"])]);
  ("similarity_score", VFloat (75 # 100))].

Definition COHERENCE_FIXTURE : value := dict [
  ("compatible", VBool true);
  ("score", VFloat (9 # 10));
  ("proceed", VBool true);
  ("value_alignment", dict [
     ("matched", VList [VStr "a"; VStr "b"]);
     ("conflicts", VList [])])].

Definition DRIFT_ALERTS_FIXTURE : value := VList [
  dict [("alert_type", VStr "drift_detected");
        ("agent_id", VStr "agent-1");
        ("card_id", VStr "card-1");
        ("analysis", dict [("similarity_score", VFloat (3 # 10));
                           ("drift_direction", VStr "value_drift")]);
        ("recommendation", VStr "review")]].

(** ** The attribute groups of the integrity mapper *)

(** The keys of the attribute display of [record_integrity_check], grouped
    as its comments group them. *)
Definition checkpoint_keys : list string :=
  [ attr.AIP_INTEGRITY_CHECKPOINT_ID; attr.AIP_INTEGRITY_VERDICT;
    attr.AIP_INTEGRITY_AGENT_ID; attr.AIP_INTEGRITY_CARD_ID;
    attr.AIP_INTEGRITY_SESSION_ID; attr.AIP_INTEGRITY_THINKING_HASH ].

Definition signal_keys : list string :=
  [ attr.AIP_INTEGRITY_PROCEED; attr.AIP_INTEGRITY_RECOMMENDED_ACTION;
    attr.AIP_INTEGRITY_CONCERNS_COUNT ].

Definition analysis_metadata_keys : list string :=
  [ attr.AIP_INTEGRITY_ANALYSIS_MODEL; attr.AIP_INTEGRITY_ANALYSIS_DURATION_MS;
    attr.AIP_INTEGRITY_THINKING_TOKENS; attr.AIP_INTEGRITY_TRUNCATED;
    attr.AIP_INTEGRITY_EXTRACTION_CONFIDENCE ].

Definition conscience_keys : list string :=
  [ attr.AIP_CONSCIENCE_CONSULTATION_DEPTH; attr.AIP_CONSCIENCE_VALUES_CHECKED_COUNT;
    attr.AIP_CONSCIENCE_CONFLICTS_COUNT ].

Definition window_keys : list string :=
  [ attr.AIP_WINDOW_SIZE; attr.AIP_WINDOW_INTEGRITY_RATIO;
    attr.AIP_WINDOW_DRIFT_ALERT_ACTIVE ].

Definition alias_keys : list string :=
  [ attr.GEN_AI_EVALUATION_VERDICT; attr.GEN_AI_EVALUATION_SCORE ].

Definition integrity_keys : list string :=
  checkpoint_keys ++ signal_keys ++ analysis_metadata_keys ++ conscience_keys
  ++ window_keys ++ alias_keys.

(** ** Counting instruments *)

Definition of_kind (kind : InstrumentKind.t) (kv : string * instrument) : Prop :=
  instrument_kind kv.2 = kind.
#[global] Instance of_kind_dec kind kv : Decision (of_kind kind kv).
Proof. unfold of_kind. apply _. Defined.

(** How many instruments of [metrics_dict] are of the given kind. *)
Definition instruments_of_kind (kind : InstrumentKind.t)
  (metrics_dict : gmap string instrument) : nat :=
  size (filter (of_kind kind) metrics_dict).

(** The short names [create_aip_metrics] returns its instruments under, in
    the order of its display. *)
Definition instrument_names : list string :=
  [ "integrity_checks"; "concerns"; "analysis_duration"; "integrity_ratio";
    "drift_alerts"; "verifications"; "violations"; "verification_duration";
    "coherence_score" ].

Definition empty_meter : meter := {| instruments_created := []; measurements := [] |}.

(** ** Events *)

(** The event is named [name]. *)
Definition is_named (name : string) (ev : event) : bool :=
  match event_name ev with
  | VStr s => String.eqb s name
  | _ => false
  end.

(** The attribute dictionary [a] of an event has exactly the three keys
    [keys], each holding the sub-field of [src] of that name, or the empty
    string when [src] has no such sub-field. *)
Definition three_attributes (keys : list string) (src : value)
  (a : gmap string value) : Prop :=
  dom a = list_to_set keys
  ∧ size a = 3%nat
  ∧ ∀ k, k ∈ keys →
      a !! k = Some (match as_dict src !! k with
                     | Some v => v
                     | None => VStr ""
                     end).

Definition concern_keys : list string := ["category"; "severity"; "description"].
Definition violation_keys : list string := ["type"; "severity"; "description"].

(** The four event attributes of a drift alert read from the alert itself. *)
Definition drift_alert_own_keys : list string :=
  ["alert_type"; "agent_id"; "card_id"; "recommendation"].

(** ** Absent and empty parent objects *)

(** [f] cannot tell a record without the parent object [key] from the same
    record with an empty one there, nor one with [None] there. *)
Definition treats_absent_as_empty {A} (f : value → M tracer A) (key : string) : Prop :=
  ∀ (d : gmap string value) (tr : tracer),
    f (VDict (delete key d)) tr = f (VDict (<[key := VDict ∅]> d)) tr
    ∧ f (VDict (<[key := VNone]> d)) tr = f (VDict (<[key := VDict ∅]> d)) tr.

(** ** Attribute tables *)

(** The attribute a source value gives: none for [None]. *)
Definition present (v : value) : option value :=
  if py_is_none v then None else Some v.

(** The attributes of the integrity span that are read from a field as it
    is, each with that field. *)
Definition integrity_sources (signal : value) : list (string * value) :=
  let cp := field signal "checkpoint" in
  let meta := field cp "analysis_metadata" in
  let conscience := field cp "conscience_context" in
  let win := field signal "window_summary" in
  [ (attr.AIP_INTEGRITY_CHECKPOINT_ID, field cp "checkpoint_id");
    (attr.AIP_INTEGRITY_VERDICT, field cp "verdict");
    (attr.AIP_INTEGRITY_AGENT_ID, field cp "agent_id");
    (attr.AIP_INTEGRITY_CARD_ID, field cp "card_id");
    (attr.AIP_INTEGRITY_SESSION_ID, field cp "session_id");
    (attr.AIP_INTEGRITY_THINKING_HASH, field cp "thinking_block_hash");
    (attr.AIP_INTEGRITY_PROCEED, field signal "proceed");
    (attr.AIP_INTEGRITY_RECOMMENDED_ACTION, field signal "recommended_action");
    (attr.AIP_INTEGRITY_ANALYSIS_MODEL, field meta "analysis_model");
    (attr.AIP_INTEGRITY_ANALYSIS_DURATION_MS, field meta "analysis_duration_ms");
    (attr.AIP_INTEGRITY_THINKING_TOKENS, field meta "thinking_tokens_original");
    (attr.AIP_INTEGRITY_TRUNCATED, field meta "truncated");
    (attr.AIP_INTEGRITY_EXTRACTION_CONFIDENCE, field meta "extraction_confidence");
    (attr.AIP_CONSCIENCE_CONSULTATION_DEPTH, field conscience "consultation_depth");
    (attr.AIP_WINDOW_SIZE, field win "size");
    (attr.AIP_WINDOW_INTEGRITY_RATIO, field win "integrity_ratio");
    (attr.AIP_WINDOW_DRIFT_ALERT_ACTIVE, field win "drift_alert_active");
    (attr.GEN_AI_EVALUATION_VERDICT, field cp "verdict");
    (attr.GEN_AI_EVALUATION_SCORE, field win "integrity_ratio") ].

(** The same for the verification span. *)
Definition verification_sources (result : value) : list (string * value) :=
  [ (attr.AAP_VERIFICATION_RESULT, field result "verified");
    (attr.AAP_VERIFICATION_SIMILARITY_SCORE, field result "similarity_score");
    (attr.AAP_VERIFICATION_TRACE_ID, field result "trace_id");
    (attr.AAP_VERIFICATION_CARD_ID, field result "card_id");
    (attr.AAP_VERIFICATION_DURATION_MS,
       field (field result "verification_metadata") "duration_ms") ].

(** The same for the coherence span. *)
Definition coherence_sources (result : value) : list (string * value) :=
  [ (attr.AAP_COHERENCE_COMPATIBLE, field result "compatible");
    (attr.AAP_COHERENCE_SCORE, field result "score");
    (attr.AAP_COHERENCE_PROCEED, field result "proceed") ].

(** The keys of the attribute displays of the other three mappers. *)
Definition verification_keys : list string :=
  [ attr.AAP_VERIFICATION_RESULT; attr.AAP_VERIFICATION_SIMILARITY_SCORE;
    attr.AAP_VERIFICATION_VIOLATIONS_COUNT; attr.AAP_VERIFICATION_WARNINGS_COUNT;
    attr.AAP_VERIFICATION_TRACE_ID; attr.AAP_VERIFICATION_CARD_ID;
    attr.AAP_VERIFICATION_DURATION_MS; attr.AAP_VERIFICATION_CHECKS_PERFORMED ].

Definition coherence_keys : list string :=
  [ attr.AAP_COHERENCE_COMPATIBLE; attr.AAP_COHERENCE_SCORE;
    attr.AAP_COHERENCE_PROCEED; attr.AAP_COHERENCE_MATCHED_COUNT;
    attr.AAP_COHERENCE_CONFLICT_COUNT ].

(** The event of an active drift alert as [add_event] receives it. *)
Definition drift_active_event : event :=
  {| event_name := VStr attr.EVENT_AIP_DRIFT_ALERT; event_attributes := VDict ∅ |}.

(** ** Measurements *)

(** [x] when [b] holds, nothing otherwise. *)
Definition optional {A} (b : bool) (x : A) : list A := if b then [x] else [].

(** A call of [add] or [record] on [ins]. *)
Definition measured (ins : instrument) (amount attributes : value) : measurement :=
  {| measured_by := ins; measured_value := amount; measured_attributes := attributes |}.

(** ** The lazy import and the instrumentor *)

(** The modules instrumentor.py imports from outside the package. *)
Definition instrumentor_imports : list string :=
  [ "importlib"; "typing"; "opentelemetry.trace";
    "opentelemetry.instrumentation.instrumentor" ].

(** An instrumentor that holds nothing: the state of a new one, and the
    state [_uninstrument] leaves. *)
Definition holds_nothing (p : process) : Prop :=
  _original_check p = None ∧ _original_verify p = None
  ∧ _aip_client_cls p = false ∧ _aap_verify_module p = false.

(** [aip.client.AIPClient] can be found. *)
Definition check_resolvable (p : process) : bool :=
  aip_client_importable p && AIPClient p.

(** [aap.verification.verify_trace] can be found. *)
Definition verify_resolvable (p : process) : bool :=
  aap_verification_importable p
  && match verify_trace p with Some _ => true | None => false end.

(** A process in which both targets can be found, [check] returns the
    signal [r1] and [verify_trace] the result [r2], and the instrumentor
    holds nothing. *)
Definition sample_process (r1 r2 : value) : process :=
  {| aip_client_importable := true; AIPClient := true;
     AIPClient_check := Some (Original (λ _, Ok r1));
     aap_verification_importable := true;
     verify_trace := Some (Original (λ _, Ok r2));
     _original_check := None; _original_verify := None;
     _aip_client_cls := false; _aap_verify_module := false;
     process_tracer := empty_tracer |}.

(** * Properties *)

(** ** Python operations *)

Section python_operations.
Implicit Types (v x : value) (d : gmap string value) (k : string).

Lemma py_truthy_dict d : py_truthy (VDict d) = false → d = ∅.
Proof.
  simpl. intros H. apply negb_false_iff in H. by apply bool_decide_eq_true in H.
Qed.

Lemma py_or_dict d : py_or (VDict d) (VDict ∅) = VDict d.
Proof.
  unfold py_or. destruct (py_truthy (VDict d)) eqn:E; [done|].
  by rewrite (py_truthy_dict _ E).
Qed.

Lemma py_or_record_like x :
  record_like x = true → py_or x (VDict ∅) = VDict (as_dict x).
Proof.
  destruct x; try (by intros; apply py_or_dict);
    unfold record_like, py_or; simpl is_dict; simpl as_dict;
    by destruct (py_truthy _).
Qed.

Lemma py_get_dict d k : py_get (VDict d) k = Ok (field (VDict d) k).
Proof. done. Qed.

Lemma field_as_dict x k : field (VDict (as_dict x)) k = field x k.
Proof. destruct x; simpl; by rewrite ?lookup_empty. Qed.

Lemma py_get_as_dict x k : py_get (VDict (as_dict x)) k = Ok (field x k).
Proof. by rewrite py_get_dict, field_as_dict. Qed.

(** What [field] forgets: whether the key is missing or holds [None]. *)
Lemma field_None d k :
  field (VDict d) k = VNone ↔ d !! k = None ∨ d !! k = Some VNone.
Proof.
  simpl. destruct (d !! k) as [v|]; simpl; split; intros H; auto.
  - subst. by right.
  - destruct H as [H|H]; [done|by inversion H].
Qed.

Lemma len_if_not_none_list_of (p : value → bool) x :
  list_of p x = true →
  len_if_not_none x =
    Ok (match x with VList l => VInt (Z.of_nat (length l)) | _ => VNone end).
Proof. by destruct x. Qed.

End python_operations.

(** ** Dictionaries built by assignments and by displays *)

Section dictionaries.
Context {A : Type}.
Implicit Types (items : list (string * A)) (acc : gmap string A).

Lemma lookup_assign_other items acc k :
  k ∉ items.*1 → foldl assign acc items !! k = acc !! k.
Proof.
  revert acc. induction items as [|[k' v'] items IH]; intros acc Hk; [done|].
  simpl in *. apply not_elem_of_cons in Hk as [Hne Hk].
  rewrite IH by done. unfold assign. simpl. by rewrite lookup_insert_ne.
Qed.

Lemma lookup_assign items acc k v :
  NoDup items.*1 → (k, v) ∈ items → foldl assign acc items !! k = Some v.
Proof.
  revert acc. induction items as [|[k' v'] items IH]; intros acc Hnd Hin.
  - by apply elem_of_nil in Hin.
  - simpl in *. apply NoDup_cons in Hnd as [Hk' Hnd].
    apply elem_of_cons in Hin as [Heq|Hin].
    + inversion Heq; subst. rewrite lookup_assign_other by done.
      unfold assign. simpl. by rewrite lookup_insert_eq.
    + by apply IH.
Qed.

Lemma dom_assign items acc :
  dom (foldl assign acc items) = dom acc ∪ list_to_set items.*1.
Proof.
  revert acc. induction items as [|[k v] items IH]; intros acc; simpl.
  - set_solver.
  - rewrite IH. unfold assign. simpl. rewrite dom_insert_L. set_solver.
Qed.

Lemma lookup_dict_of items k v :
  NoDup items.*1 → (k, v) ∈ items → dict_of items !! k = Some v.
Proof. apply lookup_assign. Qed.

Lemma lookup_dict_of_None items k :
  k ∉ items.*1 → dict_of items !! k = None.
Proof. intros H. unfold dict_of. rewrite (lookup_assign_other items ∅ k H). done. Qed.

Lemma dom_dict_of items : dom (dict_of items) = list_to_set items.*1.
Proof. unfold dict_of. rewrite (dom_assign items ∅). set_solver. Qed.

Lemma size_dict_of items :
  NoDup items.*1 → size (dict_of items) = length items.
Proof.
  intros Hnd. rewrite <- size_dom, dom_dict_of, size_list_to_set by done.
  by rewrite length_fmap.
Qed.

End dictionaries.

Section displays.
Implicit Types (entries : list (string * outcome value)).
Implicit Types (items : list (string * value)) (d : gmap string value).

Lemma dict_items_keys entries items :
  dict_items entries = Ok items → items.*1 = entries.*1.
Proof.
  revert items. induction entries as [|[k r] entries IH]; intros items H; simpl in *.
  - by inversion H.
  - destruct r as [v|e]; [|done]. simpl in H.
    destruct (dict_items entries) as [items'|e]; [|done]. simpl in H.
    inversion H; subst. simpl. f_equal. by apply IH.
Qed.

Lemma dict_items_elem entries items k r :
  dict_items entries = Ok items → (k, r) ∈ entries →
  ∃ v, r = Ok v ∧ (k, v) ∈ items.
Proof.
  revert items. induction entries as [|[k' r'] entries IH]; intros items H Hin.
  - by apply elem_of_nil in Hin.
  - simpl in H. destruct r' as [v'|e]; [|done]. simpl in H.
    destruct (dict_items entries) as [items'|e] eqn:E; [|done]. simpl in H.
    inversion H; subst. apply elem_of_cons in Hin as [Heq|Hin].
    + inversion Heq; subst. exists v'. split; [done|]. apply elem_of_cons. by left.
    + destruct (IH items' eq_refl Hin) as (v & -> & Hv).
      exists v. split; [done|]. apply elem_of_cons. by right.
Qed.

Lemma dict_items_total entries :
  Forall (λ e, ∃ v, e.2 = Ok v) entries → ∃ items, dict_items entries = Ok items.
Proof.
  induction 1 as [|[k r] entries [v Hv] _ [items IH]]; simpl.
  - by eexists.
  - simpl in Hv. subst. rewrite IH. simpl. by eexists.
Qed.

Lemma dict_literal_inv entries a :
  dict_literal entries = Ok a →
  ∃ items, dict_items entries = Ok items ∧ a = VDict (dict_of items).
Proof.
  unfold dict_literal. destruct (dict_items entries) as [items|e]; [|done].
  simpl. intros H. inversion H. by exists items.
Qed.

(** The keys of a display do not depend on the values. *)
Lemma dict_literal_dom entries a :
  dict_literal entries = Ok a →
  ∃ d, a = VDict d ∧ dom d = list_to_set entries.*1.
Proof.
  intros (items & Hi & ->)%dict_literal_inv. eexists. split; [done|].
  by rewrite dom_dict_of, (dict_items_keys _ _ Hi).
Qed.

Lemma dict_literal_size entries a :
  NoDup entries.*1 → dict_literal entries = Ok a →
  ∃ d, a = VDict d ∧ size d = length entries.
Proof.
  intros Hnd (items & Hi & ->)%dict_literal_inv. eexists. split; [done|].
  pose proof (dict_items_keys _ _ Hi) as Hk.
  rewrite size_dict_of by (by rewrite Hk).
  by rewrite <- (length_fmap fst items), Hk, length_fmap.
Qed.

(** Each entry of a display with distinct keys is found under its key. *)
Lemma dict_literal_lookup entries d k r :
  NoDup entries.*1 → dict_literal entries = Ok (VDict d) → (k, r) ∈ entries →
  ∃ v, r = Ok v ∧ d !! k = Some v.
Proof.
  intros Hnd (items & Hi & Hd)%dict_literal_inv Hin. inversion Hd; subst.
  destruct (dict_items_elem _ _ _ _ Hi Hin) as (v & -> & Hv).
  exists v. split; [done|]. apply lookup_dict_of; [|done].
  by rewrite (dict_items_keys _ _ Hi).
Qed.

Lemma dict_literal_total entries :
  Forall (λ e, ∃ v, e.2 = Ok v) entries → ∃ d, dict_literal entries = Ok (VDict d).
Proof.
  intros [items Hi]%dict_items_total. unfold dict_literal. rewrite Hi. by eexists.
Qed.

End displays.

(** ** span_builder.py *)

Section span_builder.
Implicit Types (sp : span) (d : gmap string value) (tr : tracer).

(** The loop of [set_optional_attributes] keeps exactly the entries that are
    not [None], and touches nothing else of the span. *)
Lemma set_optional_attributes_run sp d :
  span_ended sp = false →
  set_optional_attributes sp (VDict d) =
    Ok {| span_name := span_name sp; span_kind := span_kind sp;
          span_parent := span_parent sp;
          span_attributes := filter kept d ∪ span_attributes sp;
          span_events := span_events sp; span_status := span_status sp;
          span_ended := false |}.
Proof.
  intros Hrec. unfold set_optional_attributes. f_equal.
  apply (map_fold_weak_ind (λ r m, r =
    {| span_name := span_name sp; span_kind := span_kind sp;
       span_parent := span_parent sp;
       span_attributes := filter kept m ∪ span_attributes sp;
       span_events := span_events sp; span_status := span_status sp;
       span_ended := false |})).
  - rewrite map_filter_empty, (left_id_L ∅ (∪)). destruct sp; simpl in *. by subst.
  - intros k v m r Hk ->. destruct (py_is_none v) eqn:Hv.
    + rewrite map_filter_insert_not'; [done| |].
      * unfold kept. simpl. congruence.
      * intros y Hy. congruence.
    + unfold set_attribute. simpl.
      rewrite map_filter_insert_True by done. by rewrite insert_union_l.
Qed.

Lemma add_event_of_run sp ev :
  span_ended sp = false → event_shaped ev = true →
  add_event_of sp ev =
    Ok {| span_name := span_name sp; span_kind := span_kind sp;
          span_parent := span_parent sp; span_attributes := span_attributes sp;
          span_events := span_events sp ++ [event_of ev];
          span_status := span_status sp; span_ended := false |}.
Proof.
  intros Hrec Hev. destruct ev as [| | | | | |d]; try done.
  simpl in Hev. apply bool_decide_eq_true in Hev as [x Hx].
  unfold add_event_of, add_event, event_of. simpl. rewrite Hx, Hrec. done.
Qed.

Lemma add_events_run sp evs :
  span_ended sp = false → forallb event_shaped evs = true →
  for_each add_event_of sp evs =
    Ok {| span_name := span_name sp; span_kind := span_kind sp;
          span_parent := span_parent sp; span_attributes := span_attributes sp;
          span_events := span_events sp ++ (event_of <$> evs);
          span_status := span_status sp; span_ended := false |}.
Proof.
  revert sp. induction evs as [|ev evs IH]; intros sp Hrec Hevs; simpl.
  - rewrite (right_id_L [] (++)). destruct sp; simpl in *. by subst.
  - apply andb_true_iff in Hevs as [Hev Hevs].
    rewrite add_event_of_run by done. simpl.
    rewrite IH by done. simpl. by rewrite <- (assoc_L (++)).
Qed.

(** [build_span] on an attribute dictionary and a well-formed event list:
    the span it returns and the tracer it leaves. *)
Lemma build_span_run name d events tr :
  events_shaped events = true →
  let sp :=
    {| span_name := name; span_kind := SpanKind.INTERNAL;
       span_parent := current_context tr;
       span_attributes := filter kept d;
       span_events := event_of <$> items_of events;
       span_status := StatusCode.OK; span_ended := true |} in
  build_span name (VDict d) events tr =
    (Ok sp, {| current_context := current_context tr;
               spans_started := S (spans_started tr);
               finished_spans := finished_spans tr ++ [sp] |}).
Proof.
  intros Hev. unfold build_span, bind, get_current, gets, start_span, lift.
  rewrite set_optional_attributes_run by done. simpl.
  rewrite (right_id_L ∅ (∪)).
  destruct events as [| | | | |evs|]; try done.
  destruct evs as [|ev evs]; [done|].
  cbn [py_truthy py_iter mbind outcome_bind].
  rewrite add_events_run by done. done.
Qed.

End span_builder.

(** ** manual.py: evaluating the mappers on well-shaped records *)

Lemma append_events_run (make : value → outcome value) (g : value → value)
    (acc l : list value) :
  Forall (λ x, make x = Ok (g x)) l →
  append_events make acc l = Ok (acc ++ (g <$> l)).
Proof.
  unfold append_events. intros H. revert acc.
  induction H as [|x l Hx _ IH]; intros acc; simpl.
  - by rewrite (right_id_L [] (++)).
  - rewrite Hx. simpl. rewrite IH. by rewrite <- (assoc_L (++)).
Qed.

Lemma forallb_is_dict_run (make : value → outcome value) (g : value → value)
    (l : list value) :
  (∀ d, make (VDict d) = Ok (g (VDict d))) →
  forallb is_dict l = true → Forall (λ x, make x = Ok (g x)) l.
Proof.
  intros Hm. induction l as [|x l IH]; intros Hl; [by apply Forall_nil|].
  simpl in Hl. apply andb_true_iff in Hl as [Hx Hl].
  apply Forall_cons. split; [|by apply IH]. by destruct x.
Qed.

Lemma concern_event_run d :
  concern_event (VDict d) = Ok (concern_event_value (VDict d)).
Proof. reflexivity. Qed.

Lemma violation_event_run d :
  violation_event (VDict d) = Ok (violation_event_value (VDict d)).
Proof. reflexivity. Qed.

(** Splits a shape hypothesis into its conjuncts. *)
Ltac split_shape H :=
  repeat match type of H with
         | _ && _ = true => let H' := fresh "Hshape" in apply andb_true_iff in H as [H H']
         end.

(** Runs the [or {}] and [.get] steps of a mapper on shaped records. *)
Ltac run_locals :=
  repeat first
    [ rewrite py_or_record_like by assumption
    | rewrite py_get_as_dict
    | progress cbn [mbind outcome_bind fst snd] ].

(** An entry of an attribute display evaluates without raising. *)
Ltac solve_entry :=
  cbn [snd];
  first [ rewrite py_get_as_dict
        | erewrite len_if_not_none_list_of by eassumption
        | idtac ];
  by eexists.

Section integrity_check.
Variable signal : value.
Hypothesis shaped : integrity_signal_shaped signal = true.

Let cp := field signal "checkpoint".
Let meta := field cp "analysis_metadata".
Let conscience := field cp "conscience_context".
Let win := field signal "window_summary".
Let concerns := field cp "concerns".

Lemma integrity_check_events_run :
  integrity_check_events concerns (VDict (as_dict win)) =
    Ok (VList ((concern_event_value <$> items_of concerns) ++
               (if py_truthy (field win "drift_alert_active")
                then [drift_active_event_value] else []))).
Proof.
  pose proof shaped as H. unfold integrity_signal_shaped in H. split_shape H.
  unfold integrity_check_events. subst concerns win conscience meta cp.
  set (concerns := field (field signal "checkpoint") "concerns") in *.
  assert (Hev : (if py_truthy concerns
                 then items ← py_iter concerns; append_events concern_event [] items
                 else Ok []) = Ok (concern_event_value <$> items_of concerns)).
  { destruct concerns as [| | | | |l|]; try done.
    simpl in *. destruct l as [|c l]; [done|].
    cbn [mbind outcome_bind].
    rewrite (append_events_run concern_event concern_event_value); [done|].
    apply forallb_is_dict_run; [apply concern_event_run|done]. }
  rewrite Hev. cbn [mbind outcome_bind]. rewrite py_get_as_dict.
  cbn [mbind outcome_bind].
  destruct (py_truthy (field (field signal "window_summary") "drift_alert_active")).
  - reflexivity.
  - cbn [mbind outcome_bind]. by rewrite (right_id_L [] (++)).
Qed.

Lemma integrity_check_attributes_run :
  ∃ d, integrity_check_attributes signal
         (VDict (as_dict cp)) (VDict (as_dict meta)) (VDict (as_dict conscience))
         (VDict (as_dict win)) concerns
         (field conscience "values_checked") (field conscience "conflicts")
       = Ok (VDict d).
Proof.
  pose proof shaped as H. unfold integrity_signal_shaped in H. split_shape H.
  unfold integrity_check_attributes. apply dict_literal_total.
  subst concerns win conscience meta cp.
  rewrite py_or_record_like by done.
  repeat (constructor; [solve_entry|]). constructor.
Qed.

Lemma integrity_check_payload_run :
  ∃ d,
    integrity_check_attributes signal
      (VDict (as_dict cp)) (VDict (as_dict meta)) (VDict (as_dict conscience))
      (VDict (as_dict win)) concerns
      (field conscience "values_checked") (field conscience "conflicts")
    = Ok (VDict d) ∧
    integrity_check_payload signal =
      Ok (VDict d,
          VList ((concern_event_value <$> items_of concerns) ++
                 (if py_truthy (field win "drift_alert_active")
                  then [drift_active_event_value] else []))).
Proof.
  destruct integrity_check_attributes_run as [d Hd]. exists d. split; [done|].
  pose proof shaped as H. unfold integrity_signal_shaped in H. split_shape H.
  pose proof integrity_check_events_run as Hev.
  unfold integrity_check_payload. subst concerns win conscience meta cp.
  run_locals. rewrite Hd. run_locals. rewrite Hev. done.
Qed.

End integrity_check.

Lemma mapM_strings (l : list value) :
  forallb is_str l = true →
  mapM (λ x, match x with VStr s => Ok s | _ => Raise TypeError end) l
  = Ok (strings_of l).
Proof.
  induction l as [|x l IH]; intros Hl; [done|].
  simpl in Hl. apply andb_true_iff in Hl as [Hx Hl].
  destruct x; try done. simpl. rewrite (IH Hl). done.
Qed.

Lemma checks_performed_run (x : value) :
  list_of is_str x = true →
  (if py_truthy x then py_join ", " x else Ok VNone) =
    Ok (if py_truthy x
        then VStr (String.concat ", " (strings_of (items_of x))) else VNone).
Proof.
  destruct x as [| | | | |l|]; try done. intros Hl.
  destruct l as [|y l]; [done|].
  cbn [py_truthy items_of]. unfold py_join. cbn [py_iter mbind outcome_bind].
  rewrite mapM_strings by done. done.
Qed.

Section verification.
Variable result : value.
Hypothesis shaped : verification_result_shaped result = true.

Let meta := field result "verification_metadata".
Let violations := field result "violations".
Let checks_performed := field meta "checks_performed".

Lemma verification_events_run :
  verification_events violations =
    Ok (VList (violation_event_value <$> items_of violations)).
Proof.
  pose proof shaped as H. unfold verification_result_shaped in H. split_shape H.
  unfold verification_events. subst checks_performed violations meta.
  destruct (field result "violations") as [| | | | |l|]; try done.
  simpl in *. destruct l as [|c l]; [done|].
  cbn [mbind outcome_bind].
  rewrite (append_events_run violation_event violation_event_value); [done|].
  apply forallb_is_dict_run; [apply violation_event_run|done].
Qed.

Lemma verification_attributes_run :
  ∃ d, verification_attributes (VDict (as_dict result)) (VDict (as_dict meta))
         violations (field result "warnings") checks_performed
       = Ok (VDict d).
Proof.
  pose proof shaped as H. unfold verification_result_shaped in H. split_shape H.
  unfold verification_attributes. apply dict_literal_total.
  subst checks_performed violations meta.
  rewrite checks_performed_run by done.
  repeat (constructor; [solve_entry|]). constructor.
Qed.

Lemma verification_payload_run :
  ∃ d,
    verification_attributes (VDict (as_dict result)) (VDict (as_dict meta))
      violations (field result "warnings") checks_performed
    = Ok (VDict d) ∧
    verification_payload result =
      Ok (VDict d, VList (violation_event_value <$> items_of violations)).
Proof.
  destruct verification_attributes_run as [d Hd]. exists d. split; [done|].
  pose proof shaped as H. unfold verification_result_shaped in H. split_shape H.
  pose proof verification_events_run as Hev.
  unfold verification_payload. subst checks_performed violations meta.
  cbv zeta. run_locals. rewrite Hd. run_locals. rewrite Hev. done.
Qed.

End verification.

Section coherence.
Variable result : value.
Hypothesis shaped : coherence_result_shaped result = true.

Let value_alignment := field result "value_alignment".

Lemma coherence_payload_run :
  ∃ d,
    coherence_attributes (VDict (as_dict result))
      (field value_alignment "matched") (field value_alignment "conflicts")
    = Ok (VDict d) ∧
    coherence_payload result = Ok (VDict d).
Proof.
  pose proof shaped as H. unfold coherence_result_shaped in H. split_shape H.
  subst value_alignment.
  assert (∃ d, coherence_attributes (VDict (as_dict result))
                 (field (field result "value_alignment") "matched")
                 (field (field result "value_alignment") "conflicts")
               = Ok (VDict d)) as [d Hd].
  { unfold coherence_attributes. apply dict_literal_total.
    repeat (constructor; [solve_entry|]). constructor. }
  exists d. split; [done|].
  unfold coherence_payload. cbv zeta. run_locals. done.
Qed.

End coherence.

Section drift.
Implicit Types (src alert alerts : value) (acc : gmap string value).

Lemma copy_if_present_run src key acc :
  copy_if_present (VDict (as_dict src)) key acc =
    Ok (if py_is_none (field src key) then acc else <[key := field src key]> acc).
Proof.
  unfold copy_if_present. rewrite py_get_as_dict. cbn [mbind outcome_bind].
  destruct (py_is_none (field src key)) eqn:E; [done|].
  destruct src; try done. simpl in *.
  destruct (d !! key) as [v|]; [done|done].
Qed.

Lemma drift_alert_event_run alert :
  drift_alert_shaped alert = true →
  drift_alert_event alert = Ok (drift_alert_event_value alert).
Proof.
  intros [Hd Ha]%andb_true_iff. destruct alert as [| | | | | |d]; try done.
  unfold drift_alert_event. rewrite py_get_dict. cbn [mbind outcome_bind].
  rewrite py_or_record_like by done.
  change (VDict d) with (VDict (as_dict (VDict d))).
  rewrite !copy_if_present_run. cbn [mbind outcome_bind].
  rewrite !copy_if_present_run. cbn [mbind outcome_bind].
  rewrite !copy_if_present_run. cbn [mbind outcome_bind].
  rewrite !copy_if_present_run. cbn [mbind outcome_bind].
  rewrite !copy_if_present_run. cbn [mbind outcome_bind].
  rewrite !copy_if_present_run. cbn [mbind outcome_bind].
  reflexivity.
Qed.

Lemma drift_payload_run alerts traces_analyzed :
  drift_alerts_shaped alerts = true →
  drift_payload alerts traces_analyzed =
    Ok (VDict (dict_of [
          (attr.AAP_DRIFT_ALERTS_COUNT, VInt (Z.of_nat (length (items_of alerts))));
          (attr.AAP_DRIFT_TRACES_ANALYZED, traces_analyzed)]),
        VList (drift_alert_event_value <$> items_of alerts)).
Proof.
  intros Hs. unfold drift_payload. cbv zeta.
  assert (Hor : py_or alerts (VList []) = VList (items_of alerts)).
  { destruct alerts as [| | | | |l|]; try done. by destruct l. }
  rewrite Hor.
  assert (Hall : Forall (λ x, drift_alert_event x = Ok (drift_alert_event_value x))
                   (items_of alerts)).
  { clear Hor. destruct alerts as [| | | | |l|]; try done; try by constructor.
    simpl in *. induction l as [|a l IH]; [by constructor|].
    simpl in Hs. apply andb_true_iff in Hs as [Ha Hl].
    constructor; [by apply drift_alert_event_run|by apply IH]. }
  cbn [py_iter mbind outcome_bind].
  rewrite (append_events_run _ _ _ _ Hall).
  destruct (items_of alerts); reflexivity.
Qed.

End drift.

(** ** What the mappers emit *)

Lemma lookup_kept (d : gmap string value) (k : string) :
  filter kept d !! k =
    match d !! k with
    | Some v => if py_is_none v then None else Some v
    | None => None
    end.
Proof.
  destruct (d !! k) as [v|] eqn:E.
  - destruct (py_is_none v) eqn:Hv.
    + apply map_lookup_filter_None. right. intros x Hx. unfold kept. simpl. congruence.
    + apply map_lookup_filter_Some. done.
  - apply map_lookup_filter_None. by left.
Qed.

Lemma lookup_kept_not_None (d : gmap string value) (k : string) :
  filter kept d !! k ≠ Some VNone.
Proof.
  rewrite lookup_kept. destruct (d !! k) as [v|]; [|done].
  destruct v; simpl; congruence.
Qed.

Lemma build_span_observed name (d : gmap string value) events tr :
  events_shaped events = true →
  let run := build_span name (VDict d) events tr in
  one_ok_span name tr run
  ∧ (∀ k, attribute_of run k = filter kept d !! k)
  ∧ events_of run = event_of <$> items_of events.
Proof.
  intros Hev run. subst run. unfold one_ok_span, attribute_of, events_of.
  rewrite (build_span_run name d events tr Hev). cbn [fst snd].
  split; [|done]. eexists. split; [done|]. cbn.
  repeat split; try done. intros k. apply lookup_kept_not_None.
Qed.

Lemma event_shaped_fmap (g : value → value) (l : list value) :
  (∀ x, event_shaped (g x) = true) → forallb event_shaped (g <$> l) = true.
Proof.
  intros Hg. induction l as [|x l IH]; [done|].
  rewrite fmap_cons. cbn [forallb]. by rewrite Hg, IH.
Qed.

Lemma event_shaped_concern c : event_shaped (concern_event_value c) = true.
Proof. by vm_compute. Qed.

Lemma event_shaped_violation c : event_shaped (violation_event_value c) = true.
Proof. by vm_compute. Qed.

Lemma event_shaped_drift_alert a : event_shaped (drift_alert_event_value a) = true.
Proof. by vm_compute. Qed.

Lemma forallb_app_true {A} (p : A → bool) (l1 l2 : list A) :
  forallb p l1 = true → forallb p l2 = true → forallb p (l1 ++ l2) = true.
Proof. intros H1 H2. rewrite forallb_app. by rewrite H1, H2. Qed.

Lemma record_integrity_check_observed signal tr :
  integrity_signal_shaped signal = true →
  let cp := field signal "checkpoint" in
  let conscience := field cp "conscience_context" in
  let win := field signal "window_summary" in
  let run := record_integrity_check signal tr in
  ∃ d,
    integrity_check_attributes signal
      (VDict (as_dict cp)) (VDict (as_dict (field cp "analysis_metadata")))
      (VDict (as_dict conscience)) (VDict (as_dict win)) (field cp "concerns")
      (field conscience "values_checked") (field conscience "conflicts")
    = Ok (VDict d)
    ∧ one_ok_span attr.SPAN_AIP_INTEGRITY_CHECK tr run
    ∧ (∀ k, attribute_of run k = filter kept d !! k)
    ∧ events_of run =
        event_of <$> ((concern_event_value <$> items_of (field cp "concerns")) ++
                      (if py_truthy (field win "drift_alert_active")
                       then [drift_active_event_value] else [])).
Proof.
  intros Hs cp conscience win run.
  destruct (integrity_check_payload_run signal Hs) as (d & Hd & Hp).
  exists d. split; [exact Hd|].
  subst run. unfold record_integrity_check, bind, lift. rewrite Hp. cbn [fst snd].
  apply (build_span_observed _ d (VList _) tr).
  apply forallb_app_true.
  - apply event_shaped_fmap, event_shaped_concern.
  - by destruct (py_truthy _).
Qed.

Lemma record_verification_observed result tr :
  verification_result_shaped result = true →
  let meta := field result "verification_metadata" in
  let run := record_verification result tr in
  ∃ d,
    verification_attributes (VDict (as_dict result)) (VDict (as_dict meta))
      (field result "violations") (field result "warnings")
      (field meta "checks_performed")
    = Ok (VDict d)
    ∧ one_ok_span attr.SPAN_AAP_VERIFY_TRACE tr run
    ∧ (∀ k, attribute_of run k = filter kept d !! k)
    ∧ events_of run =
        event_of <$> (violation_event_value <$> items_of (field result "violations")).
Proof.
  intros Hs meta run.
  destruct (verification_payload_run result Hs) as (d & Hd & Hp).
  exists d. split; [exact Hd|].
  subst run. unfold record_verification, bind, lift. rewrite Hp. cbn [fst snd].
  apply (build_span_observed _ d (VList _) tr).
  apply event_shaped_fmap, event_shaped_violation.
Qed.

Lemma record_coherence_observed result tr :
  coherence_result_shaped result = true →
  let value_alignment := field result "value_alignment" in
  let run := record_coherence result tr in
  ∃ d,
    coherence_attributes (VDict (as_dict result))
      (field value_alignment "matched") (field value_alignment "conflicts")
    = Ok (VDict d)
    ∧ one_ok_span attr.SPAN_AAP_CHECK_COHERENCE tr run
    ∧ (∀ k, attribute_of run k = filter kept d !! k)
    ∧ events_of run = [].
Proof.
  intros Hs value_alignment run.
  destruct (coherence_payload_run result Hs) as (d & Hd & Hp).
  exists d. split; [exact Hd|].
  subst run. unfold record_coherence, bind, lift. rewrite Hp.
  apply (build_span_observed _ d VNone tr). done.
Qed.

Lemma record_drift_observed alerts traces_analyzed tr :
  drift_alerts_shaped alerts = true →
  let run := record_drift alerts traces_analyzed tr in
  one_ok_span attr.SPAN_AAP_DETECT_DRIFT tr run
  ∧ (∀ k, attribute_of run k =
          filter kept (dict_of [
            (attr.AAP_DRIFT_ALERTS_COUNT, VInt (Z.of_nat (length (items_of alerts))));
            (attr.AAP_DRIFT_TRACES_ANALYZED, traces_analyzed)]) !! k)
  ∧ events_of run = event_of <$> (drift_alert_event_value <$> items_of alerts).
Proof.
  intros Hs run. subst run. unfold record_drift, bind, lift.
  rewrite (drift_payload_run _ _ Hs). cbn [fst snd].
  apply (build_span_observed _ _ (VList _) tr).
  apply event_shaped_fmap, event_shaped_drift_alert.
Qed.

(** ** Counts *)

(** Finds an entry of a display by its key. *)
Ltac find_entry :=
  repeat first [ apply list_elem_of_here | apply list_elem_of_further ].

(** The keys of a display are pairwise distinct. *)
Ltac distinct_keys :=
  cbn [fmap list_fmap fst]; apply (bool_decide_unpack _); by vm_compute.

Lemma count_rule_kept (d : gmap string value) (k : string) (src v : value) :
  d !! k = Some v → len_if_not_none src = Ok v →
  count_rule src (filter kept d !! k).
Proof.
  intros Hk Hv. rewrite lookup_kept, Hk. repeat split.
  - intros ->. simpl in Hv. by inversion Hv.
  - intros ->. simpl in Hv. by inversion Hv.
  - intros l ->. simpl in Hv. by inversion Hv.
Qed.

(** The count attribute [key] of a display [attributes] that holds
    [len_if_not_none src] under [key]. *)
Ltac count_attribute Hd Hattr :=
  rewrite Hattr;
  match type of Hd with
  | dict_literal ?es = Ok (VDict ?d) =>
      match goal with
      | |- count_rule ?src (filter kept d !! ?key) =>
          let Hl := fresh in
          destruct (dict_literal_lookup es d key (len_if_not_none src)) as (? & Hl & ?);
          [ distinct_keys | exact Hd | find_entry | ];
          eapply count_rule_kept; eassumption
      end
  end.

Lemma returns_one_ok_span name tr (run : outcome span * tracer) :
  one_ok_span name tr run → returns run.
Proof. intros (sp & H & _). by exists sp. Qed.

(** C1. For the seven count attributes of the integrity, verification and
    coherence mappers, on records of the shape of types.py: each mapper
    returns a span, and on it the attribute is absent when the source list
    field is absent or [None], is 0 when the list is empty, and is the
    number of entries of the list otherwise. *)
Theorem count_attributes_follow_source_lists (signal vres cres : value) (tr : tracer) :
  integrity_signal_shaped signal = true →
  verification_result_shaped vres = true →
  coherence_result_shaped cres = true →
  let cp := field signal "checkpoint" in
  let conscience := field cp "conscience_context" in
  let value_alignment := field cres "value_alignment" in
  let irun := record_integrity_check signal tr in
  let vrun := record_verification vres tr in
  let crun := record_coherence cres tr in
  returns irun ∧ returns vrun ∧ returns crun
  ∧ count_rule (field cp "concerns")
      (attribute_of irun attr.AIP_INTEGRITY_CONCERNS_COUNT)
  ∧ count_rule (field conscience "values_checked")
      (attribute_of irun attr.AIP_CONSCIENCE_VALUES_CHECKED_COUNT)
  ∧ count_rule (field conscience "conflicts")
      (attribute_of irun attr.AIP_CONSCIENCE_CONFLICTS_COUNT)
  ∧ count_rule (field vres "violations")
      (attribute_of vrun attr.AAP_VERIFICATION_VIOLATIONS_COUNT)
  ∧ count_rule (field vres "warnings")
      (attribute_of vrun attr.AAP_VERIFICATION_WARNINGS_COUNT)
  ∧ count_rule (field value_alignment "matched")
      (attribute_of crun attr.AAP_COHERENCE_MATCHED_COUNT)
  ∧ count_rule (field value_alignment "conflicts")
      (attribute_of crun attr.AAP_COHERENCE_CONFLICT_COUNT).
Proof.
  intros Hi Hv Hc cp conscience value_alignment irun vrun crun.
  destruct (record_integrity_check_observed signal tr Hi) as (di & Hdi & Hio & Hia & _).
  destruct (record_verification_observed vres tr Hv) as (dv & Hdv & Hvo & Hva & _).
  destruct (record_coherence_observed cres tr Hc) as (dc & Hdc & Hco & Hca & _).
  fold irun in Hio, Hia. fold vrun in Hvo, Hva. fold crun in Hco, Hca.
  unfold integrity_check_attributes in Hdi. unfold verification_attributes in Hdv.
  unfold coherence_attributes in Hdc.
  split; [by eapply returns_one_ok_span|].
  split; [by eapply returns_one_ok_span|].
  split; [by eapply returns_one_ok_span|].
  subst cp conscience value_alignment.
  repeat match goal with |- _ ∧ _ => split end.
  - count_attribute Hdi Hia.
  - count_attribute Hdi Hia.
  - count_attribute Hdi Hia.
  - count_attribute Hdv Hva.
  - count_attribute Hdv Hva.
  - count_attribute Hdc Hca.
  - count_attribute Hdc Hca.
Qed.

Lemma count_attributes_witness :
  integrity_signal_shaped SIGNAL_FIXTURE = true
  ∧ verification_result_shaped VERIFICATION_FIXTURE = true
  ∧ coherence_result_shaped COHERENCE_FIXTURE = true
  ∧ attribute_of (record_integrity_check SIGNAL_FIXTURE empty_tracer)
      attr.AIP_INTEGRITY_CONCERNS_COUNT = Some (VInt 2)
  ∧ attribute_of (record_verification VERIFICATION_FIXTURE empty_tracer)
      attr.AAP_VERIFICATION_WARNINGS_COUNT = Some (VInt 1)
  ∧ attribute_of (record_coherence COHERENCE_FIXTURE empty_tracer)
      attr.AAP_COHERENCE_CONFLICT_COUNT = Some (VInt 0).
Proof.
  assert (Hi : integrity_signal_shaped SIGNAL_FIXTURE = true) by (by vm_compute).
  assert (Hv : verification_result_shaped VERIFICATION_FIXTURE = true) by (by vm_compute).
  assert (Hc : coherence_result_shaped COHERENCE_FIXTURE = true) by (by vm_compute).
  destruct (count_attributes_follow_source_lists
              SIGNAL_FIXTURE VERIFICATION_FIXTURE COHERENCE_FIXTURE empty_tracer Hi Hv Hc)
    as (_ & _ & _ & (_ & _ & Hconcerns) & _ & _ & _ & (_ & _ & Hwarnings) & _
        & (_ & Hconflicts & _)).
  refine (conj Hi (conj Hv (conj Hc (conj (Hconcerns [_; _] _)
            (conj (Hwarnings [_] _) (Hconflicts _)))))); by vm_compute.
Defined.

(** ** The attribute set of the integrity mapper *)

Lemma bind_Ok_inv {A B} (m : outcome A) (f : A → outcome B) (b : B) :
  m ≫= f = Ok b → ∃ a, m = Ok a ∧ f a = Ok b.
Proof. destruct m as [a|e]; [|done]. intros H. by exists a. Qed.

Lemma integrity_keys_entries
    (signal cp meta conscience win concerns values_checked conflicts a : value) :
  integrity_check_attributes
    signal cp meta conscience win concerns values_checked conflicts = Ok a →
  ∃ d, a = VDict d ∧ size d = 22%nat ∧ dom d = list_to_set integrity_keys.
Proof.
  unfold integrity_check_attributes. intros H. pose proof H as H'.
  apply dict_literal_size in H as (d & -> & Hsize); [|distinct_keys].
  apply dict_literal_dom in H' as (d' & Hd' & Hdom). inversion Hd'; subst d'.
  exists d. done.
Qed.

(** C3, amended. The attribute set the integrity mapper builds has exactly
    22 keys: 6 checkpoint fields, 3 signal-level fields, 5 analysis-metadata
    fields, 3 conscience fields, 3 window fields and 2 forward-compatibility
    aliases, all distinct; and it is built for every record of the shape of
    types.py. *)
Theorem integrity_attribute_set_has_22_keys (signal : value) :
  (integrity_signal_shaped signal = true →
   ∃ attributes events, integrity_check_payload signal = Ok (attributes, events))
  ∧ (∀ attributes events,
       integrity_check_payload signal = Ok (attributes, events) →
       ∃ d, attributes = VDict d ∧ size d = 22%nat
            ∧ dom d = list_to_set integrity_keys)
  ∧ NoDup integrity_keys
  ∧ integrity_keys = checkpoint_keys ++ signal_keys ++ analysis_metadata_keys
                     ++ conscience_keys ++ window_keys ++ alias_keys
  ∧ length checkpoint_keys = 6%nat
  ∧ length signal_keys = 3%nat
  ∧ length analysis_metadata_keys = 5%nat
  ∧ length conscience_keys = 3%nat
  ∧ length window_keys = 3%nat
  ∧ length alias_keys = 2%nat.
Proof.
  split; [|split; [|split]].
  - intros Hs. destruct (integrity_check_payload_run signal Hs) as (d & _ & Hp).
    rewrite Hp. by do 2 eexists.
  - intros attributes events. unfold integrity_check_payload. intros H.
    do 7 (apply bind_Ok_inv in H as (? & _ & H)).
    apply bind_Ok_inv in H as (a & Ha & H).
    apply bind_Ok_inv in H as (e & _ & H). inversion H; subst.
    by apply integrity_keys_entries in Ha.
  - apply (bool_decide_unpack _). by vm_compute.
  - repeat split.
Qed.

Lemma integrity_attribute_set_witness :
  integrity_signal_shaped SIGNAL_FIXTURE = true
  ∧ ∃ d events, integrity_check_payload SIGNAL_FIXTURE = Ok (VDict d, events)
                ∧ size d = 22%nat.
Proof.
  assert (Hs : integrity_signal_shaped SIGNAL_FIXTURE = true) by (by vm_compute).
  split; [done|].
  destruct (integrity_attribute_set_has_22_keys SIGNAL_FIXTURE) as (Htotal & Hkeys & _).
  destruct (Htotal Hs) as (attributes & events & Hp).
  destruct (Hkeys attributes events Hp) as (d & -> & Hsize & _).
  exists d, events. split; [exact Hp|exact Hsize].
Defined.

(** C3 as stated fails: for the empty record the mapper builds an attribute
    set of 22 keys, not 21. *)
Lemma integrity_attribute_set_not_21 :
  match integrity_check_payload (VDict ∅) with
  | Ok (VDict d, _) => size d = 22%nat ∧ size d ≠ 21%nat
  | _ => False
  end.
Proof. vm_compute. split; [reflexivity|discriminate]. Qed.

(** ** The instruments of create_aip_metrics *)

(** C4, amended. On every meter the factory returns a name-to-instrument
    map of exactly 9 instruments, 5 counters and 4 histograms, and creates
    exactly those 9 on the meter, in the order of their names. *)
Theorem create_aip_metrics_creates_9_instruments (m : meter) :
  let run := create_aip_metrics m in
  ∃ metrics_dict,
    run.1 = Ok metrics_dict
    ∧ size metrics_dict = 9%nat
    ∧ instruments_of_kind InstrumentKind.Counter metrics_dict = 5%nat
    ∧ instruments_of_kind InstrumentKind.Histogram metrics_dict = 4%nat
    ∧ dom metrics_dict = list_to_set instrument_names
    ∧ length instrument_names = 9%nat
    ∧ instruments_created run.2 =
        instruments_created m ++ omap (λ name, metrics_dict !! name) instrument_names
    ∧ measurements run.2 = measurements m.
Proof.
  intros run. subst run. destruct m as [created measured].
  eexists. split; [reflexivity|].
  split; [by vm_compute|]. split; [by vm_compute|]. split; [by vm_compute|].
  split; [by rewrite dom_dict_of|].
  split; [done|]. split; [|done].
  cbn [snd create_aip_metrics instruments_created].
  match goal with
  | |- _ = _ ++ ?l => let l' := eval vm_compute in l in change l with l'
  end.
  cbn. rewrite <- !(assoc_L (++)). reflexivity.
Qed.

(** C4 as stated fails: on the empty meter the factory returns 9
    instruments, not 8, of which 4 are histograms, not 3. *)
Lemma create_aip_metrics_not_8 :
  match (create_aip_metrics empty_meter).1 with
  | Ok metrics_dict =>
      size metrics_dict = 9%nat ∧ size metrics_dict ≠ 8%nat
      ∧ instruments_of_kind InstrumentKind.Counter metrics_dict = 5%nat
      ∧ instruments_of_kind InstrumentKind.Histogram metrics_dict = 4%nat
      ∧ instruments_of_kind InstrumentKind.Histogram metrics_dict ≠ 3%nat
  | Raise _ => False
  end.
Proof. vm_compute. repeat split; discriminate. Qed.

(** ** checks_performed *)

Lemma strings_of_strs (strs : list string) : strings_of (VStr <$> strs) = strs.
Proof.
  induction strs as [|s strs IH]; [done|].
  rewrite fmap_cons. unfold strings_of in *. cbn [omap list_omap]. by rewrite IH.
Qed.

(** C5. On a verification result of the shape of types.py the mapper
    returns a span whose checks_performed attribute is the ", "-join of the
    source list when that list is present and non-empty, and which has no
    such attribute (so no empty string either) when the list is absent,
    [None] or empty. *)
Theorem checks_performed_is_joined_or_omitted (result : value) (tr : tracer) :
  verification_result_shaped result = true →
  let checks_performed :=
    field (field result "verification_metadata") "checks_performed" in
  let run := record_verification result tr in
  returns run
  ∧ (∀ strs, checks_performed = VList (VStr <$> strs) → strs ≠ [] →
       attribute_of run attr.AAP_VERIFICATION_CHECKS_PERFORMED
       = Some (VStr (String.concat ", " strs)))
  ∧ (checks_performed = VNone ∨ checks_performed = VList [] →
       attribute_of run attr.AAP_VERIFICATION_CHECKS_PERFORMED = None).
Proof.
  intros Hs checks_performed run.
  destruct (record_verification_observed result tr Hs) as (d & Hd & Ho & Ha & _).
  fold run in Ho, Ha. split; [by eapply returns_one_ok_span|].
  unfold verification_attributes in Hd.
  match type of Hd with
  | dict_literal ?es = _ =>
      destruct (dict_literal_lookup es d attr.AAP_VERIFICATION_CHECKS_PERFORMED
                  (if py_truthy checks_performed
                   then py_join ", " checks_performed else Ok VNone))
        as (v & Hv & Hk); [distinct_keys|exact Hd|find_entry|]
  end.
  unfold verification_result_shaped in Hs. split_shape Hs.
  rewrite checks_performed_run in Hv by done. inversion Hv as [Hv']. clear Hv.
  rewrite Ha, lookup_kept, Hk. subst v. split.
  - intros strs Hl Hne. rewrite Hl. destruct strs as [|s strs]; [done|].
    cbn [fmap list_fmap py_truthy items_of py_is_none].
    by rewrite <- (fmap_cons VStr), strings_of_strs.
  - by intros [-> | ->].
Qed.

Lemma checks_performed_witness :
  let result := dict [("verification_metadata",
                       dict [("checks_performed", VList [VStr "a"; VStr "b"])])] in
  verification_result_shaped result = true
  ∧ attribute_of (record_verification result empty_tracer)
      attr.AAP_VERIFICATION_CHECKS_PERFORMED = Some (VStr "a, b").
Proof.
  intros result.
  assert (Hs : verification_result_shaped result = true) by (by vm_compute).
  split; [exact Hs|].
  destruct (checks_performed_is_joined_or_omitted result empty_tracer Hs)
    as (_ & Hjoin & _).
  apply (Hjoin ["a"; "b"]); [by vm_compute|done].
Defined.

(** ** Concern and violation events *)

Lemma three_attributes_dict_of (k1 k2 k3 : string) (src : value) :
  NoDup [k1; k2; k3] →
  three_attributes [k1; k2; k3] src
    (dict_of [(k1, field_or_empty src k1); (k2, field_or_empty src k2);
              (k3, field_or_empty src k3)]).
Proof.
  intros Hnd. split; [|split].
  - by rewrite dom_dict_of.
  - by rewrite size_dict_of.
  - intros k Hk. apply lookup_dict_of; [done|].
    repeat (apply elem_of_cons in Hk as [->|Hk]; [find_entry|]).
    by apply elem_of_nil in Hk.
Qed.

Lemma event_of_concern c :
  event_of (concern_event_value c) =
    {| event_name := VStr attr.EVENT_AIP_CONCERN;
       event_attributes := VDict (dict_of [
         ("category", field_or_empty c "category");
         ("severity", field_or_empty c "severity");
         ("description", field_or_empty c "description")]) |}.
Proof. by vm_compute. Qed.

Lemma event_of_violation c :
  event_of (violation_event_value c) =
    {| event_name := VStr attr.EVENT_AAP_VIOLATION;
       event_attributes := VDict (dict_of [
         ("type", field_or_empty c "type");
         ("severity", field_or_empty c "severity");
         ("description", field_or_empty c "description")]) |}.
Proof. by vm_compute. Qed.

Lemma filter_named_all (name : string) (g : value → value) (l : list value) :
  (∀ x, is_named name (event_of (g x)) = true) →
  List.filter (is_named name) (event_of <$> (g <$> l)) = event_of <$> (g <$> l).
Proof.
  intros Hg. induction l as [|x l IH]; [done|].
  rewrite !fmap_cons. cbn [List.filter]. by rewrite Hg, IH.
Qed.

Lemma drift_active_not_concern :
  is_named attr.EVENT_AIP_CONCERN (event_of drift_active_event_value) = false.
Proof. by vm_compute. Qed.

(** C6. On records of the shape of types.py both mappers return a span;
    the events of the integrity span named "aip.concern" are as many as the
    concerns, the i-th event being that of the i-th concern, and the events
    of the verification span are as many as the violations, all named
    "aap.violation"; each such event carries exactly three attributes, a
    missing sub-field being the empty string. *)
Theorem one_event_per_concern_and_violation (signal result : value) (tr : tracer) :
  integrity_signal_shaped signal = true →
  verification_result_shaped result = true →
  let concerns := items_of (field (field signal "checkpoint") "concerns") in
  let violations := items_of (field result "violations") in
  let irun := record_integrity_check signal tr in
  let vrun := record_verification result tr in
  returns irun ∧ returns vrun
  ∧ length (List.filter (is_named attr.EVENT_AIP_CONCERN) (events_of irun))
    = length concerns
  ∧ (∀ i concern, concerns !! i = Some concern →
       ∃ a, events_of irun !! i =
              Some {| event_name := VStr attr.EVENT_AIP_CONCERN;
                      event_attributes := VDict a |}
            ∧ three_attributes concern_keys concern a)
  ∧ length (events_of vrun) = length violations
  ∧ (∀ i violation, violations !! i = Some violation →
       ∃ a, events_of vrun !! i =
              Some {| event_name := VStr attr.EVENT_AAP_VIOLATION;
                      event_attributes := VDict a |}
            ∧ three_attributes violation_keys violation a).
Proof.
  intros Hi Hv concerns violations irun vrun.
  destruct (record_integrity_check_observed signal tr Hi) as (di & _ & Hio & _ & Hie).
  destruct (record_verification_observed result tr Hv) as (dv & _ & Hvo & _ & Hve).
  fold irun in Hio, Hie. fold vrun in Hvo, Hve. fold concerns in Hie.
  fold violations in Hve.
  split; [by eapply returns_one_ok_span|]. split; [by eapply returns_one_ok_span|].
  rewrite Hie, Hve. rewrite fmap_app. repeat match goal with |- _ ∧ _ => split end.
  - rewrite List.filter_app, filter_named_all by (intros x; by vm_compute).
    rewrite length_app, !length_fmap.
    destruct (py_truthy _); [|simpl; lia].
    change (List.filter _ _) with
      (if is_named attr.EVENT_AIP_CONCERN (event_of drift_active_event_value)
       then [event_of drift_active_event_value] else []).
    rewrite drift_active_not_concern. simpl. lia.
  - intros i concern Hc. eexists. split.
    + rewrite lookup_app_l by (rewrite !length_fmap; by eapply lookup_lt_Some).
      rewrite !list_lookup_fmap, Hc. simpl. by rewrite event_of_concern.
    + by apply three_attributes_dict_of, (bool_decide_unpack _).
  - by rewrite !length_fmap.
  - intros i violation Hc. eexists. split.
    + rewrite !list_lookup_fmap, Hc. simpl. by rewrite event_of_violation.
    + by apply three_attributes_dict_of, (bool_decide_unpack _).
Qed.

Lemma one_event_per_concern_witness :
  integrity_signal_shaped SIGNAL_FIXTURE = true
  ∧ verification_result_shaped VERIFICATION_FIXTURE = true
  ∧ length (List.filter (is_named attr.EVENT_AIP_CONCERN)
              (events_of (record_integrity_check SIGNAL_FIXTURE empty_tracer))) = 2%nat
  ∧ length (events_of (record_verification VERIFICATION_FIXTURE empty_tracer)) = 1%nat.
Proof.
  assert (Hi : integrity_signal_shaped SIGNAL_FIXTURE = true) by (by vm_compute).
  assert (Hv : verification_result_shaped VERIFICATION_FIXTURE = true) by (by vm_compute).
  destruct (one_event_per_concern_and_violation
              SIGNAL_FIXTURE VERIFICATION_FIXTURE empty_tracer Hi Hv)
    as (_ & _ & Hconcerns & _ & Hviolations & _).
  refine (conj Hi (conj Hv (conj _ _))).
  - rewrite Hconcerns. by vm_compute.
  - rewrite Hviolations. by vm_compute.
Defined.

(** ** Drift alerts *)

Section present_only.
Implicit Types (items : list (string * value)) (acc : gmap string value).

Lemma lookup_assign_present_other items acc k :
  k ∉ items.*1 → foldl assign_present acc items !! k = acc !! k.
Proof.
  revert acc. induction items as [|[k' v'] items IH]; intros acc Hk; [done|].
  simpl in *. apply not_elem_of_cons in Hk as [Hne Hk].
  rewrite IH by done. unfold assign_present. simpl.
  destruct (py_is_none v'); [done|]. by rewrite lookup_insert_ne.
Qed.

Lemma lookup_assign_present items acc k v :
  NoDup items.*1 → (k, v) ∈ items →
  foldl assign_present acc items !! k = if py_is_none v then acc !! k else Some v.
Proof.
  revert acc. induction items as [|[k' v'] items IH]; intros acc Hnd Hin.
  - by apply elem_of_nil in Hin.
  - simpl in *. apply NoDup_cons in Hnd as [Hk' Hnd].
    apply elem_of_cons in Hin as [Heq|Hin].
    + inversion Heq; subst. rewrite lookup_assign_present_other by done.
      unfold assign_present. simpl.
      destruct (py_is_none v'); [done|]. by rewrite lookup_insert_eq.
    + rewrite IH by done. destruct (py_is_none v); [|done].
      unfold assign_present. simpl. destruct (py_is_none v'); [done|].
      rewrite lookup_insert_ne; [done|]. intros ->. apply Hk'.
      apply list_elem_of_fmap. by exists (k, v).
Qed.

Lemma lookup_present_only items k v :
  NoDup items.*1 → (k, v) ∈ items →
  present_only items !! k = if py_is_none v then None else Some v.
Proof. intros Hnd Hin. unfold present_only. by rewrite (lookup_assign_present _ ∅ k v). Qed.

Lemma lookup_present_only_None items k :
  k ∉ items.*1 → present_only items !! k = None.
Proof. intros Hk. unfold present_only. by rewrite lookup_assign_present_other. Qed.

End present_only.

Lemma event_of_drift_alert alert :
  event_of (drift_alert_event_value alert) =
    {| event_name := VStr attr.EVENT_AAP_DRIFT_ALERT;
       event_attributes := VDict (present_only (drift_alert_sources alert)) |}.
Proof.
  unfold event_of, drift_alert_event_value, field. cbn [as_dict].
  rewrite (lookup_dict_of _ "name" (VStr attr.EVENT_AAP_DRIFT_ALERT));
    [|by apply (bool_decide_unpack _)|find_entry].
  rewrite (lookup_dict_of _ "attributes"
             (VDict (present_only (drift_alert_sources alert))));
    [done|by apply (bool_decide_unpack _)|find_entry].
Qed.

(** C7. On a list of alerts of the shape of types.py (or [None]) the drift
    mapper returns a span on which alerts_count is the length of the list
    (0 for [None]), with one event per alert, the i-th for the i-th alert;
    each of the six event attributes is set exactly when its source field is
    not [None], to that field; an alert without [analysis] lacks
    similarity_score and drift_direction and keeps its own four fields. *)
Theorem drift_alerts_count_and_events (alerts traces_analyzed : value) (tr : tracer) :
  drift_alerts_shaped alerts = true →
  let entries := items_of alerts in
  let run := record_drift alerts traces_analyzed tr in
  returns run
  ∧ attribute_of run attr.AAP_DRIFT_ALERTS_COUNT
    = Some (VInt (Z.of_nat (length entries)))
  ∧ (alerts = VNone → attribute_of run attr.AAP_DRIFT_ALERTS_COUNT = Some (VInt 0))
  ∧ length (events_of run) = length entries
  ∧ ∀ i alert, entries !! i = Some alert →
      ∃ a, events_of run !! i =
             Some {| event_name := VStr attr.EVENT_AAP_DRIFT_ALERT;
                     event_attributes := VDict a |}
        ∧ (∀ key src, (key, src) ∈ drift_alert_sources alert →
             a !! key = if py_is_none src then None else Some src)
        ∧ (∀ key, key ∉ (drift_alert_sources alert).*1 → a !! key = None)
        ∧ (field alert "analysis" = VNone →
             a !! "similarity_score" = None ∧ a !! "drift_direction" = None
             ∧ ∀ key, key ∈ drift_alert_own_keys →
                 a !! key = if py_is_none (field alert key) then None
                            else Some (field alert key)).
Proof.
  intros Hs entries run.
  destruct (record_drift_observed alerts traces_analyzed tr Hs) as (Ho & Ha & He).
  fold run in Ho, Ha, He. fold entries in Ha, He.
  assert (Hcount : attribute_of run attr.AAP_DRIFT_ALERTS_COUNT
                   = Some (VInt (Z.of_nat (length entries)))).
  { rewrite Ha, lookup_kept.
    rewrite (lookup_dict_of _ attr.AAP_DRIFT_ALERTS_COUNT
               (VInt (Z.of_nat (length entries))));
      [done|by apply (bool_decide_unpack _)|find_entry]. }
  assert (Hnd : ∀ alert, NoDup (drift_alert_sources alert).*1)
    by (intros alert; by apply (bool_decide_unpack _)).
  split; [by eapply returns_one_ok_span|]. split; [exact Hcount|].
  split; [intros ->; exact Hcount|].
  split; [by rewrite He, !length_fmap|].
  intros i alert Hi. exists (present_only (drift_alert_sources alert)).
  split; [|split; [|split]].
  - rewrite He, !list_lookup_fmap, Hi. simpl. by rewrite event_of_drift_alert.
  - intros key src Hin. by apply lookup_present_only.
  - intros key Hk. by apply lookup_present_only_None.
  - intros Hna. split; [|split].
    + rewrite (lookup_present_only _ "similarity_score"
                 (field (field alert "analysis") "similarity_score"));
        [by rewrite Hna|done|find_entry].
    + rewrite (lookup_present_only _ "drift_direction"
                 (field (field alert "analysis") "drift_direction"));
        [by rewrite Hna|done|find_entry].
    + intros key Hk. apply lookup_present_only; [done|].
      unfold drift_alert_own_keys in Hk.
      repeat (apply elem_of_cons in Hk as [->|Hk]; [find_entry|]).
      by apply elem_of_nil in Hk.
Qed.

Lemma drift_alerts_witness :
  let alerts := VList [dict [("alert_type", VStr "drift_detected")]] in
  drift_alerts_shaped alerts = true
  ∧ attribute_of (record_drift alerts (VInt 5) empty_tracer) attr.AAP_DRIFT_ALERTS_COUNT
    = Some (VInt 1)
  ∧ length (events_of (record_drift alerts (VInt 5) empty_tracer)) = 1%nat.
Proof.
  intros alerts.
  assert (Hs : drift_alerts_shaped alerts = true) by (by vm_compute).
  destruct (drift_alerts_count_and_events alerts (VInt 5) empty_tracer Hs)
    as (_ & Hcount & _ & Hevents & _).
  exact (conj Hs (conj Hcount Hevents)).
Defined.

(** ** The span emitter *)

(** C8. [build_span], on any span name, attribute dictionary and list of
    events (or [None]), and each of the four mappers, on any record of the
    shape of types.py, returns the one span it started, under the given name
    (for a mapper: the fixed name of its kind), with status OK whatever the
    record holds, ended and handed to the exporter before it is returned;
    the span has exactly the attributes whose value is not [None], with
    their values unchanged, and none for a [None] or missing value. *)
Theorem span_emitter_emits_one_ok_span
    (name : string) (attributes : gmap string value)
    (events signal vres cres alerts traces_analyzed : value) (tr : tracer) :
  events_shaped events = true →
  integrity_signal_shaped signal = true →
  verification_result_shaped vres = true →
  coherence_result_shaped cres = true →
  drift_alerts_shaped alerts = true →
  let run := build_span name (VDict attributes) events tr in
  one_ok_span name tr run
  ∧ (∀ k v, attribute_of run k = Some v ↔ attributes !! k = Some v ∧ v ≠ VNone)
  ∧ (∀ k, attributes !! k = Some VNone ∨ attributes !! k = None →
          attribute_of run k = None)
  ∧ length (events_of run) = length (items_of events)
  ∧ one_ok_span attr.SPAN_AIP_INTEGRITY_CHECK tr (record_integrity_check signal tr)
  ∧ one_ok_span attr.SPAN_AAP_VERIFY_TRACE tr (record_verification vres tr)
  ∧ one_ok_span attr.SPAN_AAP_CHECK_COHERENCE tr (record_coherence cres tr)
  ∧ one_ok_span attr.SPAN_AAP_DETECT_DRIFT tr
      (record_drift alerts traces_analyzed tr).
Proof.
  intros He Hi Hv Hc Hd run.
  destruct (build_span_observed name attributes events tr He) as (Ho & Ha & Hev).
  fold run in Ho, Ha, Hev.
  split; [exact Ho|]. split; [|split; [|split]].
  - intros k v. rewrite Ha, lookup_kept.
    destruct (attributes !! k) as [x|]; [|naive_solver].
    destruct x; simpl; naive_solver.
  - intros k Hk. rewrite Ha, lookup_kept. by destruct Hk as [-> | ->].
  - by rewrite Hev, length_fmap.
  - split; [|split; [|split]].
    + by destruct (record_integrity_check_observed signal tr Hi) as (? & _ & ? & _).
    + by destruct (record_verification_observed vres tr Hv) as (? & _ & ? & _).
    + by destruct (record_coherence_observed cres tr Hc) as (? & _ & ? & _).
    + by destruct (record_drift_observed alerts traces_analyzed tr Hd) as (? & _).
Qed.

Lemma span_emitter_witness :
  events_shaped (VList []) = true
  ∧ integrity_signal_shaped VNone = true
  ∧ verification_result_shaped VERIFICATION_FIXTURE = true
  ∧ coherence_result_shaped (VDict ∅) = true
  ∧ drift_alerts_shaped DRIFT_ALERTS_FIXTURE = true
  ∧ one_ok_span "s" empty_tracer
      (build_span "s" (VDict (dict_of [("a", VNone); ("b", VInt 1)])) (VList [])
         empty_tracer)
  ∧ one_ok_span attr.SPAN_AAP_VERIFY_TRACE empty_tracer
      (record_verification VERIFICATION_FIXTURE empty_tracer).
Proof.
  assert (He : events_shaped (VList []) = true) by (by vm_compute).
  assert (Hi : integrity_signal_shaped VNone = true) by (by vm_compute).
  assert (Hv : verification_result_shaped VERIFICATION_FIXTURE = true) by (by vm_compute).
  assert (Hc : coherence_result_shaped (VDict ∅) = true) by (by vm_compute).
  assert (Hd : drift_alerts_shaped DRIFT_ALERTS_FIXTURE = true) by (by vm_compute).
  destruct (span_emitter_emits_one_ok_span
              "s" (dict_of [("a", VNone); ("b", VInt 1)]) (VList [])
              VNone VERIFICATION_FIXTURE (VDict ∅) DRIFT_ALERTS_FIXTURE (VInt 0)
              empty_tracer He Hi Hv Hc Hd)
    as (Hb & _ & _ & _ & _ & Hver & _).
  exact (conj He (conj Hi (conj Hv (conj Hc (conj Hd (conj Hb Hver)))))).
Defined.

(** ** The lazy import of the instrumentor *)

(** C9. Where the module of the instrumentation dependency cannot be
    imported, asking the package for [AIPInstrumentor] raises at once, so no
    adapter is obtained, and the ImportError names
    opentelemetry-instrumentation. *)
Theorem AIPInstrumentor_requires_instrumentation (installed : gset string) :
  "opentelemetry.instrumentation.instrumentor" ∉ installed →
  ∃ msg, __getattr__ installed "AIPInstrumentor" = Raise (ImportError msg)
         ∧ mentions "opentelemetry-instrumentation" msg = true
         ∧ ∀ cls, __getattr__ installed "AIPInstrumentor" ≠ Ok cls.
Proof.
  intros Hmissing. eexists. unfold __getattr__. cbn [String.eqb Ascii.eqb Bool.eqb].
  assert (Hi : import_instrumentor installed =
                 Raise (ImportError "No module named 'importlib'")
               ∨ import_instrumentor installed =
                 Raise (ImportError "No module named 'typing'")
               ∨ import_instrumentor installed =
                 Raise (ImportError "No module named 'opentelemetry.trace'")
               ∨ import_instrumentor installed =
                 Raise (ImportError
                   "No module named 'opentelemetry.instrumentation.instrumentor'")).
  { unfold import_instrumentor, import_module.
    destruct (bool_decide ("importlib" ∈ installed)); [|by left].
    destruct (bool_decide ("typing" ∈ installed)); [|by right; left].
    destruct (bool_decide ("opentelemetry.trace" ∈ installed)); [|by right; right; left].
    rewrite (bool_decide_eq_false_2 _ Hmissing). by right; right; right. }
  destruct Hi as [-> | [-> | [-> | ->]]];
    (split; [reflexivity|split; [by vm_compute|done]]).
Qed.

Lemma AIPInstrumentor_witness :
  let installed : gset string :=
    {[ "importlib"; "typing"; "opentelemetry.trace" ]} in
  ("opentelemetry.instrumentation.instrumentor" ∉ installed)
  ∧ ∃ msg, __getattr__ installed "AIPInstrumentor" = Raise (ImportError msg)
           ∧ mentions "opentelemetry-instrumentation" msg = true.
Proof.
  intros installed.
  assert (Hmissing : "opentelemetry.instrumentation.instrumentor" ∉ installed)
    by (apply (bool_decide_unpack _); by vm_compute).
  destruct (AIPInstrumentor_requires_instrumentation installed Hmissing)
    as (msg & Hraise & Hmsg & _).
  exact (conj Hmissing (ex_intro _ msg (conj Hraise Hmsg))).
Defined.

(** ** The integrity metrics recorder *)

Lemma create_aip_metrics_lookup (m0 : meter) (metrics_dict : gmap string instrument) :
  (create_aip_metrics m0).1 = Ok metrics_dict →
  ∃ checks concerns duration ratio drift,
    metrics_dict !! "integrity_checks" = Some checks
    ∧ instrument_kind checks = InstrumentKind.Counter
    ∧ metrics_dict !! "concerns" = Some concerns
    ∧ instrument_kind concerns = InstrumentKind.Counter
    ∧ metrics_dict !! "analysis_duration" = Some duration
    ∧ instrument_kind duration = InstrumentKind.Histogram
    ∧ metrics_dict !! "integrity_ratio" = Some ratio
    ∧ instrument_kind ratio = InstrumentKind.Histogram
    ∧ metrics_dict !! "drift_alerts" = Some drift
    ∧ instrument_kind drift = InstrumentKind.Counter.
Proof.
  destruct m0 as [created measured]. intros H. cbn in H. inversion H as [Hd]. clear H.
  do 5 eexists. repeat split; by vm_compute.
Qed.

(** A list is a prefix of itself extended on the right any number of times. *)
Ltac solve_prefix := first [ reflexivity | apply prefix_app_r; solve_prefix ].

(** The label displays of metrics.py, as the dictionaries they build: one
    key, "verdict" or "result", bound to the label. *)
Lemma verdict_labels_display (verdict : value) :
  verdict_labels verdict = VDict {["verdict" := verdict]}.
Proof. unfold verdict_labels, dict_of. cbn [foldl]. unfold assign. cbn [fst snd]. by rewrite insert_empty. Qed.

Lemma result_labels_display (result_label : value) :
  result_labels result_label = VDict {["result" := result_label]}.
Proof. unfold result_labels, dict_of. cbn [foldl]. unfold assign. cbn [fst snd]. by rewrite insert_empty. Qed.

(** C10. With the instruments of [create_aip_metrics] and a signal of the
    shape of types.py, the recorder returns, and the first measurement it
    makes is 1 on the integrity_checks counter with the attributes
    {"verdict": label}, a dictionary of that one key, where label is
    "unknown" for every falsy verdict ([None] or absent, and the empty
    string too) and the verdict itself for a non-empty string. *)
Theorem falsy_verdict_is_labelled_unknown
    (m0 m : meter) (metrics_dict : gmap string instrument) (signal : value) :
  (create_aip_metrics m0).1 = Ok metrics_dict →
  integrity_signal_shaped signal = true →
  let verdict := field (field signal "checkpoint") "verdict" in
  let run := record_integrity_metrics metrics_dict signal m in
  returns run
  ∧ ∃ checks label,
      metrics_dict !! "integrity_checks" = Some checks
      ∧ measurements m ++
          [{| measured_by := checks; measured_value := VInt 1;
              measured_attributes := VDict {["verdict" := label]} |}]
        `prefix_of` measurements run.2
      ∧ label = (if py_truthy verdict then verdict else VStr "unknown")
      ∧ (verdict = VNone → label = VStr "unknown")
      ∧ (verdict = VStr "" → label = VStr "unknown")
      ∧ (∀ s, verdict = VStr s → s ≠ "" → label = VStr s).
Proof.
  intros Hm Hs verdict run.
  destruct (create_aip_metrics_lookup m0 metrics_dict Hm)
    as (checks & concerns & duration & ratio & drift
        & Hchecks & Kchecks & Hconcerns & Kconcerns & Hduration & Kduration
        & Hratio & Kratio & Hdrift & Kdrift).
  clear Hm. unfold integrity_signal_shaped in Hs. split_shape Hs.
  assert (Hrun : returns run
            ∧ measurements m ++
                [{| measured_by := checks; measured_value := VInt 1;
                    measured_attributes :=
                      verdict_labels (py_or verdict (VStr "unknown")) |}]
              `prefix_of` measurements run.2).
  { subst run verdict. unfold record_integrity_metrics, bind, lift, metrics_getitem.
    cbv zeta. run_locals.
    repeat first
      [ rewrite Hchecks | rewrite Hconcerns | rewrite Hduration | rewrite Hratio
      | rewrite Hdrift | rewrite Kchecks | rewrite Kconcerns | rewrite Kduration
      | rewrite Kratio | rewrite Kdrift
      | progress unfold get_add, get_record
      | progress cbn [mbind outcome_bind measure modify ret] ].
    destruct (field (field signal "checkpoint") "concerns") as [| | | | |l|];
      try done; (destruct l as [|c l] || idtac);
      cbn [py_truthy py_len py_is_none ret];
      destruct (py_is_none (field (field (field signal "checkpoint")
                                     "analysis_metadata") "analysis_duration_ms"));
      destruct (py_is_none (field (field signal "window_summary") "integrity_ratio"));
      destruct (py_truthy (field (field signal "window_summary") "drift_alert_active"));
      cbn [ret measure modify fst snd measurements];
      (split; [unfold returns; eexists; reflexivity|solve_prefix]). }
  destruct Hrun as [Hret Hpre]. split; [exact Hret|].
  rewrite verdict_labels_display in Hpre.
  exists checks, (py_or verdict (VStr "unknown")).
  split; [exact Hchecks|]. split; [exact Hpre|]. unfold py_or.
  split; [done|]. split; [by intros ->|]. split; [by intros ->|].
  intros s -> Hne. simpl. destruct s; [done|done].
Qed.

Lemma falsy_verdict_witness :
  let signal := dict [("checkpoint", dict [("verdict", VStr "")])] in
  ∃ metrics_dict,
    (create_aip_metrics empty_meter).1 = Ok metrics_dict
    ∧ integrity_signal_shaped signal = true
    ∧ ∃ checks,
        measurements empty_meter ++
          [{| measured_by := checks; measured_value := VInt 1;
              measured_attributes := VDict {["verdict" := VStr "unknown"]} |}]
        `prefix_of`
        measurements (record_integrity_metrics metrics_dict signal empty_meter).2.
Proof.
  intros signal.
  assert (∃ md, (create_aip_metrics empty_meter).1 = Ok md) as [md Hmd]
    by (eexists; reflexivity).
  assert (Hs : integrity_signal_shaped signal = true) by (by vm_compute).
  destruct (falsy_verdict_is_labelled_unknown empty_meter empty_meter md signal Hmd Hs)
    as (_ & checks & label & _ & Hpre & _ & _ & Hempty & _).
  assert (Hv : field (field signal "checkpoint") "verdict" = VStr "") by (by vm_compute).
  rewrite (Hempty Hv) in Hpre.
  exact (ex_intro _ md (conj Hmd (conj Hs (ex_intro _ checks Hpre)))).
Defined.

(** ** Totality, and absent parent objects *)

Section fields.
Implicit Types (d : gmap string value) (k : string) (v : value).

Lemma field_delete_eq d k : field (VDict (delete k d)) k = VNone.
Proof. simpl. by rewrite lookup_delete_eq. Qed.

Lemma field_delete_ne d k k' : k ≠ k' → field (VDict (delete k d)) k' = field (VDict d) k'.
Proof. intros. simpl. by rewrite lookup_delete_ne. Qed.

Lemma field_insert_eq d k v : field (VDict (<[k := v]> d)) k = v.
Proof. simpl. by rewrite lookup_insert_eq. Qed.

Lemma field_insert_ne d k k' v :
  k ≠ k' → field (VDict (<[k := v]> d)) k' = field (VDict d) k'.
Proof. intros. simpl. by rewrite lookup_insert_ne. Qed.

End fields.

(** Brings both sides of an equation between two runs of a payload to the
    same term, when the records differ in one parent object only. *)
Ltac same_payload :=
  repeat first
    [ rewrite py_or_dict
    | rewrite py_get_dict
    | rewrite field_delete_eq
    | rewrite field_insert_eq
    | rewrite field_delete_ne by done
    | rewrite field_insert_ne by done
    | progress cbn [mbind outcome_bind]
    | progress change (py_or VNone (VDict ∅)) with (VDict (∅ : gmap string value)) ];
  reflexivity.

Lemma integrity_check_payload_checkpoint (d : gmap string value) (x : value) :
  x = VNone ∨ x = VDict ∅ →
  integrity_check_payload (VDict (<["checkpoint" := x]> d)) =
  integrity_check_payload (VDict (delete "checkpoint" d)).
Proof.
  intros [-> | ->]; unfold integrity_check_payload, integrity_check_attributes;
    same_payload.
Qed.

Lemma integrity_check_payload_window (d : gmap string value) (x : value) :
  x = VNone ∨ x = VDict ∅ →
  integrity_check_payload (VDict (<["window_summary" := x]> d)) =
  integrity_check_payload (VDict (delete "window_summary" d)).
Proof.
  intros [-> | ->]; unfold integrity_check_payload, integrity_check_attributes;
    same_payload.
Qed.

Lemma integrity_check_payload_metadata (d cp : gmap string value) (x : value) :
  x = VNone ∨ x = VDict ∅ →
  integrity_check_payload
    (VDict (<["checkpoint" := VDict (<["analysis_metadata" := x]> cp)]> d)) =
  integrity_check_payload
    (VDict (<["checkpoint" := VDict (delete "analysis_metadata" cp)]> d)).
Proof.
  intros [-> | ->]; unfold integrity_check_payload, integrity_check_attributes;
    same_payload.
Qed.

Lemma integrity_check_payload_conscience (d cp : gmap string value) (x : value) :
  x = VNone ∨ x = VDict ∅ →
  integrity_check_payload
    (VDict (<["checkpoint" := VDict (<["conscience_context" := x]> cp)]> d)) =
  integrity_check_payload
    (VDict (<["checkpoint" := VDict (delete "conscience_context" cp)]> d)).
Proof.
  intros [-> | ->]; unfold integrity_check_payload, integrity_check_attributes;
    same_payload.
Qed.

Lemma verification_payload_metadata (d : gmap string value) (x : value) :
  x = VNone ∨ x = VDict ∅ →
  verification_payload (VDict (<["verification_metadata" := x]> d)) =
  verification_payload (VDict (delete "verification_metadata" d)).
Proof.
  intros [-> | ->]; unfold verification_payload, verification_attributes; cbv zeta;
    same_payload.
Qed.

Lemma coherence_payload_alignment (d : gmap string value) (x : value) :
  x = VNone ∨ x = VDict ∅ →
  coherence_payload (VDict (<["value_alignment" := x]> d)) =
  coherence_payload (VDict (delete "value_alignment" d)).
Proof.
  intros [-> | ->]; unfold coherence_payload, coherence_attributes; cbv zeta;
    same_payload.
Qed.

Lemma copy_if_present_ext (d1 d2 acc : gmap string value) (key : string) :
  d1 !! key = d2 !! key →
  copy_if_present (VDict d1) key acc = copy_if_present (VDict d2) key acc.
Proof. intros H. unfold copy_if_present. simpl. by rewrite H. Qed.

Lemma drift_alert_event_analysis (alert : gmap string value) (x : value) :
  x = VNone ∨ x = VDict ∅ →
  drift_alert_event (VDict (<["analysis" := x]> alert)) =
  drift_alert_event (VDict (delete "analysis" alert)).
Proof.
  intros Hx. unfold drift_alert_event.
  rewrite !py_get_dict, field_insert_eq, field_delete_eq. cbn [mbind outcome_bind].
  assert (py_or x (VDict ∅) = VDict ∅) as -> by (by destruct Hx as [-> | ->]).
  change (py_or VNone (VDict ∅)) with (VDict (∅ : gmap string value)).
  do 6 (rewrite ?(copy_if_present_ext (<["analysis" := x]> alert)
                    (delete "analysis" alert))
          by (by rewrite lookup_insert_ne, lookup_delete_ne);
        match goal with
        | |- ?m ≫= _ = ?m ≫= _ =>
            destruct m as [?|?]; [cbn [mbind outcome_bind]|reflexivity]
        end).
  reflexivity.
Qed.

Lemma append_events_ext (make : value → outcome value) (acc l1 l2 : list value) :
  Forall2 (λ x y, make x = make y) l1 l2 →
  append_events make acc l1 = append_events make acc l2.
Proof.
  unfold append_events. intros H. revert acc.
  induction H as [|x y l1 l2 Hxy _ IH]; intros acc; [done|].
  simpl. rewrite Hxy. destruct (make y) as [ev|e]; [|done]. simpl. apply IH.
Qed.

Lemma drift_payload_analysis (before after : list value) (alert : gmap string value)
    (x traces_analyzed : value) :
  x = VNone ∨ x = VDict ∅ →
  drift_payload (VList (before ++ VDict (<["analysis" := x]> alert) :: after))
    traces_analyzed =
  drift_payload (VList (before ++ VDict (delete "analysis" alert) :: after))
    traces_analyzed.
Proof.
  intros Hx. unfold drift_payload. cbv zeta.
  assert (Hor : ∀ y : value,
            py_or (VList (before ++ y :: after)) (VList []) =
            VList (before ++ y :: after)) by (intros y; by destruct before).
  rewrite !Hor.
  assert (Hlen : ∀ y : value,
            (if py_truthy (VList (before ++ y :: after))
             then py_len (VList (before ++ y :: after)) else Ok (VInt 0)) =
            Ok (VInt (Z.of_nat (length before + S (length after))))).
  { intros y. destruct before; simpl; by rewrite ?length_app. }
  rewrite !Hlen. cbn [mbind outcome_bind py_iter].
  rewrite (append_events_ext drift_alert_event []
             (before ++ VDict (<["analysis" := x]> alert) :: after)
             (before ++ VDict (delete "analysis" alert) :: after)); [done|].
  apply Forall2_app; [by apply Forall_Forall2_diag, Forall_true|].
  constructor; [by apply drift_alert_event_analysis|].
  by apply Forall_Forall2_diag, Forall_true.
Qed.

(** Rebuilds a shape from the conjuncts at hand. *)
Ltac rebuild_shape :=
  repeat (apply andb_true_intro; split); first [ assumption | reflexivity ].

(** A shaped record stays shaped when a field is removed or set to [None]:
    the shapes leave every field optional. *)
Lemma integrity_signal_shaped_without (d : gmap string value) (k : string) (x : value) :
  x = VNone ∨ x = VDict ∅ →
  integrity_signal_shaped (VDict d) = true →
  integrity_signal_shaped (VDict (delete k d)) = true
  ∧ integrity_signal_shaped (VDict (<[k := x]> d)) = true.
Proof.
  intros Hx H. unfold integrity_signal_shaped in *. split_shape H.
  destruct (decide (k = "checkpoint")) as [->|Hcp].
  - rewrite field_delete_eq, field_insert_eq, !field_delete_ne, !field_insert_ne by done.
    by destruct Hx as [-> | ->]; split; rebuild_shape.
  - destruct (decide (k = "window_summary")) as [->|Hwin].
    + rewrite field_delete_eq, field_insert_eq, !field_delete_ne, !field_insert_ne by done.
      by destruct Hx as [-> | ->]; split; rebuild_shape.
    + rewrite !field_delete_ne, !field_insert_ne by done. split; rebuild_shape.
Qed.

Lemma verification_result_shaped_without (d : gmap string value) (k : string) (x : value) :
  x = VNone ∨ (x = VDict ∅ ∧ k = "verification_metadata") →
  verification_result_shaped (VDict d) = true →
  verification_result_shaped (VDict (delete k d)) = true
  ∧ verification_result_shaped (VDict (<[k := x]> d)) = true.
Proof.
  intros Hx H. unfold verification_result_shaped in *. split_shape H.
  destruct (decide (k = "verification_metadata")) as [->|Hm].
  - rewrite field_delete_eq, field_insert_eq, !field_delete_ne, !field_insert_ne by done.
    by destruct Hx as [-> | [-> _]]; split; rebuild_shape.
  - destruct Hx as [-> | [_ ->]]; [|done].
    rewrite !(field_delete_ne _ k "verification_metadata"),
            !(field_insert_ne _ k "verification_metadata") by done.
    destruct (decide (k = "violations")) as [->|Hv].
    + rewrite field_delete_eq, field_insert_eq, !field_delete_ne, !field_insert_ne by done.
      split; rebuild_shape.
    + destruct (decide (k = "warnings")) as [->|Hw].
      * rewrite field_delete_eq, field_insert_eq, !field_delete_ne, !field_insert_ne
          by done.
        split; rebuild_shape.
      * rewrite !field_delete_ne, !field_insert_ne by done. split; rebuild_shape.
Qed.

Lemma coherence_result_shaped_without (d : gmap string value) (k : string) (x : value) :
  x = VNone ∨ x = VDict ∅ →
  coherence_result_shaped (VDict d) = true →
  coherence_result_shaped (VDict (delete k d)) = true
  ∧ coherence_result_shaped (VDict (<[k := x]> d)) = true.
Proof.
  intros Hx H. unfold coherence_result_shaped in *. split_shape H.
  destruct (decide (k = "value_alignment")) as [->|Hm].
  - rewrite field_delete_eq, field_insert_eq.
    by destruct Hx as [-> | ->]; split; rebuild_shape.
  - rewrite !field_delete_ne, !field_insert_ne by done. split; rebuild_shape.
Qed.

Lemma drift_alert_shaped_without (d : gmap string value) (k : string) (x : value) :
  x = VNone ∨ x = VDict ∅ →
  drift_alert_shaped (VDict d) = true →
  drift_alert_shaped (VDict (delete k d)) = true
  ∧ drift_alert_shaped (VDict (<[k := x]> d)) = true.
Proof.
  intros Hx H. unfold drift_alert_shaped in *. split_shape H.
  destruct (decide (k = "analysis")) as [->|Hm].
  - rewrite field_delete_eq, field_insert_eq.
    by destruct Hx as [-> | ->]; split; rebuild_shape.
  - rewrite !field_delete_ne, !field_insert_ne by done. split; rebuild_shape.
Qed.

(** Lifts an equation between payloads to the mappers. *)
Ltac same_run mapper H :=
  unfold mapper, bind, lift; rewrite H; reflexivity.

(** C2. Each of the four mappers returns a span, without raising, on every
    record of the shape of types.py, in which every field may be missing or
    [None], and so on [None] and on the empty record; and no mapper can tell
    a missing parent object (the record itself, checkpoint, window_summary,
    analysis_metadata, conscience_context, verification_metadata,
    value_alignment, the alert list, the analysis of an alert) from an empty
    one, nor from [None].  A record of the shape stays of the shape when a
    field is removed or set to [None]. *)
Theorem mappers_are_total
    (signal vres cres alerts traces_analyzed : value) (tr : tracer) :
  integrity_signal_shaped signal = true →
  verification_result_shaped vres = true →
  coherence_result_shaped cres = true →
  drift_alerts_shaped alerts = true →
  (returns (record_integrity_check signal tr)
   ∧ returns (record_verification vres tr)
   ∧ returns (record_coherence cres tr)
   ∧ returns (record_drift alerts traces_analyzed tr))
  ∧ (returns (record_integrity_check VNone tr)
     ∧ returns (record_verification VNone tr)
     ∧ returns (record_coherence VNone tr)
     ∧ returns (record_drift VNone traces_analyzed tr))
  ∧ (record_integrity_check VNone tr = record_integrity_check (VDict ∅) tr
     ∧ record_verification VNone tr = record_verification (VDict ∅) tr
     ∧ record_coherence VNone tr = record_coherence (VDict ∅) tr
     ∧ record_drift VNone traces_analyzed tr = record_drift (VList []) traces_analyzed tr)
  ∧ treats_absent_as_empty record_integrity_check "checkpoint"
  ∧ treats_absent_as_empty record_integrity_check "window_summary"
  ∧ (∀ d, treats_absent_as_empty
            (λ cp, record_integrity_check (VDict (<["checkpoint" := cp]> d)))
            "analysis_metadata")
  ∧ (∀ d, treats_absent_as_empty
            (λ cp, record_integrity_check (VDict (<["checkpoint" := cp]> d)))
            "conscience_context")
  ∧ treats_absent_as_empty record_verification "verification_metadata"
  ∧ treats_absent_as_empty record_coherence "value_alignment"
  ∧ (∀ before after,
       treats_absent_as_empty
         (λ alert, record_drift (VList (before ++ alert :: after)) traces_analyzed)
         "analysis")
  ∧ (∀ d k, integrity_signal_shaped (VDict d) = true →
       integrity_signal_shaped (VDict (delete k d)) = true
       ∧ integrity_signal_shaped (VDict (<[k := VNone]> d)) = true)
  ∧ (∀ d k, verification_result_shaped (VDict d) = true →
       verification_result_shaped (VDict (delete k d)) = true
       ∧ verification_result_shaped (VDict (<[k := VNone]> d)) = true)
  ∧ (∀ d k, coherence_result_shaped (VDict d) = true →
       coherence_result_shaped (VDict (delete k d)) = true
       ∧ coherence_result_shaped (VDict (<[k := VNone]> d)) = true)
  ∧ (∀ d k, drift_alert_shaped (VDict d) = true →
       drift_alert_shaped (VDict (delete k d)) = true
       ∧ drift_alert_shaped (VDict (<[k := VNone]> d)) = true).
Proof.
  intros Hi Hv Hc Hd.
  assert (Hin : integrity_signal_shaped VNone = true) by done.
  assert (Hvn : verification_result_shaped VNone = true) by done.
  assert (Hcn : coherence_result_shaped VNone = true) by done.
  assert (Hdn : drift_alerts_shaped VNone = true) by done.
  split; [|split; [|split]].
  - split; [|split; [|split]].
    + destruct (record_integrity_check_observed signal tr Hi) as (? & _ & Ho & _).
      by eapply returns_one_ok_span.
    + destruct (record_verification_observed vres tr Hv) as (? & _ & Ho & _).
      by eapply returns_one_ok_span.
    + destruct (record_coherence_observed cres tr Hc) as (? & _ & Ho & _).
      by eapply returns_one_ok_span.
    + destruct (record_drift_observed alerts traces_analyzed tr Hd) as (Ho & _).
      by eapply returns_one_ok_span.
  - split; [|split; [|split]].
    + destruct (record_integrity_check_observed VNone tr Hin) as (? & _ & Ho & _).
      by eapply returns_one_ok_span.
    + destruct (record_verification_observed VNone tr Hvn) as (? & _ & Ho & _).
      by eapply returns_one_ok_span.
    + destruct (record_coherence_observed VNone tr Hcn) as (? & _ & Ho & _).
      by eapply returns_one_ok_span.
    + destruct (record_drift_observed VNone traces_analyzed tr Hdn) as (Ho & _).
      by eapply returns_one_ok_span.
  - repeat split; reflexivity.
  - repeat match goal with |- _ ∧ _ => split end.
    + intros d tr'. split.
      * same_run record_integrity_check (integrity_check_payload_checkpoint d (VDict ∅)
                                           (or_intror eq_refl)).
      * unfold record_integrity_check, bind, lift.
        by rewrite !integrity_check_payload_checkpoint by auto.
    + intros d tr'. split.
      * same_run record_integrity_check (integrity_check_payload_window d (VDict ∅)
                                           (or_intror eq_refl)).
      * unfold record_integrity_check, bind, lift.
        by rewrite !integrity_check_payload_window by auto.
    + intros d cp tr'. split.
      * same_run record_integrity_check (integrity_check_payload_metadata d cp (VDict ∅)
                                           (or_intror eq_refl)).
      * unfold record_integrity_check, bind, lift.
        by rewrite !integrity_check_payload_metadata by auto.
    + intros d cp tr'. split.
      * same_run record_integrity_check (integrity_check_payload_conscience d cp (VDict ∅)
                                           (or_intror eq_refl)).
      * unfold record_integrity_check, bind, lift.
        by rewrite !integrity_check_payload_conscience by auto.
    + intros d tr'. split.
      * same_run record_verification (verification_payload_metadata d (VDict ∅)
                                        (or_intror eq_refl)).
      * unfold record_verification, bind, lift.
        by rewrite !verification_payload_metadata by auto.
    + intros d tr'. split.
      * same_run record_coherence (coherence_payload_alignment d (VDict ∅)
                                     (or_intror eq_refl)).
      * unfold record_coherence, bind, lift.
        by rewrite !coherence_payload_alignment by auto.
    + intros before after alert tr'. split.
      * same_run record_drift (drift_payload_analysis before after alert (VDict ∅)
                                 traces_analyzed (or_intror eq_refl)).
      * unfold record_drift, bind, lift.
        by rewrite !drift_payload_analysis by auto.
    + intros d k. apply integrity_signal_shaped_without. by left.
    + intros d k. apply verification_result_shaped_without. by left.
    + intros d k. apply coherence_result_shaped_without. by left.
    + intros d k. apply drift_alert_shaped_without. by left.
Qed.

Lemma mappers_are_total_witness :
  integrity_signal_shaped SIGNAL_FIXTURE = true
  ∧ verification_result_shaped VERIFICATION_FIXTURE = true
  ∧ coherence_result_shaped COHERENCE_FIXTURE = true
  ∧ drift_alerts_shaped DRIFT_ALERTS_FIXTURE = true
  ∧ returns (record_integrity_check SIGNAL_FIXTURE empty_tracer)
  ∧ returns (record_verification VERIFICATION_FIXTURE empty_tracer)
  ∧ returns (record_coherence COHERENCE_FIXTURE empty_tracer)
  ∧ returns (record_drift DRIFT_ALERTS_FIXTURE (VInt 10) empty_tracer).
Proof.
  assert (Hi : integrity_signal_shaped SIGNAL_FIXTURE = true) by (by vm_compute).
  assert (Hv : verification_result_shaped VERIFICATION_FIXTURE = true) by (by vm_compute).
  assert (Hc : coherence_result_shaped COHERENCE_FIXTURE = true) by (by vm_compute).
  assert (Hd : drift_alerts_shaped DRIFT_ALERTS_FIXTURE = true) by (by vm_compute).
  destruct (mappers_are_total SIGNAL_FIXTURE VERIFICATION_FIXTURE COHERENCE_FIXTURE
              DRIFT_ALERTS_FIXTURE (VInt 10) empty_tracer Hi Hv Hc Hd)
    as ((Ri & Rv & Rc & Rd) & _).
  exact (conj Hi (conj Hv (conj Hc (conj Hd (conj Ri (conj Rv (conj Rc Rd))))))).
Defined.

(** * Further properties *)

(** ** Runs on arbitrary input *)

(** The entry under [key] of a display that was built. *)
Ltac entry_of H key r v Hv Hk :=
  match type of H with
  | dict_literal ?es = Ok (VDict ?d) =>
      destruct (dict_literal_lookup es d key r) as (v & Hv & Hk);
      [distinct_keys|exact H|find_entry|]
  end.

Lemma dict_literal_named (name : value) (r : outcome value) (a : value) :
  dict_literal [("name", Ok name); ("attributes", r)] = Ok a → event_shaped a = true.
Proof.
  intros H. pose proof H as H'.
  apply dict_literal_dom in H' as (d & -> & _).
  entry_of H "name" (Ok name) v Hv Hk.
  simpl. rewrite Hk. done.
Qed.

Lemma append_events_shaped (make : value → outcome value) (acc items evs : list value) :
  (∀ x ev, make x = Ok ev → event_shaped ev = true) →
  forallb event_shaped acc = true →
  append_events make acc items = Ok evs →
  forallb event_shaped evs = true.
Proof.
  unfold append_events. intros Hm. revert acc.
  induction items as [|x items IH]; intros acc Hacc H; simpl in H.
  - by inversion H; subst.
  - apply bind_Ok_inv in H as (acc' & Hx & H).
    apply bind_Ok_inv in Hx as (ev & Hev & Hx). inversion Hx; subst.
    apply (IH (acc ++ [ev])); [|exact H].
    apply forallb_app_true; [done|]. cbn [forallb]. by rewrite (Hm _ _ Hev).
Qed.

Lemma integrity_check_events_shaped (concerns win e : value) :
  integrity_check_events concerns win = Ok e → events_shaped e = true.
Proof.
  unfold integrity_check_events. intros H.
  apply bind_Ok_inv in H as (evs & Hevs & H).
  apply bind_Ok_inv in H as (active & _ & H).
  apply bind_Ok_inv in H as (evs' & Hevs' & H). inversion H; subst. simpl.
  assert (Hs : forallb event_shaped evs = true).
  { destruct (py_truthy concerns); [|by inversion Hevs; subst].
    apply bind_Ok_inv in Hevs as (items & _ & Hevs).
    apply (append_events_shaped concern_event [] items evs); [|done|exact Hevs].
    intros x ev. apply dict_literal_named. }
  destruct (py_truthy active); [|by inversion Hevs'; subst].
  apply bind_Ok_inv in Hevs' as (ev & Hev & Hevs'). inversion Hevs'; subst.
  apply forallb_app_true; [done|]. cbn [forallb]. by rewrite (dict_literal_named _ _ _ Hev).
Qed.

Lemma verification_events_shaped (violations e : value) :
  verification_events violations = Ok e → events_shaped e = true.
Proof.
  unfold verification_events. intros H.
  apply bind_Ok_inv in H as (evs & Hevs & H). inversion H; subst. simpl.
  destruct (py_truthy violations); [|by inversion Hevs; subst].
  apply bind_Ok_inv in Hevs as (items & _ & Hevs).
  apply (append_events_shaped violation_event [] items evs); [|done|exact Hevs].
  intros x ev. apply dict_literal_named.
Qed.

Lemma integrity_check_payload_built (signal a e : value) :
  integrity_check_payload signal = Ok (a, e) →
  ∃ d, a = VDict d ∧ events_shaped e = true.
Proof.
  unfold integrity_check_payload. intros H.
  do 7 (apply bind_Ok_inv in H as (? & _ & H)).
  apply bind_Ok_inv in H as (a' & Ha & H).
  apply bind_Ok_inv in H as (e' & He & H). inversion H; subst.
  apply dict_literal_dom in Ha as (d & -> & _). exists d. split; [done|].
  by eapply integrity_check_events_shaped.
Qed.

Lemma verification_payload_built (result a e : value) :
  verification_payload result = Ok (a, e) →
  ∃ d, a = VDict d ∧ events_shaped e = true.
Proof.
  unfold verification_payload. cbv zeta. intros H.
  do 4 (apply bind_Ok_inv in H as (? & _ & H)).
  apply bind_Ok_inv in H as (a' & Ha & H).
  apply bind_Ok_inv in H as (e' & He & H). inversion H; subst.
  apply dict_literal_dom in Ha as (d & -> & _). exists d. split; [done|].
  by eapply verification_events_shaped.
Qed.

Lemma coherence_payload_built (result a : value) :
  coherence_payload result = Ok a → ∃ d, a = VDict d.
Proof.
  unfold coherence_payload. cbv zeta. intros H.
  do 3 (apply bind_Ok_inv in H as (? & _ & H)).
  apply dict_literal_dom in H as (d & -> & _). by exists d.
Qed.

Lemma drift_alert_event_shaped (alert ev : value) :
  drift_alert_event alert = Ok ev → event_shaped ev = true.
Proof.
  unfold drift_alert_event. intros H.
  do 7 (apply bind_Ok_inv in H as (? & _ & H)).
  by apply dict_literal_named in H.
Qed.

Lemma drift_payload_built (alerts traces_analyzed a e : value) :
  drift_payload alerts traces_analyzed = Ok (a, e) →
  ∃ d, a = VDict d ∧ events_shaped e = true.
Proof.
  unfold drift_payload. cbv zeta. intros H.
  apply bind_Ok_inv in H as (a' & Ha & H).
  apply bind_Ok_inv in H as (evs & Hevs & H). inversion H; subst.
  apply dict_literal_dom in Ha as (d & -> & _). exists d. split; [done|].
  apply bind_Ok_inv in Hevs as (items & _ & Hevs). simpl.
  apply (append_events_shaped drift_alert_event [] items evs); [|done|exact Hevs].
  apply drift_alert_event_shaped.
Qed.

(** A mapper reads the record first and emits afterwards. *)
Lemma emit_or_raise (name : string) (payload : outcome (value * value)) (tr : tracer) :
  (∀ a e, payload = Ok (a, e) → ∃ d, a = VDict d ∧ events_shaped e = true) →
  let run := bind (lift payload) (λ p, build_span name p.1 p.2) tr in
  one_ok_span name tr run ∨ ∃ e, run = (Raise e, tr).
Proof.
  intros Hb run. subst run. unfold bind, lift.
  destruct payload as [[a e]|err]; [|right; by exists err].
  destruct (Hb a e eq_refl) as (d & -> & He). left. cbn [fst snd].
  by destruct (build_span_observed name d e tr He) as (Ho & _).
Qed.

(** X1. Whatever it is given, a mapper either returns the one span it
    started, ended, with status OK and handed to the exporter, or raises
    while it reads the record, before any span is started: the tracer is
    then as it was. *)
Theorem mappers_emit_or_leave_tracer (input traces_analyzed : value) (tr : tracer) :
  (one_ok_span attr.SPAN_AIP_INTEGRITY_CHECK tr (record_integrity_check input tr)
   ∨ ∃ e, record_integrity_check input tr = (Raise e, tr))
  ∧ (one_ok_span attr.SPAN_AAP_VERIFY_TRACE tr (record_verification input tr)
     ∨ ∃ e, record_verification input tr = (Raise e, tr))
  ∧ (one_ok_span attr.SPAN_AAP_CHECK_COHERENCE tr (record_coherence input tr)
     ∨ ∃ e, record_coherence input tr = (Raise e, tr))
  ∧ (one_ok_span attr.SPAN_AAP_DETECT_DRIFT tr (record_drift input traces_analyzed tr)
     ∨ ∃ e, record_drift input traces_analyzed tr = (Raise e, tr)).
Proof.
  split; [|split; [|split]].
  - apply emit_or_raise. apply integrity_check_payload_built.
  - apply emit_or_raise. apply verification_payload_built.
  - unfold record_coherence, bind, lift.
    destruct (coherence_payload input) as [a|err] eqn:E; [|right; by exists err].
    destruct (coherence_payload_built _ _ E) as (d & ->). left.
    by destruct (build_span_observed attr.SPAN_AAP_CHECK_COHERENCE d VNone tr eq_refl)
      as (Ho & _).
  - apply emit_or_raise. apply drift_payload_built.
Qed.

(** X2. Whatever the record, a coherence span that is returned carries no
    event. *)
Theorem record_coherence_has_no_events (result : value) (tr tr' : tracer) (sp : span) :
  record_coherence result tr = (Ok sp, tr') → span_events sp = [].
Proof.
  unfold record_coherence, bind, lift.
  destruct (coherence_payload result) as [a|err] eqn:E; [|done].
  destruct (coherence_payload_built _ _ E) as (d & ->).
  rewrite (build_span_run attr.SPAN_AAP_CHECK_COHERENCE d VNone tr eq_refl).
  intros H. by inversion H.
Qed.

Lemma record_coherence_has_no_events_witness :
  ∃ sp tr', record_coherence COHERENCE_FIXTURE empty_tracer = (Ok sp, tr')
            ∧ span_events sp = [].
Proof.
  destruct (record_coherence COHERENCE_FIXTURE empty_tracer) as [[sp|err] tr'] eqn:E.
  - exists sp, tr'. split; [reflexivity|].
    exact (record_coherence_has_no_events COHERENCE_FIXTURE empty_tracer tr' sp E).
  - vm_compute in E. discriminate E.
Defined.

(** ** The drift-alert event of the integrity span *)

Lemma filter_named_none (name : string) (g : value → value) (l : list value) :
  (∀ x, is_named name (event_of (g x)) = false) →
  List.filter (is_named name) (event_of <$> (g <$> l)) = [].
Proof.
  intros Hg. induction l as [|x l IH]; [done|].
  rewrite !fmap_cons. cbn [List.filter]. by rewrite Hg, IH.
Qed.

Lemma event_of_drift_active : event_of drift_active_event_value = drift_active_event.
Proof. by vm_compute. Qed.

(** X3. On a signal of the shape of types.py the integrity span carries,
    after the events of the concerns, one attribute-less "aip.drift_alert"
    event exactly when window_summary.drift_alert_active is truthy; it has
    no other event. *)
Theorem drift_alert_event_iff_active (signal : value) (tr : tracer) :
  integrity_signal_shaped signal = true →
  let concerns := items_of (field (field signal "checkpoint") "concerns") in
  let active := field (field signal "window_summary") "drift_alert_active" in
  let run := record_integrity_check signal tr in
  returns run
  ∧ length (events_of run)
    = (length concerns + (if py_truthy active then 1 else 0))%nat
  ∧ List.filter (is_named attr.EVENT_AIP_DRIFT_ALERT) (events_of run)
    = (if py_truthy active then [drift_active_event] else [])
  ∧ (py_truthy active = true → last (events_of run) = Some drift_active_event)
  ∧ (py_truthy active = false →
       List.filter (is_named attr.EVENT_AIP_CONCERN) (events_of run) = events_of run).
Proof.
  intros Hs concerns active run.
  destruct (record_integrity_check_observed signal tr Hs) as (d & _ & Ho & _ & He).
  fold run in Ho, He. fold concerns active in He.
  split; [by eapply returns_one_ok_span|].
  rewrite He, fmap_app. clear He.
  assert (Hc : ∀ x, is_named attr.EVENT_AIP_DRIFT_ALERT
                      (event_of (concern_event_value x)) = false)
    by (intros x; by vm_compute).
  assert (Hc' : ∀ x, is_named attr.EVENT_AIP_CONCERN
                       (event_of (concern_event_value x)) = true)
    by (intros x; by vm_compute).
  split; [|split; [|split]].
  - rewrite length_app, !length_fmap. by destruct (py_truthy active).
  - rewrite List.filter_app, filter_named_none by done.
    destruct (py_truthy active); [|done].
    rewrite fmap_cons, event_of_drift_active. reflexivity.
  - intros ->. rewrite fmap_cons, fmap_nil, event_of_drift_active. by rewrite last_snoc.
  - intros ->. rewrite fmap_nil, (right_id_L [] (++)). by apply filter_named_all.
Qed.

Lemma drift_alert_event_witness :
  let signal := dict [("window_summary", dict [("drift_alert_active", VBool true)])] in
  integrity_signal_shaped signal = true
  ∧ events_of (record_integrity_check signal empty_tracer) = [drift_active_event].
Proof.
  intros signal.
  assert (Hs : integrity_signal_shaped signal = true) by (by vm_compute).
  destruct (drift_alert_event_iff_active signal empty_tracer Hs)
    as (_ & Hlen & Hfilter & Hlast & _).
  split; [exact Hs|].
  assert (Ha : py_truthy (field (field signal "window_summary") "drift_alert_active")
               = true) by (by vm_compute).
  specialize (Hlast Ha). rewrite Ha in Hlen.
  destruct (events_of (record_integrity_check signal empty_tracer)) as [|ev [|ev' evs]];
    [done| |done].
  simpl in Hlast. by inversion Hlast.
Defined.

(** ** Attributes read from a field as it is *)

(** The attribute under [key] of a span whose display is [H], for an entry
    that reads a field of a shaped record. *)
Ltac field_attribute H Hnd Hattr :=
  rewrite Hattr, lookup_kept;
  match type of H with
  | dict_literal ?es = Ok (VDict ?d) =>
      match goal with
      | |- match d !! ?key with _ => _ end = _ =>
          let v := fresh "v" in
          let Hv := fresh "Hv" in
          let Hk := fresh "Hk" in
          edestruct (dict_literal_lookup es d key) as (v & Hv & Hk);
          [exact Hnd|exact H|find_entry|];
          rewrite ?py_or_record_like in Hv by assumption;
          rewrite py_get_as_dict in Hv; inversion Hv; subst v;
          rewrite Hk; reflexivity
      end
  end.

Lemma lookup_outside_dom (d : gmap string value) (keys : list string) (key : string) :
  dom d = list_to_set keys → key ∉ keys → d !! key = None.
Proof.
  intros Hdom Hk. apply not_elem_of_dom. rewrite Hdom. by rewrite elem_of_list_to_set.
Qed.

(** X4. On a signal of the shape of types.py, each of the 19 attributes of
    the integrity span that is read from a field as it is equals that field
    when the field is not [None] and is absent otherwise (a False, 0 or ""
    is kept); so the two gen_ai.evaluation aliases always agree with
    aip.integrity.verdict and aip.window.integrity_ratio; and the span has
    no attribute outside the 22 keys of the display. *)
Theorem integrity_attributes_pass_through (signal : value) (tr : tracer) :
  integrity_signal_shaped signal = true →
  let run := record_integrity_check signal tr in
  returns run
  ∧ (∀ key src, (key, src) ∈ integrity_sources signal →
       attribute_of run key = present src)
  ∧ attribute_of run attr.GEN_AI_EVALUATION_VERDICT
    = attribute_of run attr.AIP_INTEGRITY_VERDICT
  ∧ attribute_of run attr.GEN_AI_EVALUATION_SCORE
    = attribute_of run attr.AIP_WINDOW_INTEGRITY_RATIO
  ∧ (∀ key, key ∉ integrity_keys → attribute_of run key = None).
Proof.
  intros Hs run.
  destruct (record_integrity_check_observed signal tr Hs) as (d & Hd & Ho & Ha & _).
  fold run in Ho, Ha.
  split; [by eapply returns_one_ok_span|].
  pose proof (integrity_keys_entries _ _ _ _ _ _ _ _ _ Hd) as (d' & Hd' & _ & Hdom).
  inversion Hd'; subst d'. clear Hd'.
  unfold integrity_check_attributes in Hd.
  unfold integrity_signal_shaped in Hs. split_shape Hs.
  assert (Htable : ∀ key src, (key, src) ∈ integrity_sources signal →
                     attribute_of run key = present src).
  { match type of Hd with
    | dict_literal ?es = _ => assert (Hnd : NoDup es.*1) by distinct_keys
    end.
    intros key src Hin. unfold integrity_sources in Hin. unfold present.
    repeat (apply elem_of_cons in Hin as [Heq|Hin];
            [inversion Heq; subst key src; clear Heq; field_attribute Hd Hnd Ha|]).
    by apply elem_of_nil in Hin. }
  split; [exact Htable|]. split; [|split].
  - rewrite (Htable attr.GEN_AI_EVALUATION_VERDICT
               (field (field signal "checkpoint") "verdict"))
      by (unfold integrity_sources; find_entry).
    rewrite (Htable attr.AIP_INTEGRITY_VERDICT
               (field (field signal "checkpoint") "verdict"))
      by (unfold integrity_sources; find_entry).
    done.
  - rewrite (Htable attr.GEN_AI_EVALUATION_SCORE
               (field (field signal "window_summary") "integrity_ratio"))
      by (unfold integrity_sources; find_entry).
    rewrite (Htable attr.AIP_WINDOW_INTEGRITY_RATIO
               (field (field signal "window_summary") "integrity_ratio"))
      by (unfold integrity_sources; find_entry).
    done.
  - intros key Hk. by rewrite Ha, lookup_kept, (lookup_outside_dom _ _ _ Hdom Hk).
Qed.

Lemma integrity_attributes_witness :
  integrity_signal_shaped SIGNAL_FIXTURE = true
  ∧ attribute_of (record_integrity_check SIGNAL_FIXTURE empty_tracer)
      attr.AIP_INTEGRITY_TRUNCATED = Some (VBool false)
  ∧ attribute_of (record_integrity_check SIGNAL_FIXTURE empty_tracer)
      attr.GEN_AI_EVALUATION_VERDICT = Some (VStr "review_needed").
Proof.
  assert (Hs : integrity_signal_shaped SIGNAL_FIXTURE = true) by (by vm_compute).
  destruct (integrity_attributes_pass_through SIGNAL_FIXTURE empty_tracer Hs)
    as (_ & Htable & _).
  refine (conj Hs (conj (Htable _ (VBool false) _) (Htable _ (VStr "review_needed") _)));
    apply list_elem_of_In; vm_compute; tauto.
Defined.

(** X5. On records of the shape of types.py the five attributes of the
    verification span and the three of the coherence span that are read
    from a field as it is equal that field when it is not [None] and are
    absent otherwise (so a failed verification shows as result = False);
    neither span has an attribute outside the 8 and the 5 keys of its
    display. *)
Theorem verification_and_coherence_pass_through (vres cres : value) (tr : tracer) :
  verification_result_shaped vres = true →
  coherence_result_shaped cres = true →
  let vrun := record_verification vres tr in
  let crun := record_coherence cres tr in
  returns vrun ∧ returns crun
  ∧ (∀ key src, (key, src) ∈ verification_sources vres →
       attribute_of vrun key = present src)
  ∧ (∀ key, key ∉ verification_keys → attribute_of vrun key = None)
  ∧ (∀ key src, (key, src) ∈ coherence_sources cres →
       attribute_of crun key = present src)
  ∧ (∀ key, key ∉ coherence_keys → attribute_of crun key = None).
Proof.
  intros Hv Hc vrun crun.
  destruct (record_verification_observed vres tr Hv) as (dv & Hdv & Hvo & Hva & _).
  destruct (record_coherence_observed cres tr Hc) as (dc & Hdc & Hco & Hca & _).
  fold vrun in Hvo, Hva. fold crun in Hco, Hca.
  split; [by eapply returns_one_ok_span|]. split; [by eapply returns_one_ok_span|].
  unfold verification_attributes in Hdv. unfold coherence_attributes in Hdc.
  pose proof (dict_literal_dom _ _ Hdv) as (dv' & Hdv' & Hdomv).
  pose proof (dict_literal_dom _ _ Hdc) as (dc' & Hdc' & Hdomc).
  inversion Hdv'; subst dv'. inversion Hdc'; subst dc'. clear Hdv' Hdc'.
  unfold verification_result_shaped in Hv. split_shape Hv.
  unfold coherence_result_shaped in Hc. split_shape Hc.
  split; [|split; [|split]].
  - match type of Hdv with
    | dict_literal ?es = _ => assert (Hnd : NoDup es.*1) by distinct_keys
    end.
    intros key src Hin. unfold verification_sources in Hin. unfold present.
    repeat (apply elem_of_cons in Hin as [Heq|Hin];
            [inversion Heq; subst key src; clear Heq; field_attribute Hdv Hnd Hva|]).
    by apply elem_of_nil in Hin.
  - intros key Hk. by rewrite Hva, lookup_kept, (lookup_outside_dom _ _ _ Hdomv Hk).
  - match type of Hdc with
    | dict_literal ?es = _ => assert (Hnd : NoDup es.*1) by distinct_keys
    end.
    intros key src Hin. unfold coherence_sources in Hin. unfold present.
    repeat (apply elem_of_cons in Hin as [Heq|Hin];
            [inversion Heq; subst key src; clear Heq; field_attribute Hdc Hnd Hca|]).
    by apply elem_of_nil in Hin.
  - intros key Hk. by rewrite Hca, lookup_kept, (lookup_outside_dom _ _ _ Hdomc Hk).
Qed.

Lemma verification_and_coherence_witness :
  verification_result_shaped VERIFICATION_FIXTURE = true
  ∧ coherence_result_shaped COHERENCE_FIXTURE = true
  ∧ attribute_of (record_verification VERIFICATION_FIXTURE empty_tracer)
      attr.AAP_VERIFICATION_RESULT = Some (VBool false)
  ∧ attribute_of (record_coherence COHERENCE_FIXTURE empty_tracer)
      attr.AAP_COHERENCE_COMPATIBLE = Some (VBool true).
Proof.
  assert (Hv : verification_result_shaped VERIFICATION_FIXTURE = true) by (by vm_compute).
  assert (Hc : coherence_result_shaped COHERENCE_FIXTURE = true) by (by vm_compute).
  destruct (verification_and_coherence_pass_through
              VERIFICATION_FIXTURE COHERENCE_FIXTURE empty_tracer Hv Hc)
    as (_ & _ & Hvt & _ & Hct & _).
  refine (conj Hv (conj Hc (conj (Hvt _ (VBool false) _) (Hct _ (VBool true) _))));
    apply list_elem_of_In; vm_compute; tauto.
Defined.

(** ** The span builder on its own *)

Lemma for_each_app {A B} (body : B → A → outcome B) (acc : B) (l1 l2 : list A) :
  for_each body acc (l1 ++ l2) =
    for_each body acc l1 ≫= λ acc', for_each body acc' l2.
Proof.
  revert acc. induction l1 as [|x l1 IH]; intros acc; [done|].
  simpl. destruct (body acc x) as [acc'|e]; [|done]. simpl. apply IH.
Qed.

Lemma add_event_of_without_name (sp : span) (bad : gmap string value) :
  bad !! "name" = None → add_event_of sp (VDict bad) = Raise (KeyError "name").
Proof. intros H. unfold add_event_of, py_getitem. by rewrite H. Qed.

(** X6. An entry of [events] that is a dictionary without a "name" makes
    [build_span] raise KeyError "name" after the span was started: one more
    span is started, none is ended or handed to the exporter. *)
Theorem build_span_event_without_name
    (name : string) (attributes bad : gmap string value)
    (good rest : list value) (tr : tracer) :
  forallb event_shaped good = true →
  bad !! "name" = None →
  build_span name (VDict attributes) (VList (good ++ VDict bad :: rest)) tr =
    (Raise (KeyError "name"),
     {| current_context := current_context tr;
        spans_started := S (spans_started tr);
        finished_spans := finished_spans tr |}).
Proof.
  intros Hgood Hbad. unfold build_span, bind, get_current, gets, start_span, lift.
  rewrite set_optional_attributes_run by done. cbn [span_ended].
  assert (Ht : py_truthy (VList (good ++ VDict bad :: rest)) = true)
    by (by destruct good).
  rewrite Ht. cbn [py_iter mbind outcome_bind].
  rewrite for_each_app, add_events_run by done. cbn [mbind outcome_bind for_each].
  rewrite add_event_of_without_name by done. done.
Qed.

Lemma build_span_event_without_name_witness :
  let bad : gmap string value := {["attributes" := VDict ∅]} in
  let run := build_span "s" (VDict ∅) (VList [VDict bad]) empty_tracer in
  bad !! "name" = None
  ∧ run.1 = Raise (KeyError "name")
  ∧ finished_spans run.2 = []
  ∧ spans_started run.2 = 1%nat.
Proof.
  intros bad run.
  assert (Hbad : bad !! "name" = None) by (by vm_compute).
  pose proof (build_span_event_without_name "s" ∅ bad [] [] empty_tracer eq_refl Hbad)
    as H.
  change ([] ++ VDict bad :: []) with [VDict bad] in H. fold run in H.
  rewrite H. done.
Defined.

(** X7. [set_optional_attributes] on a span that is recording sets every
    entry that is not [None], over an earlier value under the same key; an
    entry that is [None] leaves an earlier value in place, and the events,
    the name and the status are untouched. *)
Theorem set_optional_attributes_overrides
    (sp : span) (attrs : gmap string value) :
  span_ended sp = false →
  ∃ sp', set_optional_attributes sp (VDict attrs) = Ok sp'
    ∧ (∀ key, span_attributes sp' !! key =
              match attrs !! key with
              | Some v => if py_is_none v then span_attributes sp !! key else Some v
              | None => span_attributes sp !! key
              end)
    ∧ span_events sp' = span_events sp
    ∧ span_name sp' = span_name sp
    ∧ span_status sp' = span_status sp
    ∧ span_ended sp' = false.
Proof.
  intros Hrec. eexists. split; [by apply set_optional_attributes_run|].
  split; [|done]. intros key. cbn [span_attributes].
  rewrite lookup_union, lookup_kept.
  destruct (attrs !! key) as [v|]; [destruct (py_is_none v)|];
    by destruct (span_attributes sp !! key).
Qed.

Lemma set_optional_attributes_witness :
  let sp := {| span_name := "s"; span_kind := SpanKind.INTERNAL; span_parent := None;
               span_attributes := {["a" := VInt 1]}; span_events := [];
               span_status := StatusCode.UNSET; span_ended := false |} in
  ∃ sp', set_optional_attributes sp (VDict {["a" := VNone]}) = Ok sp'
         ∧ span_attributes sp' !! "a" = Some (VInt 1).
Proof.
  intros sp.
  destruct (set_optional_attributes_overrides sp {["a" := VNone]} eq_refl)
    as (sp' & Hrun & Hattr & _).
  exists sp'. split; [exact Hrun|]. rewrite Hattr. by vm_compute.
Defined.

(** ** Edges of the record mappers *)

(** X8. The drift span carries traces_analyzed as it was passed: the default
    gives 0, and an explicit [None] leaves the attribute out. *)
Theorem traces_analyzed_passes_through (alerts traces_analyzed : value) (tr : tracer) :
  drift_alerts_shaped alerts = true →
  returns (record_drift alerts traces_analyzed tr)
  ∧ attribute_of (record_drift alerts traces_analyzed tr) attr.AAP_DRIFT_TRACES_ANALYZED
    = present traces_analyzed
  ∧ attribute_of (record_drift alerts traces_analyzed_default tr)
      attr.AAP_DRIFT_TRACES_ANALYZED = Some (VInt 0)
  ∧ attribute_of (record_drift alerts VNone tr) attr.AAP_DRIFT_TRACES_ANALYZED = None.
Proof.
  intros Hs.
  assert (H : ∀ ta, attribute_of (record_drift alerts ta tr)
                      attr.AAP_DRIFT_TRACES_ANALYZED = present ta).
  { intros ta. destruct (record_drift_observed alerts ta tr Hs) as (_ & Ha & _).
    rewrite Ha, lookup_kept.
    rewrite (lookup_dict_of _ attr.AAP_DRIFT_TRACES_ANALYZED ta);
      [done|by apply (bool_decide_unpack _)|find_entry]. }
  split; [|split; [apply H|split; apply H]].
  destruct (record_drift_observed alerts traces_analyzed tr Hs) as (Ho & _).
  by eapply returns_one_ok_span.
Qed.

Lemma traces_analyzed_witness :
  drift_alerts_shaped (VList []) = true
  ∧ attribute_of (record_drift (VList []) (VInt 5) empty_tracer)
      attr.AAP_DRIFT_TRACES_ANALYZED = Some (VInt 5).
Proof.
  assert (Hs : drift_alerts_shaped (VList []) = true) by (by vm_compute).
  destruct (traces_analyzed_passes_through (VList []) (VInt 5) empty_tracer Hs)
    as (_ & H & _).
  exact (conj Hs H).
Defined.

(** X9. A record that is truthy and no dictionary (a string, a number, a
    list) makes each of the three record mappers raise AttributeError, with
    the tracer as it was. *)
Theorem non_dictionary_record_raises (record : value) (tr : tracer) :
  py_truthy record = true →
  is_dict record = false →
  record_integrity_check record tr = (Raise AttributeError, tr)
  ∧ record_verification record tr = (Raise AttributeError, tr)
  ∧ record_coherence record tr = (Raise AttributeError, tr).
Proof.
  intros Ht Hd.
  assert (Hor : py_or record (VDict ∅) = record) by (unfold py_or; by rewrite Ht).
  assert (Hget : ∀ k, py_get record k = Raise AttributeError) by (by destruct record).
  repeat split.
  - unfold record_integrity_check, bind, lift, integrity_check_payload.
    rewrite Hor, !Hget. reflexivity.
  - unfold record_verification, bind, lift, verification_payload. cbv zeta.
    rewrite Hor, !Hget. reflexivity.
  - unfold record_coherence, bind, lift, coherence_payload. cbv zeta.
    rewrite Hor, !Hget. reflexivity.
Qed.

Lemma non_dictionary_record_witness :
  record_integrity_check (VStr "clear") empty_tracer = (Raise AttributeError, empty_tracer).
Proof.
  exact (proj1 (non_dictionary_record_raises (VStr "clear") empty_tracer eq_refl eq_refl)).
Defined.

(** ** The metric recorders *)

Lemma create_aip_metrics_lookup_verification
    (m0 : meter) (metrics_dict : gmap string instrument) :
  (create_aip_metrics m0).1 = Ok metrics_dict →
  ∃ verifications violations duration score,
    metrics_dict !! "verifications" = Some verifications
    ∧ instrument_kind verifications = InstrumentKind.Counter
    ∧ metrics_dict !! "violations" = Some violations
    ∧ instrument_kind violations = InstrumentKind.Counter
    ∧ metrics_dict !! "verification_duration" = Some duration
    ∧ instrument_kind duration = InstrumentKind.Histogram
    ∧ metrics_dict !! "coherence_score" = Some score
    ∧ instrument_kind score = InstrumentKind.Histogram.
Proof.
  destruct m0 as [created measured]. intros H. cbn in H. inversion H as [Hd]. clear H.
  do 4 eexists. repeat split; by vm_compute.
Qed.

(** Runs a recorder whose instruments and their kinds are at hand. *)
Ltac run_recorder :=
  repeat first
    [ rewrite py_or_record_like by assumption
    | rewrite py_get_as_dict
    | match goal with H : _ !! _ = _ |- _ => rewrite H end
    | match goal with H : instrument_kind _ = _ |- _ => rewrite H end
    | progress unfold get_add, get_record
    | progress cbn [mbind outcome_bind measure modify ret fst snd] ].

(** X10. With the instruments of [create_aip_metrics] and a signal of the
    shape of types.py, [record_integrity_metrics] makes exactly these
    measurements, in this order: 1 on integrity_checks; the number of
    concerns on concerns, only when there is at least one; the analysis
    duration and the window integrity ratio on their histograms, each only
    when not [None]; 1 on drift_alerts when drift is active.  The first
    three carry the attributes {"verdict": label}, a dictionary of that one
    key whose label is the verdict, or "unknown" for a falsy one; the last
    two are made without attributes. *)
Theorem record_integrity_metrics_measurements
    (m0 m : meter) (metrics_dict : gmap string instrument) (signal : value) :
  (create_aip_metrics m0).1 = Ok metrics_dict →
  integrity_signal_shaped signal = true →
  let cp := field signal "checkpoint" in
  let win := field signal "window_summary" in
  let concerns := items_of (field cp "concerns") in
  let duration := field (field cp "analysis_metadata") "analysis_duration_ms" in
  let ratio := field win "integrity_ratio" in
  let verdict := field cp "verdict" in
  let label := if py_truthy verdict then verdict else VStr "unknown" in
  let labels := VDict {["verdict" := label]} in
  let run := record_integrity_metrics metrics_dict signal m in
  ∃ checks_c concerns_c duration_h ratio_h drift_c,
    metrics_dict !! "integrity_checks" = Some checks_c
    ∧ metrics_dict !! "concerns" = Some concerns_c
    ∧ metrics_dict !! "analysis_duration" = Some duration_h
    ∧ metrics_dict !! "integrity_ratio" = Some ratio_h
    ∧ metrics_dict !! "drift_alerts" = Some drift_c
    ∧ run.1 = Ok tt
    ∧ instruments_created run.2 = instruments_created m
    ∧ measurements run.2 =
        measurements m
        ++ [measured checks_c (VInt 1) labels]
        ++ optional (negb (bool_decide (concerns = [])))
             (measured concerns_c (VInt (Z.of_nat (length concerns))) labels)
        ++ optional (negb (py_is_none duration)) (measured duration_h duration labels)
        ++ optional (negb (py_is_none ratio)) (measured ratio_h ratio VNone)
        ++ optional (py_truthy (field win "drift_alert_active"))
             (measured drift_c (VInt 1) VNone).
Proof.
  intros Hm Hs cp win concerns duration ratio verdict label labels run.
  destruct (create_aip_metrics_lookup m0 metrics_dict Hm)
    as (checks_c & concerns_c & duration_h & ratio_h & drift_c
        & Hchecks & Kchecks & Hconcerns & Kconcerns & Hduration & Kduration
        & Hratio & Kratio & Hdrift & Kdrift).
  exists checks_c, concerns_c, duration_h, ratio_h, drift_c.
  do 5 (split; [assumption|]).
  clear Hm. unfold integrity_signal_shaped in Hs. split_shape Hs.
  subst run labels label verdict ratio duration concerns win cp.
  unfold record_integrity_metrics, bind, lift, metrics_getitem, measured, optional.
  cbv zeta. run_recorder. rewrite !verdict_labels_display. unfold py_or.
  destruct (field (field signal "checkpoint") "concerns") as [| | | | |l|];
    try done; (destruct l as [|c l] || idtac);
    cbn [py_truthy py_len py_is_none ret items_of length bool_decide negb];
    destruct (py_is_none (field (field (field signal "checkpoint")
                                   "analysis_metadata") "analysis_duration_ms"));
    destruct (py_is_none (field (field signal "window_summary") "integrity_ratio"));
    destruct (py_truthy (field (field signal "window_summary") "drift_alert_active"));
    cbn [ret measure modify fst snd measurements instruments_created negb
         bool_decide decide_rel];
    (split; [reflexivity|split; [reflexivity|]]);
    rewrite <- ?(assoc_L (++)); reflexivity.
Qed.

Lemma record_integrity_metrics_witness :
  ∃ metrics_dict,
    (create_aip_metrics empty_meter).1 = Ok metrics_dict
    ∧ integrity_signal_shaped SIGNAL_FIXTURE = true
    ∧ length (measurements
                (record_integrity_metrics metrics_dict SIGNAL_FIXTURE empty_meter).2)
      = 4%nat.
Proof.
  assert (∃ md, (create_aip_metrics empty_meter).1 = Ok md) as [md Hmd]
    by (eexists; reflexivity).
  assert (Hs : integrity_signal_shaped SIGNAL_FIXTURE = true) by (by vm_compute).
  destruct (record_integrity_metrics_measurements empty_meter empty_meter md
              SIGNAL_FIXTURE Hmd Hs)
    as (c1 & c2 & h1 & h2 & c3 & _ & _ & _ & _ & _ & _ & _ & Hlist).
  exists md. split; [exact Hmd|]. split; [exact Hs|].
  rewrite Hlist. by vm_compute.
Defined.

(** X11. A [metrics_dict] without the instrument a step needs makes
    [record_integrity_metrics] raise KeyError at that step, and what was
    measured before stays measured: without "integrity_checks" nothing is
    measured; without "concerns", on a signal with at least one concern, the
    integrity check has been counted when the KeyError is raised. *)
Theorem record_integrity_metrics_missing_instrument
    (m : meter) (metrics_dict : gmap string instrument) (signal : value)
    (checks_c : instrument) :
  integrity_signal_shaped signal = true →
  let verdict := field (field signal "checkpoint") "verdict" in
  let labels :=
    VDict {["verdict" := if py_truthy verdict then verdict else VStr "unknown"]} in
  (metrics_dict !! "integrity_checks" = None →
     record_integrity_metrics metrics_dict signal m
     = (Raise (KeyError "integrity_checks"), m))
  ∧ (metrics_dict !! "integrity_checks" = Some checks_c →
     instrument_kind checks_c = InstrumentKind.Counter →
     metrics_dict !! "concerns" = None →
     items_of (field (field signal "checkpoint") "concerns") ≠ [] →
     record_integrity_metrics metrics_dict signal m
     = (Raise (KeyError "concerns"),
        {| instruments_created := instruments_created m;
           measurements := measurements m ++ [measured checks_c (VInt 1) labels] |})).
Proof.
  intros Hs verdict labels. unfold integrity_signal_shaped in Hs. split_shape Hs.
  subst labels verdict. split.
  - intros Hchecks.
    unfold record_integrity_metrics, bind, lift, metrics_getitem. cbv zeta.
    run_recorder. reflexivity.
  - intros Hchecks Kchecks Hconcerns Hne.
    unfold record_integrity_metrics, bind, lift, metrics_getitem, measured. cbv zeta.
    run_recorder. rewrite !verdict_labels_display. unfold py_or.
    destruct (field (field signal "checkpoint") "concerns") as [| | | | |l|]; try done.
    destruct l as [|c l]; [done|]. reflexivity.
Qed.

Lemma record_integrity_metrics_missing_witness :
  let signal := dict [("checkpoint", dict [("concerns", VList [dict []])])] in
  let checks_c :=
    {| instrument_kind := InstrumentKind.Counter; instrument_name := "c";
       instrument_description := ""; instrument_unit := "" |} in
  integrity_signal_shaped signal = true
  ∧ record_integrity_metrics ∅ signal empty_meter
    = (Raise (KeyError "integrity_checks"), empty_meter)
  ∧ length (measurements
              (record_integrity_metrics {["integrity_checks" := checks_c]} signal
                 empty_meter).2) = 1%nat.
Proof.
  intros signal checks_c.
  assert (Hs : integrity_signal_shaped signal = true) by (by vm_compute).
  destruct (record_integrity_metrics_missing_instrument empty_meter ∅ signal
              checks_c Hs) as [Hnone _].
  destruct (record_integrity_metrics_missing_instrument empty_meter
              {["integrity_checks" := checks_c]} signal checks_c Hs) as [_ Hsome].
  split; [exact Hs|]. split; [by apply Hnone|].
  rewrite Hsome; [done|by vm_compute|done|by vm_compute|by vm_compute].
Defined.

(** X12. With the instruments of [create_aip_metrics] and a record of the
    shape of types.py, [record_verification_metrics] makes exactly these
    measurements, in this order: 1 on verifications; the number of
    violations on violations, only when there is at least one; the duration
    on verification_duration when not [None], all three with the attributes
    {"result": label}, a dictionary of that one key whose label is "pass"
    for a truthy verified, "unknown" for a missing or [None] one and "fail"
    for any other; and the score on coherence_score, without attributes,
    when the record has a score, so that a coherence result is counted as a
    verification labelled "unknown". *)
Theorem record_verification_metrics_measurements
    (m0 m : meter) (metrics_dict : gmap string instrument) (result : value) :
  (create_aip_metrics m0).1 = Ok metrics_dict →
  verification_result_shaped result = true →
  let verified := field result "verified" in
  let violations := items_of (field result "violations") in
  let duration := field (field result "verification_metadata") "duration_ms" in
  let score := field result "score" in
  let labels := VDict {["result" := result_label_of verified]} in
  let run := record_verification_metrics metrics_dict result m in
  ∃ verifications_c violations_c duration_h score_h,
    metrics_dict !! "verifications" = Some verifications_c
    ∧ metrics_dict !! "violations" = Some violations_c
    ∧ metrics_dict !! "verification_duration" = Some duration_h
    ∧ metrics_dict !! "coherence_score" = Some score_h
    ∧ run.1 = Ok tt
    ∧ measurements run.2 =
        measurements m
        ++ [measured verifications_c (VInt 1) labels]
        ++ optional (negb (bool_decide (violations = [])))
             (measured violations_c (VInt (Z.of_nat (length violations))) labels)
        ++ optional (negb (py_is_none duration)) (measured duration_h duration labels)
        ++ optional (negb (py_is_none score)) (measured score_h score VNone)
    ∧ (py_truthy verified = true → result_label_of verified = VStr "pass")
    ∧ (verified = VNone → result_label_of verified = VStr "unknown")
    ∧ (py_truthy verified = false → verified ≠ VNone →
         result_label_of verified = VStr "fail").
Proof.
  intros Hm Hs verified violations duration score labels run.
  destruct (create_aip_metrics_lookup_verification m0 metrics_dict Hm)
    as (verifications_c & violations_c & duration_h & score_h
        & Hverifications & Kverifications & Hviolations & Kviolations
        & Hduration & Kduration & Hscore & Kscore).
  exists verifications_c, violations_c, duration_h, score_h.
  do 4 (split; [assumption|]).
  clear Hm. unfold verification_result_shaped in Hs. split_shape Hs.
  assert (Hrun : run.1 = Ok tt ∧ measurements run.2 =
        measurements m
        ++ [measured verifications_c (VInt 1) labels]
        ++ optional (negb (bool_decide (violations = [])))
             (measured violations_c (VInt (Z.of_nat (length violations))) labels)
        ++ optional (negb (py_is_none duration)) (measured duration_h duration labels)
        ++ optional (negb (py_is_none score)) (measured score_h score VNone)).
  { subst run labels score duration violations verified.
    unfold record_verification_metrics, bind, lift, metrics_getitem, measured, optional.
    cbv zeta. run_recorder. rewrite !result_labels_display.
    destruct (field result "violations") as [| | | | |l|];
      try done; (destruct l as [|c l] || idtac);
      cbn [py_truthy py_len py_is_none ret items_of length bool_decide negb];
      destruct (py_is_none (field (field result "verification_metadata") "duration_ms"));
      destruct (py_is_none (field result "score"));
      cbn [ret measure modify fst snd measurements negb bool_decide decide_rel];
      (split; [reflexivity|]);
      rewrite <- ?(assoc_L (++)); reflexivity. }
  destruct Hrun as [Hret Hlist]. split; [exact Hret|]. split; [exact Hlist|].
  unfold result_label_of. split; [by intros ->|]. split; [by intros ->|].
  intros -> Hne. by destruct verified.
Qed.

Lemma record_verification_metrics_witness :
  ∃ metrics_dict,
    (create_aip_metrics empty_meter).1 = Ok metrics_dict
    ∧ verification_result_shaped COHERENCE_FIXTURE = true
    ∧ ∃ verifications_c score_h,
        measurements
          (record_verification_metrics metrics_dict COHERENCE_FIXTURE empty_meter).2
        = [measured verifications_c (VInt 1) (VDict {["result" := VStr "unknown"]});
           measured score_h (VFloat (9 # 10)) VNone].
Proof.
  assert (∃ md, (create_aip_metrics empty_meter).1 = Ok md) as [md Hmd]
    by (eexists; reflexivity).
  assert (Hs : verification_result_shaped COHERENCE_FIXTURE = true) by (by vm_compute).
  destruct (record_verification_metrics_measurements empty_meter empty_meter md
              COHERENCE_FIXTURE Hmd Hs)
    as (c1 & c2 & h1 & h2 & _ & _ & _ & _ & _ & Hlist & _).
  exists md. split; [exact Hmd|]. split; [exact Hs|].
  exists c1, h2. rewrite Hlist. by vm_compute.
Defined.

(** ** The lazy import *)

(** X13. The package resolves a name lazily to the instrumentor class
    exactly when the name is AIPInstrumentor and the four modules
    instrumentor.py imports can all be imported; any other name raises
    AttributeError, whatever is installed. *)
Theorem getattr_resolves_only_AIPInstrumentor (installed : gset string) (name : string) :
  (∀ cls, __getattr__ installed name = Ok cls ↔
          name = "AIPInstrumentor" ∧ ∀ m, m ∈ instrumentor_imports → m ∈ installed)
  ∧ (name ≠ "AIPInstrumentor" → __getattr__ installed name = Raise AttributeError).
Proof.
  assert (Himport : ∀ cls, import_instrumentor installed = Ok cls ↔
                      ∀ m, m ∈ instrumentor_imports → m ∈ installed).
  { intros cls. unfold import_instrumentor, import_module, instrumentor_imports. split.
    - intros H m Hm.
      repeat case_bool_decide; cbn [mbind outcome_bind] in H; try discriminate H.
      repeat (apply elem_of_cons in Hm as [->|Hm]; [assumption|]).
      by apply elem_of_nil in Hm.
    - intros H.
      rewrite !bool_decide_eq_true_2 by (apply H; find_entry).
      by destruct cls. }
  unfold __getattr__. destruct (String.eqb_spec name "AIPInstrumentor") as [->|Hne].
  - split; [|done]. intros cls. rewrite <- (Himport cls).
    destruct (import_instrumentor installed) as [c|[]]; naive_solver.
  - split; [|done]. intros cls. naive_solver.
Qed.

(** ** The instrumentor *)

Lemma set_process_tracer_same (p : process) : set_process_tracer (process_tracer p) p = p.
Proof. by destruct p. Qed.

(** X14. On an instrumentor that holds nothing, where the class AIPClient,
    if found, has a [check]: [_instrument] returns, each target that can be
    found is replaced by its wrapper with the original saved, and
    [_uninstrument] then puts the process back exactly as it was. *)
Theorem instrument_then_uninstrument_restores (p : process) :
  holds_nothing p →
  (check_resolvable p = true → AIPClient_check p ≠ None) →
  ∃ p1, _instrument p = (Ok tt, p1)
    ∧ _uninstrument p1 = (Ok tt, p)
    ∧ (check_resolvable p = true →
         AIPClient_check p1 = Some wrapped_check
         ∧ _original_check p1 = AIPClient_check p)
    ∧ (verify_resolvable p = true →
         verify_trace p1 = Some wrapped_verify
         ∧ _original_verify p1 = verify_trace p).
Proof.
  intros (H1 & H2 & H3 & H4) Hcheck.
  destruct p as [imp cls chk vimp vt oc ov ccls vmod tr]. simpl in *. subst.
  unfold check_resolvable, verify_resolvable in *. simpl in *.
  unfold _instrument, bind, instrument_check, instrument_verify, _uninstrument.
  destruct imp, cls, chk as [c|], vimp, vt as [v|]; simpl in *;
    try (exfalso; by apply Hcheck);
    (eexists; split; [reflexivity|]; split; [reflexivity|]; split; intros; done).
Qed.

Lemma instrument_then_uninstrument_witness :
  let p := {| aip_client_importable := true; AIPClient := true;
              AIPClient_check := Some (Original (λ _, Ok VNone));
              aap_verification_importable := false; verify_trace := None;
              _original_check := None; _original_verify := None;
              _aip_client_cls := false; _aap_verify_module := false;
              process_tracer := empty_tracer |} in
  ∃ p1, _instrument p = (Ok tt, p1) ∧ _uninstrument p1 = (Ok tt, p)
        ∧ AIPClient_check p1 = Some wrapped_check.
Proof.
  intros p.
  assert (Hn : holds_nothing p) by (by repeat split).
  assert (Hc : check_resolvable p = true → AIPClient_check p ≠ None) by done.
  destruct (instrument_then_uninstrument_restores p Hn Hc) as (p1 & Hi & Hu & Hw & _).
  exists p1. split; [exact Hi|]. split; [exact Hu|]. by apply Hw.
Defined.

(** X15. A target that cannot be found is passed over and the other one is
    still wrapped: without the class AIPClient [check] and the saved
    original stay as they are and [_instrument] returns; without
    [verify_trace] the same holds for it; with neither, [_instrument]
    changes nothing. *)
Theorem instrument_skips_what_it_cannot_find (p : process) :
  (check_resolvable p = false →
     (_instrument p).1 = Ok tt
     ∧ AIPClient_check (_instrument p).2 = AIPClient_check p
     ∧ _original_check (_instrument p).2 = _original_check p
     ∧ verify_trace (_instrument p).2 =
         (if verify_resolvable p then Some wrapped_verify else verify_trace p))
  ∧ (verify_resolvable p = false →
       verify_trace (_instrument p).2 = verify_trace p
       ∧ _original_verify (_instrument p).2 = _original_verify p
       ∧ (AIPClient_check p ≠ None →
            (_instrument p).1 = Ok tt
            ∧ AIPClient_check (_instrument p).2 =
                (if check_resolvable p then Some wrapped_check else AIPClient_check p)))
  ∧ (check_resolvable p = false → verify_resolvable p = false →
       _instrument p = (Ok tt, p)).
Proof.
  destruct p as [imp cls chk vimp vt oc ov ccls vmod tr].
  unfold check_resolvable, verify_resolvable, _instrument, bind,
    instrument_check, instrument_verify. simpl.
  destruct imp, cls, chk as [c|], vimp, vt as [v|]; simpl; repeat split; try done.
Qed.

(** X16. [_uninstrument] on an instrumentor that holds nothing changes
    nothing, and doing it twice is doing it once. *)
Theorem uninstrument_is_idempotent (p : process) :
  (holds_nothing p → _uninstrument p = (Ok tt, p))
  ∧ _uninstrument (_uninstrument p).2 = _uninstrument p.
Proof.
  destruct p as [imp cls chk vimp vt oc ov ccls vmod tr].
  unfold holds_nothing, _uninstrument. simpl. split.
  - intros (-> & -> & -> & ->). done.
  - by destruct ccls, oc, vmod, ov.
Qed.

(** X17. A class AIPClient without a [check] makes [_instrument] raise
    AttributeError: the class reference is kept, nothing is wrapped, and
    [verify_trace] is not even looked for. *)
Theorem instrument_without_check_raises (p : process) :
  check_resolvable p = true →
  AIPClient_check p = None →
  _instrument p = (Raise AttributeError, set_aip_client_cls true p)
  ∧ verify_trace (_instrument p).2 = verify_trace p
  ∧ _original_verify (_instrument p).2 = _original_verify p.
Proof.
  destruct p as [imp cls chk vimp vt oc ov ccls vmod tr].
  unfold check_resolvable, _instrument, bind, instrument_check. simpl.
  intros [-> ->]%andb_true_iff ->. done.
Qed.

Lemma instrument_without_check_witness :
  let p := {| aip_client_importable := true; AIPClient := true;
              AIPClient_check := None;
              aap_verification_importable := true;
              verify_trace := Some (Original (λ _, Ok VNone));
              _original_check := None; _original_verify := None;
              _aip_client_cls := false; _aap_verify_module := false;
              process_tracer := empty_tracer |} in
  (_instrument p).1 = Raise AttributeError
  ∧ verify_trace (_instrument p).2 = verify_trace p.
Proof.
  intros p.
  destruct (instrument_without_check_raises p eq_refl eq_refl) as (Hr & Hv & _).
  split; [by rewrite Hr|exact Hv].
Defined.

Lemma invoke_wrapped_check (n : nat) (f : value → outcome value) (args : value)
    (p : process) :
  _original_check p = Some (Original f) →
  invoke (S (S n)) wrapped_check args p =
    Some (match f args with
          | Ok result => record_if_truthy record_integrity_check result p
          | Raise e => (Raise e, p)
          end).
Proof. intros H. simpl. rewrite H. by destruct (f args). Qed.

Lemma invoke_wrapped_verify (n : nat) (f : value → outcome value) (args : value)
    (p : process) :
  _original_verify p = Some (Original f) →
  invoke (S (S n)) wrapped_verify args p =
    Some (match f args with
          | Ok result => record_if_truthy record_verification result p
          | Raise e => (Raise e, p)
          end).
Proof. intros H. simpl. rewrite H. by destruct (f args). Qed.

(** What [record_if_truthy] does with a result the mapper accepts. *)
Lemma record_if_truthy_shaped (record : value → M tracer span) (name : string)
    (result : value) (p : process) :
  one_ok_span name (process_tracer p) (record result (process_tracer p)) →
  py_truthy result = true →
  ∃ sp tr', record_if_truthy record result p = (Ok result, set_process_tracer tr' p)
    ∧ span_name sp = name
    ∧ span_status sp = StatusCode.OK
    ∧ finished_spans tr' = finished_spans (process_tracer p) ++ [sp].
Proof.
  intros (sp & Hr & Hn & _ & Hst & _ & _ & Hf & _) Ht. unfold record_if_truthy.
  rewrite Ht. destruct (record result (process_tracer p)) as [r tr'] eqn:E.
  simpl in Hr, Hf. subst r. by exists sp, tr'.
Qed.

(** X18. Once [_instrument] has wrapped a [check] that returns without
    effect, a call of [check] two or more calls deep returns what the
    original returns, unchanged: with the process as it was when that is
    falsy, and with exactly one more finished span, named
    "aip.integrity_check" and with status OK, when it is a truthy signal of
    the shape of types.py; what the original raises is raised, and nothing
    is recorded. *)
Theorem wrapped_check_returns_the_original_result
    (n : nat) (f : value → outcome value) (args : value) (p : process) :
  AIPClient_check p = Some wrapped_check →
  _original_check p = Some (Original f) →
  let call := call_check (S (S n)) args p in
  (∀ e, f args = Raise e → call = Some (Raise e, p))
  ∧ (∀ result, f args = Ok result → py_truthy result = false →
       call = Some (Ok result, p))
  ∧ (∀ result, f args = Ok result → py_truthy result = true →
       integrity_signal_shaped result = true →
       ∃ sp tr', call = Some (Ok result, set_process_tracer tr' p)
         ∧ span_name sp = attr.SPAN_AIP_INTEGRITY_CHECK
         ∧ span_status sp = StatusCode.OK
         ∧ finished_spans tr' = finished_spans (process_tracer p) ++ [sp]).
Proof.
  intros Hc Ho call. subst call. unfold call_check. rewrite Hc.
  rewrite (invoke_wrapped_check n f args p Ho). split; [|split].
  - by intros e ->.
  - intros result -> Ht. unfold record_if_truthy. by rewrite Ht.
  - intros result -> Ht Hs.
    destruct (record_if_truthy_shaped record_integrity_check
                attr.SPAN_AIP_INTEGRITY_CHECK result p) as (sp & tr' & -> & H);
      [|done|by exists sp, tr'].
    by destruct (record_integrity_check_observed result (process_tracer p) Hs)
      as (? & _ & ? & _).
Qed.

(** X19. The same for a wrapped [verify_trace]: its result is returned
    unchanged, with one more finished span named "aap.verify_trace" when it
    is a truthy result of the shape of types.py, and none when it is falsy
    or when the original raises. *)
Theorem wrapped_verify_returns_the_original_result
    (n : nat) (f : value → outcome value) (args : value) (p : process) :
  verify_trace p = Some wrapped_verify →
  _original_verify p = Some (Original f) →
  let call := call_verify_trace (S (S n)) args p in
  (∀ e, f args = Raise e → call = Some (Raise e, p))
  ∧ (∀ result, f args = Ok result → py_truthy result = false →
       call = Some (Ok result, p))
  ∧ (∀ result, f args = Ok result → py_truthy result = true →
       verification_result_shaped result = true →
       ∃ sp tr', call = Some (Ok result, set_process_tracer tr' p)
         ∧ span_name sp = attr.SPAN_AAP_VERIFY_TRACE
         ∧ span_status sp = StatusCode.OK
         ∧ finished_spans tr' = finished_spans (process_tracer p) ++ [sp]).
Proof.
  intros Hc Ho call. subst call. unfold call_verify_trace. rewrite Hc.
  rewrite (invoke_wrapped_verify n f args p Ho). split; [|split].
  - by intros e ->.
  - intros result -> Ht. unfold record_if_truthy. by rewrite Ht.
  - intros result -> Ht Hs.
    destruct (record_if_truthy_shaped record_verification
                attr.SPAN_AAP_VERIFY_TRACE result p) as (sp & tr' & -> & H);
      [|done|by exists sp, tr'].
    by destruct (record_verification_observed result (process_tracer p) Hs)
      as (? & _ & ? & _).
Qed.

(** X20. The wrappers let an exception of the mapper escape: when the
    original returns a truthy value that is no dictionary, the wrapped call
    raises AttributeError instead of returning it, and records nothing. *)
Theorem wrapped_call_raises_on_non_dictionary_result
    (n : nat) (f : value → outcome value) (args result : value) (p : process) :
  f args = Ok result →
  py_truthy result = true →
  is_dict result = false →
  (AIPClient_check p = Some wrapped_check → _original_check p = Some (Original f) →
     call_check (S (S n)) args p = Some (Raise AttributeError, p))
  ∧ (verify_trace p = Some wrapped_verify → _original_verify p = Some (Original f) →
       call_verify_trace (S (S n)) args p = Some (Raise AttributeError, p)).
Proof.
  intros Hf Ht Hd.
  assert (Hor : py_or result (VDict ∅) = result) by (unfold py_or; by rewrite Ht).
  assert (Hget : ∀ k, py_get result k = Raise AttributeError) by (by destruct result).
  split; intros Hc Ho.
  - unfold call_check. rewrite Hc, (invoke_wrapped_check n f args p Ho), Hf.
    unfold record_if_truthy. rewrite Ht.
    unfold record_integrity_check, bind, lift, integrity_check_payload.
    rewrite Hor, !Hget. cbn. by rewrite set_process_tracer_same.
  - unfold call_verify_trace. rewrite Hc, (invoke_wrapped_verify n f args p Ho), Hf.
    unfold record_if_truthy. rewrite Ht.
    unfold record_verification, bind, lift, verification_payload. cbv zeta.
    rewrite Hor, !Hget. cbn. by rewrite set_process_tracer_same.
Qed.

Lemma wrapped_check_witness :
  let p := (_instrument (sample_process SIGNAL_FIXTURE VERIFICATION_FIXTURE)).2 in
  ∃ sp tr', call_check 2 VNone p = Some (Ok SIGNAL_FIXTURE, set_process_tracer tr' p)
    ∧ span_name sp = attr.SPAN_AIP_INTEGRITY_CHECK
    ∧ finished_spans tr' = [sp].
Proof.
  intros p.
  destruct (wrapped_check_returns_the_original_result 0 (λ _, Ok SIGNAL_FIXTURE) VNone p
              eq_refl eq_refl) as (_ & _ & H).
  destruct (H SIGNAL_FIXTURE eq_refl ltac:(by vm_compute) ltac:(by vm_compute))
    as (sp & tr' & Hcall & Hname & _ & Hfin).
  exists sp, tr'. split; [exact Hcall|]. split; [exact Hname|exact Hfin].
Defined.

Lemma wrapped_verify_witness :
  let p := (_instrument (sample_process SIGNAL_FIXTURE VERIFICATION_FIXTURE)).2 in
  ∃ sp tr',
    call_verify_trace 2 VNone p = Some (Ok VERIFICATION_FIXTURE, set_process_tracer tr' p)
    ∧ span_name sp = attr.SPAN_AAP_VERIFY_TRACE
    ∧ finished_spans tr' = [sp].
Proof.
  intros p.
  destruct (wrapped_verify_returns_the_original_result 0 (λ _, Ok VERIFICATION_FIXTURE)
              VNone p eq_refl eq_refl) as (_ & _ & H).
  destruct (H VERIFICATION_FIXTURE eq_refl ltac:(by vm_compute) ltac:(by vm_compute))
    as (sp & tr' & Hcall & Hname & _ & Hfin).
  exists sp, tr'. split; [exact Hcall|]. split; [exact Hname|exact Hfin].
Defined.

Lemma wrapped_call_raises_witness :
  let p := (_instrument (sample_process (VStr "clear") VNone)).2 in
  call_check 2 VNone p = Some (Raise AttributeError, p).
Proof.
  intros p.
  destruct (wrapped_call_raises_on_non_dictionary_result 0 (λ _, Ok (VStr "clear"))
              VNone (VStr "clear") p eq_refl eq_refl eq_refl) as [H _].
  exact (H eq_refl eq_refl).
Defined.

Lemma getattr_witness :
  __getattr__ (list_to_set instrumentor_imports) "AIPInstrumentor" = Ok AIPInstrumentor
  ∧ __getattr__ (list_to_set instrumentor_imports) "AIPOTelRecorder" = Raise AttributeError.
Proof.
  destruct (getattr_resolves_only_AIPInstrumentor
              (list_to_set instrumentor_imports) "AIPInstrumentor") as [Hok _].
  destruct (getattr_resolves_only_AIPInstrumentor
              (list_to_set instrumentor_imports) "AIPOTelRecorder") as [_ Hother].
  split.
  - apply Hok. split; [reflexivity|]. intros m Hm. by apply elem_of_list_to_set.
  - apply Hother. discriminate.
Defined.

Lemma instrument_skips_witness :
  let p := {| aip_client_importable := false; AIPClient := false;
              AIPClient_check := None;
              aap_verification_importable := true;
              verify_trace := Some (Original (λ _, Ok VNone));
              _original_check := None; _original_verify := None;
              _aip_client_cls := false; _aap_verify_module := false;
              process_tracer := empty_tracer |} in
  (_instrument p).1 = Ok tt
  ∧ AIPClient_check (_instrument p).2 = None
  ∧ verify_trace (_instrument p).2 = Some wrapped_verify.
Proof.
  intros p.
  destruct (instrument_skips_what_it_cannot_find p) as (H & _ & _).
  destruct (H eq_refl) as (Hr & Hc & _ & Hv).
  exact (conj Hr (conj Hc Hv)).
Defined.

Lemma uninstrument_witness :
  _uninstrument (sample_process VNone VNone) = (Ok tt, sample_process VNone VNone).
Proof.
  destruct (uninstrument_is_idempotent (sample_process VNone VNone)) as [H _].
  apply H. by repeat split.
Defined.

(** X21. [_instrument] a second time, on a process whose [check] it has
    already wrapped, saves the wrapper as the original: from then on a call
    of [check] calls itself and exceeds every depth, and [_uninstrument]
    puts the wrapper back, not the function that was there at first, after
    which a call of [check] raises TypeError. *)
Theorem instrument_twice_loses_the_original (p : process) :
  check_resolvable p = true →
  AIPClient_check p = Some wrapped_check →
  let p2 := (_instrument p).2 in
  (_instrument p).1 = Ok tt
  ∧ AIPClient_check p2 = Some wrapped_check
  ∧ _original_check p2 = Some wrapped_check
  ∧ (∀ depth args, call_check depth args p2 = None)
  ∧ AIPClient_check (_uninstrument p2).2 = Some wrapped_check
  ∧ _original_check (_uninstrument p2).2 = None
  ∧ (∀ depth args,
       call_check (S depth) args (_uninstrument p2).2
       = Some (Raise TypeError, (_uninstrument p2).2)).
Proof.
  intros Hr Hc p2.
  destruct p as [imp cls chk vimp vt oc ov ccls vmod tr].
  unfold check_resolvable in Hr. simpl in Hr, Hc.
  apply andb_true_iff in Hr as [-> ->]. subst chk.
  assert (H1 : (_instrument {| aip_client_importable := true; AIPClient := true;
                   AIPClient_check := Some wrapped_check;
                   aap_verification_importable := vimp; verify_trace := vt;
                   _original_check := oc; _original_verify := ov;
                   _aip_client_cls := ccls; _aap_verify_module := vmod;
                   process_tracer := tr |}).1 = Ok tt)
    by (unfold _instrument, bind, instrument_check, instrument_verify; simpl;
        by destruct vimp, vt).
  assert (H2 : AIPClient_check p2 = Some wrapped_check
               ∧ _original_check p2 = Some wrapped_check ∧ _aip_client_cls p2 = true)
    by (subst p2; unfold _instrument, bind, instrument_check, instrument_verify; simpl;
        by destruct vimp, vt).
  destruct H2 as (Hc2 & Ho2 & Hcls2).
  split; [exact H1|]. split; [exact Hc2|]. split; [exact Ho2|].
  split.
  { intros depth args. unfold call_check. rewrite Hc2.
    induction depth as [|depth IH]; [done|]. simpl. by rewrite Ho2, IH. }
  generalize dependent p2. intros p2 Hc2 Ho2 Hcls2.
  destruct p2 as [imp2 cls2 chk2 vimp2 vt2 oc2 ov2 ccls2 vmod2 tr2].
  simpl in Hc2, Ho2, Hcls2. subst.
  unfold _uninstrument, call_check. simpl.
  split; [by destruct vmod2, ov2|]. split; [by destruct vmod2, ov2|].
  intros depth args. by destruct vmod2, ov2.
Qed.

Lemma instrument_twice_witness :
  let p := (_instrument (sample_process SIGNAL_FIXTURE VNone)).2 in
  check_resolvable p = true
  ∧ AIPClient_check p = Some wrapped_check
  ∧ call_check 1000 VNone (_instrument p).2 = None.
Proof.
  intros p.
  destruct (instrument_twice_loses_the_original p eq_refl eq_refl)
    as (_ & _ & _ & Hloop & _).
  exact (conj eq_refl (conj eq_refl (Hloop 1000%nat VNone))).
Defined.

(** ** The context of the span *)

Lemma add_events_keep (sp sp' : span) (evs : list value) :
  for_each add_event_of sp evs = Ok sp' →
  span_name sp' = span_name sp ∧ span_kind sp' = span_kind sp
  ∧ span_parent sp' = span_parent sp ∧ span_ended sp' = span_ended sp.
Proof.
  revert sp. induction evs as [|ev evs IH]; intros sp H; simpl in H.
  - by inversion H.
  - apply bind_Ok_inv in H as (sp1 & H1 & H).
    destruct (IH _ H) as (-> & -> & -> & ->).
    unfold add_event_of in H1.
    apply bind_Ok_inv in H1 as (n & _ & H1). apply bind_Ok_inv in H1 as (a & _ & H1).
    inversion H1 as [H2]. clear H1 H. unfold add_event.
    by destruct (span_ended sp) eqn:Hend.
Qed.

(** X22. Whatever it is given, [build_span] leaves the active context as it
    is (the new span is not made current), and a span it returns is an
    INTERNAL span of the given name whose parent is the context that was
    active when it was started. *)
Theorem build_span_keeps_the_active_context
    (name : string) (attributes events : value) (tr : tracer) :
  let run := build_span name attributes events tr in
  current_context run.2 = current_context tr
  ∧ ∀ sp, run.1 = Ok sp →
      span_name sp = name ∧ span_kind sp = SpanKind.INTERNAL
      ∧ span_parent sp = current_context tr ∧ span_ended sp = true.
Proof.
  intros run. subst run.
  unfold build_span, bind, get_current, gets, start_span, lift.
  destruct attributes as [| | | | | |d]; try (split; [done|intros sp H; discriminate H]).
  rewrite set_optional_attributes_run by done. cbn [span_name span_kind span_parent
    span_attributes span_events span_status span_ended].
  destruct (py_truthy events); [|split; [done|intros sp H; by inversion H]].
  destruct (py_iter events ≫= _) as [sp1|e] eqn:E;
    [|split; [done|intros sp H; discriminate H]].
  apply bind_Ok_inv in E as (evs & _ & E).
  destruct (add_events_keep _ _ _ E) as (Hn & Hk & Hp & He). simpl in Hn, Hk, Hp, He.
  unfold set_status, span_end. rewrite !He. cbn [span_ended]. rewrite ?He.
  split; [done|]. intros sp H. inversion H. done.
Qed.
